(** * jf-http-request: a model of [index.js] and its specification

    The module wraps NodeJS' [http.request]: it normalises the request
    options, consults a process-wide response cache, performs the request,
    decodes the body, classifies the outcome and hands it over through a
    callback, an event emitter or a promise.

    JavaScript objects are mutable and shared, so they live in a heap and
    values refer to them by address.  Every function of [index.js] is a
    computation over the state of the process (heap, cache table, default
    cache time, clock, trace of observable effects) that either returns or
    throws. *)

From Stdlib Require Import ZArith String Ascii Lia.
From stdpp Require Import base option gmap strings list fin_maps pretty.

Local Open Scope string_scope.

(** ** Values *)

Definition addr := nat.

(** Numbers are the integers the program handles (status codes, timestamps
    and durations in milliseconds).  A [Buffer] and an [Error] are kept as
    immutable values. *)
Inductive value : Type :=
| VUndef
| VNull
| VBool (b : bool)
| VNum (n : Z)
| VStr (s : string)
| VBuf (bytes : string)
| VErr (message : string)
| VObj (a : addr)
| VFun (a : addr).

#[global] Instance value_eq_dec : EqDecision value.
Proof. solve_decision. Defined.

(** The class of a heap object, as far as the program tells them apart. *)
Inductive kind := KObject | KArray | KFunction | KEvents | KPromise | KMessage.

#[global] Instance kind_eq_dec : EqDecision kind.
Proof. solve_decision. Defined.

(** An object: its class and its own properties. *)
Record object := Object { o_kind : kind; o_props : gmap string value }.

Definition truthy (v : value) : bool :=
  match v with
  | VUndef | VNull => false
  | VBool b => b
  | VNum n => negb (n =? 0)%Z
  | VStr s => negb (String.eqb s "")
  | VBuf _ | VErr _ | VObj _ | VFun _ => true
  end.

Definition typeof (v : value) : string :=
  match v with
  | VUndef => "undefined"
  | VNull => "object"
  | VBool _ => "boolean"
  | VNum _ => "number"
  | VStr _ => "string"
  | VBuf _ | VErr _ | VObj _ => "object"
  | VFun _ => "function"
  end.

(** [ToNumber] on the values whose conversion is an integer; [None] stands
    for [NaN] (and for text, whose numeric reading is not modelled). *)
Definition to_number (v : value) : option Z :=
  match v with
  | VNum n => Some n
  | VBool b => Some (if b then 1 else 0)%Z
  | VNull => Some 0%Z
  | _ => None
  end.

(** [v >= n] and [v < n] against a number literal: false on [NaN]. *)
Definition js_ge (v : value) (n : Z) : bool :=
  match to_number v with Some m => (n <=? m)%Z | None => false end.

Definition js_lt (v : value) (n : Z) : bool :=
  match to_number v with Some m => (m <? n)%Z | None => false end.

(** [a === b] on primitives and references. *)
Definition strict_eq (a b : value) : bool := bool_decide (a = b).

(** [ToString], exact on primitives. *)
Definition to_string (v : value) : string :=
  match v with
  | VUndef => "undefined"
  | VNull => "null"
  | VBool b => if b then "true" else "false"
  | VNum n => pretty n
  | VStr s => s
  | VBuf bytes => bytes
  | VErr message => "Error: " ++ message
  | VObj _ => "[object Object]"
  | VFun _ => "function"
  end.

(** ** State of the process *)

(** One entry of the cache table: [{ data : _serialized, time : ... }]. *)
Record entry := Entry { data : value; time : Z }.

#[global] Instance entry_eq_dec : EqDecision entry.
Proof. solve_decision. Defined.

(** What a statement of the program throws. *)
Inductive exn := TypeError (message : string).

(** What the outside world can observe of a call.  [Request]: the request
    was made ([httpRequest] or [httpsRequest] returned); [RequestWrite]: the
    body was written; [RejectThrown]: the promise was rejected with what
    its executor threw. *)
Inductive event :=
| Request (secure : bool) (options : value)
| RequestWrite (body : value)
| RequestEnd
| Callback (cb : value) (payload : value) (type : string)
| Emit (emitter : value) (name : string) (payload : value)
| Resolve (promise : value) (result : value)
| Reject (promise : value) (reason : value)
| RejectThrown (promise : value) (thrown : exn).

Record world := World {
  heap : list object;
  cache : gmap string entry;   (* const cache = {} *)
  cacheTime : value;           (* let cacheTime = 0 *)
  clock : Z;                   (* new Date().getTime() *)
  trace : list event
}.

Definition with_heap (h : list object) (w : world) : world :=
  World h (cache w) (cacheTime w) (clock w) (trace w).

Definition with_cache (c : gmap string entry) (w : world) : world :=
  World (heap w) c (cacheTime w) (clock w) (trace w).

Definition with_trace (t : list event) (w : world) : world :=
  World (heap w) (cache w) (cacheTime w) (clock w) t.

(** Time passing between two calls. *)
Definition advance (d : Z) (w : world) : world :=
  World (heap w) (cache w) (cacheTime w) (clock w + d)%Z (trace w).

(** The module starts with an empty cache and a default cache time of 0. *)
Definition initial (now : Z) : world := World [] ∅ (VNum 0) now [].

(** ** Computations *)

Inductive res (A : Type) : Type :=
| Ret (a : A)
| Throw (e : exn).
Arguments Ret {A} a.
Arguments Throw {A} e.

Definition M (A : Type) : Type := world -> res A * world.

Definition ret {A} (a : A) : M A := fun w => (Ret a, w).

Definition throw {A} (e : exn) : M A := fun w => (Throw e, w).

Definition bind {A B} (m : M A) (k : A -> M B) : M B :=
  fun w =>
    match m w with
    | (Ret a, w') => k a w'
    | (Throw e, w') => (Throw e, w')
    end.

(** [try { m } catch (e) { handler e }] *)
Definition try_catch {A} (m : M A) (handler : exn -> M A) : M A :=
  fun w =>
    match m w with
    | (Ret a, w') => (Ret a, w')
    | (Throw e, w') => handler e w'
    end.

Declare Scope js_scope.
Delimit Scope js_scope with js.
Notation "'let*' x := m 'in' k" := (bind m (fun x => k))
  (at level 10, x pattern, m at level 100, k at level 200) : js_scope.
Notation "m ;; k" := (bind m (fun _ => k))
  (at level 100, k at level 200, right associativity) : js_scope.
Local Open Scope js_scope.

Fixpoint forEach {A} (l : list A) (f : A -> M unit) : M unit :=
  match l with
  | [] => ret tt
  | x :: l' => f x ;; forEach l' f
  end.

(** *** Primitive operations on objects *)

Definition prop (o : gmap string value) (name : string) : value :=
  default VUndef (o !! name).

(** [new ...] and object literals: the new object gets the next address. *)
Definition alloc (k : kind) (props : gmap string value) : M value :=
  fun w =>
    (Ret (if decide (k = KFunction) then VFun (length (heap w))
          else VObj (length (heap w))),
     with_heap (heap w ++ [Object k props]) w).

Definition deref (v : value) : option addr :=
  match v with
  | VObj a | VFun a => Some a
  | _ => None
  end.

(** [v[name]]: a property of an object; reading from [undefined] or [null]
    throws; other primitives carry none of the names the program reads.
    Only own properties are looked up. *)
Definition get_prop (v : value) (name : string) : M value :=
  fun w =>
    match v with
    | VUndef | VNull =>
        (Throw (TypeError ("Cannot read property " ++ name)), w)
    | _ =>
        match deref v with
        | Some a =>
            match heap w !! a with
            | Some o => (Ret (prop (o_props o) name), w)
            | None => (Ret VUndef, w)
            end
        | None => (Ret VUndef, w)
        end
    end.

Definition update_props (f : gmap string value -> gmap string value)
    (a : addr) (w : world) : world :=
  match heap w !! a with
  | Some o => with_heap (<[a := Object (o_kind o) (f (o_props o))]> (heap w)) w
  | None => w
  end.

(** [v[name] = x] *)
Definition set_prop (v : value) (name : string) (x : value) : M unit :=
  fun w =>
    match v with
    | VUndef | VNull =>
        (Throw (TypeError ("Cannot set property " ++ name)), w)
    | _ =>
        match deref v with
        | Some a => (Ret tt, update_props (insert name x) a w)
        | None => (Ret tt, w)
        end
    end.

(** [delete v[name]] *)
Definition delete_prop (v : value) (name : string) : M unit :=
  fun w =>
    match v with
    | VUndef | VNull =>
        (Throw (TypeError ("Cannot convert undefined or null to object")), w)
    | _ =>
        match deref v with
        | Some a => (Ret tt, update_props (delete name) a w)
        | None => (Ret tt, w)
        end
    end.

(** [name in v]: throws unless [v] is an object. *)
Definition has_prop (name : string) (v : value) : M bool :=
  fun w =>
    match deref v with
    | Some a =>
        match heap w !! a with
        | Some o => (Ret (bool_decide (is_Some (o_props o !! name))), w)
        | None => (Ret false, w)
        end
    | None =>
        match v with
        | VBuf _ | VErr _ => (Ret false, w)
        | _ => (Throw (TypeError ("Cannot use 'in' operator to search for " ++ name)), w)
        end
    end.

(** The own properties of an object, as a collaborator enumerates them. *)
Definition own_props (v : value) : M (gmap string value) :=
  fun w =>
    match deref v with
    | Some a =>
        match heap w !! a with
        | Some o => (Ret (o_props o), w)
        | None => (Ret ∅, w)
        end
    | None => (Ret ∅, w)
    end.

(** [Object.assign(v, src)] for a source whose properties are [src]. *)
Definition object_assign (v : value) (src : gmap string value) : M unit :=
  fun w =>
    match v with
    | VUndef | VNull =>
        (Throw (TypeError "Cannot convert undefined or null to object"), w)
    | _ =>
        match deref v with
        | Some a => (Ret tt, update_props (fun o => src ∪ o) a w)
        | None => (Ret tt, w)
        end
    end.

Definition now : M Z := fun w => (Ret (clock w), w).

Definition log (e : event) : M unit :=
  fun w => (Ret tt, with_trace (trace w ++ [e]) w).

(** ** Outcome classifier *)

(** [isOk]: a request succeeded when its code is 2XX or 304. *)
Definition isOk (response : value) : M bool :=
  let* sc := (if truthy response then get_prop response "statusCode"
              else ret response) in
  let _code := if truthy sc then sc else VNum 0 in
  ret ((js_ge _code 200 && js_lt _code 300) || strict_eq _code (VNum 304)).

(** [isPromise]: does the class implement the methods used with promises? *)
Definition isPromise (Class : value) : M bool :=
  if negb (String.eqb (typeof Class) "function") then ret false
  else
    let* proto := get_prop Class "prototype" in
    if negb (String.eqb (typeof proto) "object") then ret false
    else
      let* _catch := get_prop proto "catch" in
      if negb (String.eqb (typeof _catch) "function") then ret false
      else
        let* _then := get_prop proto "then" in
        ret (String.eqb (typeof _then) "function").

(** ** Collaborators outside the repository *)

(** A parsed JSON text. *)
#[warnings="-register-all"]
Inductive json :=
| JNull
| JBool (b : bool)
| JNum (n : Z)
| JStr (s : string)
| JArr (items : list json)
| JObj (members : list (string * json)).

(** What [new Class(executor)] does with the value the caller names as
    the class. *)
Inductive construction :=
| PromiseClass      (* a promise class (ES6, 25.4): the executor runs at
                       once, and what it throws rejects the promise *)
| PlainConstructor  (* a constructor that leaves its argument alone *)
| NotConstructor.   (* [new] throws *)

(** NodeJS: [url.parse], [crypto], [JSON], the fields a new
    [http.IncomingMessage] starts with, the text of a [Buffer] (UTF-8),
    what [httpsRequest] ([true]) or [httpRequest] ([false]) throws at once
    on the options it is given, if anything (an illegal path, a protocol
    it does not speak, ...), and what [new] does with a function, which is
    decided by the code of the function. *)
Class Node := {
  urlParse : string -> gmap string value;
  sha256_hex : string -> string;
  JSON_stringify : list object -> value -> string;
  JSON_parse : string -> option json;
  IncomingMessage_props : gmap string value;
  Buffer_toString : string -> string;
  request_throws : bool -> list object -> value -> option exn;
  construct : value -> construction
}.

(** [request.write(chunk, 'utf8')] takes a text or a [Buffer], and throws
    a [TypeError] on anything else. *)
Definition writable (chunk : value) : bool :=
  match chunk with
  | VStr _ | VBuf _ => true
  | _ => false
  end.

Definition lower_ascii (c : ascii) : ascii :=
  let n := nat_of_ascii c in
  if (65 <=? n)%nat && (n <=? 90)%nat then ascii_of_nat (n + 32) else c.

Fixpoint lower (s : string) : string :=
  match s with
  | EmptyString => EmptyString
  | String c s' => String (lower_ascii c) (lower s')
  end.

(** The class [jfHttpHeaders] of the package [jf-http-headers], which
    normalises header names: [new jfHttpHeaders(obj)], [get], [set] and the
    field [headers].  Names that differ by more than letter case are
    different headers. *)
Class HttpHeaders := {
  headers_t : Type;
  hdr_new : gmap string value -> headers_t;
  hdr_get : headers_t -> string -> value;
  hdr_set : headers_t -> string -> value -> headers_t;
  hdr_headers : headers_t -> gmap string value;
  hdr_get_set_eq : forall h k s, hdr_get (hdr_set h k (VStr s)) k = VStr s;
  hdr_get_set_ne : forall h k k' v,
    lower k <> lower k' -> hdr_get (hdr_set h k v) k' = hdr_get h k';
  hdr_get_new_headers : forall h k,
    hdr_get (hdr_new (hdr_headers h)) k = hdr_get h k
}.

(** What the network does with one request: a transport error, or a
    response object together with the chunks of its body.  Either comes
    [elapsed] milliseconds after the request was sent. *)
Inductive answer :=
| NetError (elapsed : Z) (err : value)
| NetResponse (elapsed : Z) (response : value) (chunks : list string).

Section Program.

Context `{Node} `{HttpHeaders}.

(** ** Cache *)

(** Properties of the response that are serialised. *)
Definition properties : list string :=
  [ "body"; "headers"; "httpVersion"; "httpVersionMajor"; "httpVersionMinor";
    "method"; "rawHeaders"; "rawTrailers"; "statusCode"; "statusMessage";
    "trailers"; "url" ].

Definition get_cache : M (gmap string entry) := fun w => (Ret (cache w), w).

Definition put_cache (c : gmap string entry) : M unit :=
  fun w => (Ret tt, with_cache c w).

(** [purgeCache]: drops the expired content of the cache. *)
Definition purgeCache : M unit :=
  let* _current := now in
  let* c := get_cache in
  forEach (map_to_list c).*1 (fun key =>
    let* c := get_cache in
    match c !! key with
    | Some e =>
        if bool_decide (time e < _current)%Z then put_cache (delete key c)
        else ret tt
    | None => throw (TypeError "Cannot read property time")
    end).

(** [addToCache]: stores a response under [hash] for [time] milliseconds. *)
Definition addToCache (hash : string) (time : Z) (response : value) : M unit :=
  purgeCache ;;
  let* _serialized := alloc KObject ∅ in
  forEach properties (fun name =>
    let* v := get_prop response name in
    set_prop _serialized name v) ;;
  let* t := now in
  let* c := get_cache in
  put_cache (<[hash := Entry _serialized (t + time)]> c).

(** [buildHash]: the key of the cache for some content. *)
Definition buildHash (content : string) : string := sha256_hex content.

(** [fromCache]: the response stored under [hash], or [undefined]. *)
Definition fromCache (hash : string) : M value :=
  purgeCache ;;
  let* c := get_cache in
  match c !! hash with
  | Some _data =>
      let _values := data _data in
      let* _response := alloc KMessage IncomingMessage_props in
      forEach properties (fun name =>
        let* v := get_prop _values name in
        set_prop _response name v) ;;
      ret _response
  | None => ret VUndef
  end.

(** [setCacheTime] *)
Definition setCacheTime (time : value) : M unit :=
  fun w => (Ret tt, World (heap w) (cache w) time (clock w) (trace w)).

(** ** Option normaliser *)

(** [s.split(';').shift()] *)
Fixpoint before_semicolon (s : string) : string :=
  match s with
  | EmptyString => EmptyString
  | String c s' =>
      if Ascii.eqb c ";" then EmptyString else String c (before_semicolon s')
  end.

(** [_body[0] === '<'] *)
Definition starts_with_lt (s : string) : bool :=
  match s with
  | String c _ => Ascii.eqb c "<"
  | EmptyString => false
  end.

(** [checkHeaders]: fills in [Content-Type] and [Accept]. *)
Definition checkHeaders (options : value) : M unit :=
  let* present := has_prop "headers" options in
  if present then
    let* given := get_prop options "headers" in
    let* src := own_props given in
    let _headers := hdr_new src in
    let* _headers :=
      (if negb (truthy (hdr_get _headers "Content-Type")) then
         let* has_body := has_prop "body" options in
         if has_body then
           let* _body := get_prop options "body" in
           match _body with
           | VStr s =>
               ret (hdr_set _headers "Content-Type"
                      (VStr (if starts_with_lt s then "text/html; charset=utf-8"
                             else "text/plain; charset=utf-8")))
           | _ =>
               if String.eqb (typeof _body) "object" then
                 ret (hdr_set _headers "Content-Type"
                        (VStr "application/json; charset=utf-8"))
               else ret _headers
           end
         else ret _headers
       else ret _headers) in
    let* _headers :=
      (if negb (truthy (hdr_get _headers "Accept")) then
         let _contentType := hdr_get _headers "Content-Type" in
         if truthy _contentType then
           match _contentType with
           | VStr s => ret (hdr_set _headers "Accept" (VStr (before_semicolon s)))
           | _ => throw (TypeError "_contentType.split is not a function")
           end
         else ret _headers
       else ret _headers) in
    let* result := alloc KObject (hdr_headers _headers) in
    set_prop options "headers" result
  else ret tt.

(** [checkUrl]: resolves the URL and the host name of the request. *)
Definition checkUrl (options : value) : M unit :=
  let* _url := get_prop options "url" in
  match _url with
  | VStr u =>
      let _url := urlParse u in
      let* pathname := get_prop options "pathname" in
      let* _url :=
        (if truthy pathname then
           delete_prop options "pathname" ;;
           ret (<["path" := pathname]> _url)
         else if truthy (prop _url "query") then
           ret (<["path" := VStr (to_string (prop _url "path") ++
                                   ("?" ++ to_string (prop _url "query")))]> _url)
         else ret _url) in
      object_assign options _url ;;
      delete_prop options "url"
  | _ => ret tt
  end ;;
  let* host := get_prop options "host" in
  (if truthy host then
     let* hostname := get_prop options "hostname" in
     (* `hostname` is preferred over `host` *)
     (if negb (truthy hostname) then set_prop options "hostname" host
      else ret tt) ;;
     delete_prop options "host"
   else ret tt) ;;
  let* hostname := get_prop options "hostname" in
  if negb (truthy hostname) then throw (TypeError "Wrong hostname")
  else ret tt.

(** ** Request executor *)

(** The value [JSON.parse] builds for a parsed text: objects and arrays are
    new objects of the heap.  The items of an array are its properties
    under their indices, from [i] on, beside its [length]; of members with
    the same name the last one stays. *)
Fixpoint alloc_items {A} (build : A -> M value) (l : list A) (i : nat) :
    M (gmap string value) :=
  match l with
  | [] => ret {[ "length" := VNum (Z.of_nat i) ]}
  | x :: l' =>
      let* v := build x in
      let* m := alloc_items build l' (S i) in
      ret (<[pretty i := v]> m)
  end.

Fixpoint alloc_members {A} (build : A -> M value) (l : list (string * A)) :
    M (gmap string value) :=
  match l with
  | [] => ret ∅
  | kx :: l' =>
      let* v := build kx.2 in
      let* m := alloc_members build l' in
      ret (if decide (is_Some (m !! kx.1)) then m else <[kx.1 := v]> m)
  end.

Fixpoint alloc_json (j : json) : M value :=
  match j with
  | JNull => ret VNull
  | JBool b => ret (VBool b)
  | JNum n => ret (VNum n)
  | JStr s => ret (VStr s)
  | JArr items =>
      let* props := alloc_items alloc_json items 0 in
      alloc KArray props
  | JObj members =>
      let* props := alloc_members alloc_json members in
      alloc KObject props
  end.

(** The test [/[+/]json(;|$)/] on a text: somewhere a [+] or a [/], then
    [json], then a [;] or the end of the text. *)
Fixpoint strip_prefix (p s : string) : option string :=
  match p, s with
  | EmptyString, _ => Some s
  | String a p', String b s' =>
      if Ascii.eqb a b then strip_prefix p' s' else None
  | String _ _, EmptyString => None
  end.

Definition json_suffix (s : string) : bool :=
  match s with
  | String c s' =>
      (Ascii.eqb c "+" || Ascii.eqb c "/") &&
      match strip_prefix "json" s' with
      | Some EmptyString => true
      | Some (String d _) => Ascii.eqb d ";"
      | None => false
      end
  | EmptyString => false
  end.

Fixpoint json_content_type (s : string) : bool :=
  json_suffix s ||
  match s with
  | EmptyString => false
  | String _ s' => json_content_type s'
  end.

(** The effective cache time of a request. *)
Definition effectiveCacheTime (options : value) : M value :=
  let* own := has_prop "cacheTime" options in
  if own then get_prop options "cacheTime"
  else fun w => (Ret (cacheTime w), w).

(** The duration a cache time stands for.  The module takes a cache time
    to be a number ([@type {Number}], [@param {Number} time]), and on a
    number this is the number itself.  On another truthy value
    [new Date().getTime() + time] is no sum but a text, which the integer
    time of an entry cannot hold: the statements that read the time of a
    stored entry are about cache times that are numbers. *)
Definition milliseconds (v : value) : Z := default 0%Z (to_number v).

(** The end of the response stream: decodes the body, stores the response
    in the cache when a hash was computed, and hands it to [ok]. *)
Definition onEnd (_hash _cacheTime response : value) (_chunks : list string)
    (ok : value -> M unit) : M unit :=
  let _body := VBuf (String.concat "" _chunks) in
  let* given := get_prop response "headers" in
  let* src := own_props given in
  let _contentType := hdr_get (hdr_new src) "Content-Type" in
  (* application/json, application/vnd.api+json, text/json, etc. *)
  let* _body :=
    (if json_content_type (to_string _contentType) then
       (* JSON.parse('' + _body) *)
       match JSON_parse (Buffer_toString (String.concat "" _chunks)) with
       | Some j => alloc_json j
       | None => alloc KObject ∅
       end
     else ret _body) in
  set_prop response "body" _body ;;
  (if truthy _hash then
     addToCache (to_string _hash) (milliseconds _cacheTime) response
   else ret tt) ;;
  ok response.

(** [doRequest]: performs the request with the module [http] of NodeJS.
    [httpRequest] (or [httpsRequest]) and [write] may throw at once, which
    ends the call; [net] is what the network answers if the request is
    sent. *)
Definition doRequest (options : value) (ok error : value -> M unit)
    (net : answer) : M unit :=
  let* _cacheTime := effectiveCacheTime options in
  let* found :=
    (if truthy _cacheTime then
       let* h := (fun w => (Ret (JSON_stringify (heap w) options), w)) in
       let _hash := buildHash h in
       let* _response := fromCache _hash in
       ret (VStr _hash, _response)
     else ret (VUndef, VUndef)) in
  let _hash := found.1 in
  let _response := found.2 in
  if truthy _response then ok _response
  else
    let* protocol := get_prop options "protocol" in
    let secure := strict_eq protocol (VStr "https:") in
    let* refusal :=
      (fun w => (Ret (request_throws secure (heap w) options), w)) in
    match refusal with
    | Some e => throw e
    | None => log (Request secure options)
    end ;;
    let* has_body := has_prop "body" options in
    (if has_body then
       let* body := get_prop options "body" in
       if writable body then log (RequestWrite body)
       else throw (TypeError "The chunk must be a string or a Buffer")
     else ret tt) ;;
    log RequestEnd ;;
    match net with
    | NetError elapsed err =>
        (fun w => (Ret tt, advance elapsed w)) ;;
        error err
    | NetResponse elapsed response _chunks =>
        (fun w => (Ret tt, advance elapsed w)) ;;
        onEnd _hash _cacheTime response _chunks ok
    end.

(** ** Delivery *)

Definition outcome (ok : bool) : string :=
  if ok then "request-ok" else "request-fail".

(** [typeCallback]: the callback receives the result and its type. *)
Definition typeCallback (options cb : value) (net : answer) : M unit :=
  doRequest options
    (fun response =>
       let* ok := isOk response in
       log (Callback cb response (outcome ok)))
    (fun error => log (Callback cb error "request-error"))
    net.

(** [typeEvents]: the result is emitted on a new event emitter. *)
Definition typeEvents (options : value) (net : answer) : M value :=
  let* _events := alloc KEvents ∅ in
  doRequest options
    (fun response =>
       let* ok := isOk response in
       log (Emit _events (outcome ok) response))
    (fun error => log (Emit _events "request-error" error))
    net ;;
  ret _events.

(** [typePromise]: [new Promise(executor)] on the class the caller gave.
    A promise class runs the executor, that is the request, at once, and
    rejects the promise with what the executor throws: what [httpRequest]
    or [write] throw (the handling of the answer throws nothing when the
    response is an object). *)
Definition typePromise (Promise options : value) (net : answer) : M value :=
  match construct Promise with
  | PromiseClass =>
      let* promise := alloc KPromise {[ "constructor" := Promise ]} in
      try_catch
        (doRequest options
           (fun result => log (Resolve promise result))
           (fun reason => log (Reject promise reason))
           net)
        (fun e => log (RejectThrown promise e)) ;;
      ret promise
  | PlainConstructor => alloc KObject ∅
  | NotConstructor => throw (TypeError "Promise is not a constructor")
  end.

(** [jfHttpRequest]: the function the module exports. *)
Definition jfHttpRequest (options : value) (net : answer) : M value :=
  if truthy options then
    let* options :=
      (match options with
       | VStr url => alloc KObject {[ "url" := VStr url ]}
       | _ => ret options
       end) in
    checkUrl options ;;
    checkHeaders options ;;
    let* _type := get_prop options "requestType" in
    delete_prop options "requestType" ;;
    if String.eqb (typeof _type) "function" then
      let* promise := isPromise _type in
      if promise then typePromise _type options net
      else typeCallback options _type net ;; ret VUndef
    else typeEvents options net
  else throw (TypeError "Wrong options").

End Program.

(** ** The earlier version of the module

    [src/unnamed/part_000] is the module before the cache, HTTPS and
    promise classes came in.  Its [checkHeaders] and [isOk] are those
    above, word for word; the functions below differ. *)
Module Part000.

Section Program.

Context `{Node} `{HttpHeaders}.

(** [checkUrl]: the parsed URL is merged as it is. *)
Definition checkUrl (options : value) : M unit :=
  let* _url := get_prop options "url" in
  match _url with
  | VStr u =>
      object_assign options (urlParse u) ;;
      delete_prop options "url"
  | _ => ret tt
  end ;;
  let* host := get_prop options "host" in
  (if truthy host then
     let* hostname := get_prop options "hostname" in
     (* `hostname` is preferred over `host` *)
     (if negb (truthy hostname) then set_prop options "hostname" host
      else ret tt) ;;
     delete_prop options "host"
   else ret tt) ;;
  let* hostname := get_prop options "hostname" in
  if negb (truthy hostname) then throw (TypeError "Wrong hostname")
  else ret tt.

(** The end of the response stream: the chunks are joined into a text. *)
Definition onEnd (response : value) (_chunks : list string)
    (ok : value -> M unit) : M unit :=
  (* _chunks.join(''): every chunk gives its own text *)
  let _body := VStr (String.concat "" (map Buffer_toString _chunks)) in
  let* given := get_prop response "headers" in
  let* src := own_props given in
  let _contentType := hdr_get (hdr_new src) "Content-Type" in
  (* application/json, application/vnd.api+json, text/json, etc. *)
  let* _body :=
    (if json_content_type (to_string _contentType) then
       match JSON_parse (to_string _body) with
       | Some j => alloc_json j
       | None => alloc KObject ∅
       end
     else ret _body) in
  set_prop response "body" _body ;;
  ok response.

(** [doRequest]: always through [http.request]. *)
Definition doRequest (options : value) (ok error : value -> M unit)
    (net : answer) : M unit :=
  let* refusal :=
    (fun w => (Ret (request_throws false (heap w) options), w)) in
  match refusal with
  | Some e => throw e
  | None => log (Request false options)
  end ;;
  let* has_body := has_prop "body" options in
  (if has_body then
     let* body := get_prop options "body" in
     if writable body then log (RequestWrite body)
     else throw (TypeError "The chunk must be a string or a Buffer")
   else ret tt) ;;
  log RequestEnd ;;
  match net with
  | NetError elapsed err =>
      (fun w => (Ret tt, advance elapsed w)) ;;
      error err
  | NetResponse elapsed response _chunks =>
      (fun w => (Ret tt, advance elapsed w)) ;;
      onEnd response _chunks ok
  end.

Definition typeCallback (options cb : value) (net : answer) : M unit :=
  doRequest options
    (fun response =>
       let* ok := isOk response in
       log (Callback cb response (outcome ok)))
    (fun error => log (Callback cb error "request-error"))
    net.

Definition typeEvents (options : value) (net : answer) : M value :=
  let* _events := alloc KEvents ∅ in
  doRequest options
    (fun response =>
       let* ok := isOk response in
       log (Emit _events (outcome ok) response))
    (fun error => log (Emit _events "request-error" error))
    net ;;
  ret _events.

(** [typePromise]: a new promise of the platform, which runs the executor
    at once and rejects the promise with what the executor throws. *)
Definition typePromise (options : value) (net : answer) : M value :=
  let* promise := alloc KPromise ∅ in
  try_catch
    (doRequest options
       (fun result => log (Resolve promise result))
       (fun reason => log (Reject promise reason))
       net)
    (fun e => log (RejectThrown promise e)) ;;
  ret promise.

Definition jfHttpRequest (options : value) (net : answer) : M value :=
  if truthy options then
    let* options :=
      (match options with
       | VStr url => alloc KObject {[ "url" := VStr url ]}
       | _ => ret options
       end) in
    checkUrl options ;;
    checkHeaders options ;;
    let* _type := get_prop options "requestType" in
    delete_prop options "requestType" ;;
    if String.eqb (typeof _type) "function" then
      typeCallback options _type net ;; ret VUndef
    else if strict_eq _type (VStr "promise") then typePromise options net
    else typeEvents options net
  else throw (TypeError "Wrong options").

End Program.

Section Summaries.

Context `{Node}.

(** The properties of the options once the URL is merged into them. *)
Definition merged_url (o : gmap string value) : gmap string value :=
  match o !! "url" with
  | Some (VStr u) => delete "url" (urlParse u ∪ o)
  | _ => o
  end.

End Summaries.

Section Transport.

Context `{Node}.

(** [http.request] takes the options [o] held at [a] of the heap [h], and
    their body, if they have one, can be written. *)
Definition accepted (h : list object) (a : addr) (o : gmap string value) :
    Prop :=
  request_throws false h (VObj a) = None /\
  match o !! "body" with
  | Some body => writable body = true
  | None => True
  end.

End Transport.

(** What the network sees of a request of this version. *)
Definition sent_events (a : addr) (o : gmap string value) : list event :=
  Request false (VObj a)
  :: match o !! "body" with
     | Some body => [RequestWrite body; RequestEnd]
     | None => [RequestEnd]
     end.

End Part000.

(** ** Notions used in the statements *)

(** The status code the classifier sees: the [statusCode] of the response,
    0 when the response or its code is missing. *)
Definition status_code (w : world) (response : value) : Z :=
  match response with
  | VObj a =>
      match heap w !! a with
      | Some o =>
          match o_props o !! "statusCode" with
          | Some (VNum c) => c
          | _ => 0%Z
          end
      | None => 0%Z
      end
  | _ => 0%Z
  end.

(** A response as the HTTP layer or the cache hands it over: an object
    whose status code, if any, is a number; or no response at all. *)
Definition response_like (w : world) (response : value) : Prop :=
  match response with
  | VUndef | VNull => True
  | VObj a =>
      match heap w !! a with
      | Some o =>
          match o_props o !! "statusCode" with
          | None | Some VUndef | Some VNull | Some (VNum _) => True
          | _ => False
          end
      | None => False
      end
  | _ => False
  end.

(** The entries of a table that are not expired at time [t]. *)
Definition purged (t : Z) (c : gmap string entry) : gmap string entry :=
  filter (fun kv => ¬ (time kv.2 < t)%Z) c.

(** The properties of [dst] after [names.forEach(n => dst[n] = src[n])]. *)
Definition copy_props (names : list string) (src dst : gmap string value) :
    gmap string value :=
  foldl (fun m name => <[name := prop src name]> m) dst names.

Arguments copy_props : simpl never.

Section Summaries.

Context `{Node}.

(** *** [checkUrl] on the properties of the options *)

(** The properties of the options once the URL is merged into them. *)
Definition merged_url (o : gmap string value) : gmap string value :=
  match o !! "url" with
  | Some (VStr u) =>
      let parsed := urlParse u in
      if truthy (prop o "pathname") then
        delete "url" (<["path" := prop o "pathname"]> parsed ∪ delete "pathname" o)
      else if truthy (prop parsed "query") then
        delete "url"
          (<["path" := VStr (to_string (prop parsed "path") ++
                              ("?" ++ to_string (prop parsed "query")))]> parsed ∪ o)
      else delete "url" (parsed ∪ o)
  | _ => o
  end.

(** ... and once [host] is turned into [hostname]. *)
Definition aliased_host (o : gmap string value) : gmap string value :=
  if truthy (prop o "host") then
    delete "host"
      (if negb (truthy (prop o "hostname")) then <["hostname" := prop o "host"]> o
       else o)
  else o.

End Summaries.

Section HeaderSummaries.

Context `{HttpHeaders}.

(** *** [checkHeaders] on the headers of the options *)

(** The content type [checkHeaders] infers from a body. *)
Definition inferred_content_type (body : value) : option string :=
  match body with
  | VStr s =>
      Some (if starts_with_lt s then "text/html; charset=utf-8"
            else "text/plain; charset=utf-8")
  | _ =>
      if String.eqb (typeof body) "object" then
        Some "application/json; charset=utf-8"
      else None
  end.

(** The headers once the content type is filled in; [body] is the body of
    the options, if they have one. *)
Definition with_content_type (h : headers_t) (body : option value) :
    headers_t :=
  if negb (truthy (hdr_get h "Content-Type")) then
    match body with
    | Some b =>
        match inferred_content_type b with
        | Some ct => hdr_set h "Content-Type" (VStr ct)
        | None => h
        end
    | None => h
    end
  else h.

(** ... and once [Accept] is filled in; [None] when the content type is
    truthy but not a text, so that [split] is missing. *)
Definition with_accept (h : headers_t) : option headers_t :=
  if negb (truthy (hdr_get h "Accept")) then
    if truthy (hdr_get h "Content-Type") then
      match hdr_get h "Content-Type" with
      | VStr s => Some (hdr_set h "Accept" (VStr (before_semicolon s)))
      | _ => None
      end
    else Some h
  else Some h.

End HeaderSummaries.

(** What the network sees of a request with the options [o] held at
    [a]: the request is opened, its body (if any) written, and it is
    ended. *)
Definition sent_events (a : addr) (o : gmap string value) : list event :=
  Request (strict_eq (prop o "protocol") (VStr "https:")) (VObj a)
  :: match o !! "body" with
     | Some body => [RequestWrite body; RequestEnd]
     | None => [RequestEnd]
     end.

Section Transport.

Context `{Node}.

(** No character of the body is split between two chunks: the texts of
    the chunks, put together, are the text of the whole body. *)
Definition whole_chunks (net : answer) : Prop :=
  match net with
  | NetError _ _ => True
  | NetResponse _ _ chunks =>
      Buffer_toString (String.concat "" chunks) =
      String.concat "" (map Buffer_toString chunks)
  end.

(** [httpRequest], or [httpsRequest] for the protocol [https:], takes the
    options [o] held at [a] of the heap [h], and their body, if they have
    one, can be written: the request goes out. *)
Definition accepted (h : list object) (a : addr) (o : gmap string value) :
    Prop :=
  request_throws (strict_eq (prop o "protocol") (VStr "https:")) h (VObj a)
    = None /\
  match o !! "body" with
  | Some body => writable body = true
  | None => True
  end.

End Transport.

(** What a finished request hands over, and under which type: the error
    of the transport, or the response classified by its status code. *)
Definition delivered (w : world) (net : answer) : value * string :=
  match net with
  | NetError _ err => (err, "request-error")
  | NetResponse _ response _ =>
      (response,
       outcome (bool_decide
                  (200 <= status_code w response < 300 \/
                   status_code w response = 304)%Z))
  end.

(** The network answers with an error, or with a response that is an
    object of the heap with a numeric status code (if any). *)
Definition well_answered (w : world) (net : answer) : Prop :=
  match net with
  | NetError _ _ => True
  | NetResponse _ response _ =>
      is_Some (deref response) /\ response_like w response
  end.

(** The own properties of the object a value refers to. *)
Definition props_at (w : world) (v : value) : gmap string value :=
  match deref v with
  | Some a =>
      match heap w !! a with
      | Some o => o_props o
      | None => ∅
      end
  | None => ∅
  end.

Section AnswerSummaries.

Context `{HttpHeaders}.

(** The network answers with an error, or with a response that is an
    object of the heap whose content type announces JSON. *)
Definition json_answered (w : world) (net : answer) : Prop :=
  match net with
  | NetError _ _ => True
  | NetResponse _ response _ =>
      (exists r : addr, response = VObj r /\ is_Some (heap w !! r)) /\
      json_content_type
        (to_string
           (hdr_get (hdr_new (props_at w (prop (props_at w response) "headers")))
                    "Content-Type")) = true
  end.

End AnswerSummaries.

(** The properties the entry point works on: those of the options object,
    or [{ url : options }] for a bare URL. *)
Definition options_props (w : world) (options : value) :
    option (gmap string value) :=
  match options with
  | VStr url => Some {[ "url" := VStr url ]}
  | VObj a => o_props <$> heap w !! a
  | _ => None
  end.

(** A computation that only adds objects to the heap. *)
Definition allocates {A} (m : M A) : Prop :=
  forall w, exists (x : A) (ext : list object),
    m w = (Ret x, with_heap (heap w ++ ext) w).

(** *** The value of a parsed text *)

(** The items of an array, from index [i] on: each is a property of the
    array under its index and satisfies [D]. *)
Fixpoint arr_items {A} (D : A -> value -> Prop) (props : gmap string value)
    (l : list A) (i : nat) : Prop :=
  match l with
  | [] => True
  | x :: l' =>
      (exists v, props !! pretty i = Some v /\ D x v) /\
      arr_items D props l' (S i)
  end.

(** The members of an object: each is a property of the object and
    satisfies [D], unless a later member has the same name. *)
Fixpoint obj_members {A} (D : A -> value -> Prop) (props : gmap string value)
    (l : list (string * A)) : Prop :=
  match l with
  | [] => True
  | kx :: l' =>
      (kx.1 ∈ l'.*1 \/ exists v, props !! kx.1 = Some v /\ D kx.2 v) /\
      obj_members D props l'
  end.

(** The value [v] is the parsed text [j] in the heap [h]: a primitive, or
    an array or object at an address from [n] on, with the items or members
    of [j] and no other property (but the [length] of an array). *)
Fixpoint denotes (n : nat) (h : list object) (j : json) (v : value) : Prop :=
  match j with
  | JNull => v = VNull
  | JBool b => v = VBool b
  | JNum x => v = VNum x
  | JStr s => v = VStr s
  | JArr items =>
      exists (a : addr) (props : gmap string value),
        v = VObj a /\ n <= a /\ h !! a = Some (Object KArray props) /\
        props !! "length" = Some (VNum (Z.of_nat (length items))) /\
        (forall k, is_Some (props !! k) ->
           k = "length" \/ exists i, i < length items /\ k = pretty i) /\
        arr_items (denotes n h) props items 0
  | JObj members =>
      exists (a : addr) (props : gmap string value),
        v = VObj a /\ n <= a /\ h !! a = Some (Object KObject props) /\
        (forall k, is_Some (props !! k) -> k ∈ members.*1) /\
        obj_members (denotes n h) props members
  end.

(** Induction on a JSON value, through the lists it nests. *)
Section json_induction.

Variable P : json -> Prop.
Hypothesis HNull : P JNull.
Hypothesis HBool : forall b, P (JBool b).
Hypothesis HNum : forall n, P (JNum n).
Hypothesis HStr : forall s, P (JStr s).
Hypothesis HArr : forall items, Forall P items -> P (JArr items).
Hypothesis HObj :
  forall members, Forall (fun kv => P kv.2) members -> P (JObj members).

Fixpoint json_nested_ind (j : json) : P j :=
  match j with
  | JNull => HNull
  | JBool b => HBool b
  | JNum n => HNum n
  | JStr s => HStr s
  | JArr items =>
      HArr items
        ((fix go (l : list json) : Forall P l :=
            match l with
            | [] => List.Forall_nil P
            | x :: l' =>
                @List.Forall_cons _ P x l' (json_nested_ind x) (go l')
            end) items)
  | JObj members =>
      HObj members
        ((fix go (l : list (string * json)) : Forall (fun kv => P kv.2) l :=
            match l with
            | [] => List.Forall_nil _
            | kv :: l' =>
                @List.Forall_cons _ (fun kv => P kv.2) kv l'
                  (json_nested_ind kv.2) (go l')
            end) members)
  end.

End json_induction.

(** ** A concrete platform

    Test doubles of the collaborators, on which the statements below are
    evaluated at concrete requests. *)
Module Sample.

(** What [url.parse] of NodeJS returns for the URLs used below; a text
    without scheme or host is a bare path. *)
Definition parse (u : string) : gmap string value :=
  if String.eqb u "http://example.com/a?b=1" then
    list_to_map
      [ ("protocol", VStr "http:"); ("slashes", VBool true); ("auth", VNull);
        ("host", VStr "example.com"); ("port", VNull);
        ("hostname", VStr "example.com"); ("hash", VNull);
        ("search", VStr "?b=1"); ("query", VStr "b=1");
        ("pathname", VStr "/a"); ("path", VStr "/a?b=1");
        ("href", VStr "http://example.com/a?b=1") ]
  else
    list_to_map
      [ ("protocol", VNull); ("slashes", VNull); ("auth", VNull);
        ("host", VNull); ("port", VNull); ("hostname", VNull);
        ("hash", VNull); ("search", VNull); ("query", VNull);
        ("pathname", VStr u); ("path", VStr u); ("href", VStr u) ].

Definition quote : string := String (ascii_of_nat 34) EmptyString.

(** The text [{"a":1}]. *)
Definition text_a1 : string := "{" ++ quote ++ "a" ++ quote ++ ":1}".

Definition parse_json (s : string) : option json :=
  if String.eqb s text_a1 then Some (JObj [("a", JNum 1)])
  else if String.eqb s "[]" then Some (JArr [])
  else None.

(** A stand-in for the digest: distinct contents get distinct keys. *)
Definition digest (content : string) : string := "sha256:" ++ content.

Definition stringify (h : list object) (v : value) : string :=
  match v with
  | VObj a =>
      match h !! a with
      | Some o =>
          String.concat ","
            (map (fun kv => kv.1 ++ ":" ++ to_string kv.2)
                 (map_to_list (o_props o)))
      | None => "null"
      end
  | _ => to_string v
  end.

Fixpoint has_space (s : string) : bool :=
  match s with
  | EmptyString => false
  | String c s' => Ascii.eqb c " " || has_space s'
  end.

(** The transport refuses a protocol that is not its own and a path that
    holds a space. *)
Definition refuses (secure : bool) (h : list object) (options : value) :
    option exn :=
  let o := match options with
           | VObj a => from_option o_props ∅ (h !! a)
           | _ => ∅
           end in
  if truthy (prop o "protocol") &&
     negb (strict_eq (prop o "protocol")
                     (VStr (if secure then "https:" else "http:")))
  then Some (TypeError "Protocol not supported")
  else if has_space (to_string (prop o "path"))
  then Some (TypeError "Request path contains unescaped characters")
  else None.

(** In the samples the functions at odd addresses are promise classes and
    those at even addresses plain functions. *)
Definition new_of (Class : value) : construction :=
  match Class with
  | VFun a => if Nat.odd a then PromiseClass else PlainConstructor
  | _ => NotConstructor
  end.

(** Bytes are ASCII: they are their own text. *)
Definition node : Node :=
  {| urlParse := parse;
     sha256_hex := digest;
     JSON_stringify := stringify;
     JSON_parse := parse_json;
     IncomingMessage_props := {[ "complete" := VBool false ]};
     Buffer_toString := fun bytes => bytes;
     request_throws := refuses;
     construct := new_of |}.

(** Header names kept as they are written. *)
Program Definition http_headers : HttpHeaders :=
  {| headers_t := gmap string value;
     hdr_new := fun o => o;
     hdr_get := fun h k => prop h k;
     hdr_set := fun h k v => <[k := v]> h;
     hdr_headers := fun h => h |}.
Next Obligation. intros. unfold prop. by rewrite lookup_insert_eq. Qed.
Next Obligation.
  intros h k k' v Hne. unfold prop. rewrite lookup_insert_ne; [done|].
  intros ->. by apply Hne.
Qed.
Next Obligation. done. Qed.

End Sample.

(** * Properties *)

(** ** The state after primitive operations *)

Lemma bind_ret {A B} (m : M A) (k : A -> M B) (w w' : world) (a : A) :
  m w = (Ret a, w') -> bind m k w = k a w'.
Proof. unfold bind. by intros ->. Qed.

Lemma bind_throw {A B} (m : M A) (k : A -> M B) (w w' : world) (e : exn) :
  m w = (Throw e, w') -> bind m k w = (Throw e, w').
Proof. unfold bind. by intros ->. Qed.

Lemma with_heap_id (w : world) : with_heap (heap w) w = w.
Proof. by destruct w. Qed.

Lemma with_cache_id (w : world) : with_cache (cache w) w = w.
Proof. by destruct w. Qed.

Lemma get_prop_obj (w : world) (a : addr) (o : object) (name : string) :
  heap w !! a = Some o ->
  get_prop (VObj a) name w = (Ret (prop (o_props o) name), w).
Proof. unfold get_prop. simpl. by intros ->. Qed.

Lemma has_prop_obj (w : world) (a : addr) (o : object) (name : string) :
  heap w !! a = Some o ->
  has_prop name (VObj a) w = (Ret (bool_decide (is_Some (o_props o !! name))), w).
Proof. unfold has_prop. simpl. by intros ->. Qed.

Lemma own_props_obj (w : world) (a : addr) (o : object) :
  heap w !! a = Some o -> own_props (VObj a) w = (Ret (o_props o), w).
Proof. unfold own_props. simpl. by intros ->. Qed.

Lemma update_props_run (f : gmap string value -> gmap string value)
    (a : addr) (w : world) (o : object) :
  heap w !! a = Some o ->
  update_props f a w =
    with_heap (<[a := Object (o_kind o) (f (o_props o))]> (heap w)) w.
Proof. unfold update_props. by intros ->. Qed.

Lemma update_props_same f a w o :
  heap w !! a = Some o ->
  heap (update_props f a w) !! a = Some (Object (o_kind o) (f (o_props o))).
Proof.
  intros Ha. rewrite (update_props_run _ _ _ _ Ha). simpl.
  apply list_lookup_insert_eq. by eapply lookup_lt_Some.
Qed.

Lemma update_props_other f a b w :
  a <> b -> heap (update_props f a w) !! b = heap w !! b.
Proof.
  intros Hne. unfold update_props. destruct (heap w !! a); [|done].
  simpl. by apply list_lookup_insert_ne.
Qed.

Lemma update_props_length f a w :
  length (heap (update_props f a w)) = length (heap w).
Proof.
  unfold update_props. destruct (heap w !! a); [|done].
  simpl. apply length_insert.
Qed.

Lemma update_props_frame f a w :
  cache (update_props f a w) = cache w /\
  cacheTime (update_props f a w) = cacheTime w /\
  clock (update_props f a w) = clock w /\
  trace (update_props f a w) = trace w.
Proof. unfold update_props. by destruct (heap w !! a). Qed.

(** ** C1: the outcome classifier *)

Lemma isOk_code (c : Z) :
  (js_ge (if truthy (VNum c) then VNum c else VNum 0) 200 &&
   js_lt (if truthy (VNum c) then VNum c else VNum 0) 300
   || strict_eq (if truthy (VNum c) then VNum c else VNum 0) (VNum 304)) = true
  <-> (200 <= c < 300 \/ c = 304)%Z.
Proof.
  unfold truthy, js_ge, js_lt, strict_eq.
  destruct (Z.eqb_spec c 0) as [->|Hc]; simpl.
  - split; [done | lia].
  - rewrite orb_true_iff, andb_true_iff, Z.leb_le, Z.ltb_lt, bool_decide_eq_true.
    split; intros [Hr|He]; auto; try lia.
    + right. by inversion He.
    + right. by subst.
Qed.

(** C1. The classifier answers "ok" exactly when the status code [c] of the
    response satisfies [200 <= c < 300] or [c = 304]; every other response,
    among them one without a status code or with code 0 (and a missing
    response), is a failure.  It changes nothing in the process. *)
Theorem isOk_iff_2xx_or_304 (w : world) (response : value) :
  response_like w response ->
  exists ok : bool,
    isOk response w = (Ret ok, w) /\
    (ok = true <->
     (200 <= status_code w response < 300 \/ status_code w response = 304)%Z).
Proof.
  unfold response_like, status_code, isOk. intros Hr.
  destruct response as [| | | | | | |a|]; try done.
  - eexists; split; [reflexivity|]. simpl. split; [done | lia].
  - eexists; split; [reflexivity|]. simpl. split; [done | lia].
  - destruct (heap w !! a) as [o|] eqn:Ha; [|done].
    simpl truthy. cbv iota.
    rewrite (bind_ret _ _ _ _ _ (get_prop_obj _ _ _ "statusCode" Ha)).
    unfold prop, ret.
    destruct (o_props o !! "statusCode") as [[| | |c| | | | |]|];
      simpl default; try done;
      try (eexists; split; [reflexivity|]; simpl; split; [done | lia]).
    eexists; split; [reflexivity|]. apply isOk_code.
Qed.

(** A response with code 204 held by some object, for instance. *)
Lemma isOk_iff_2xx_or_304_witness :
  let w := World [Object KMessage {[ "statusCode" := VNum 204 ]}] ∅ (VNum 0) 0 [] in
  exists ok : bool,
    isOk (VObj 0) w = (Ret ok, w) /\
    (ok = true <->
     (200 <= status_code w (VObj 0%nat) < 300 \/
      status_code w (VObj 0%nat) = 304)%Z).
Proof.
  intros w. apply (isOk_iff_2xx_or_304 w (VObj 0)). vm_compute. exact I.
Defined.

(** ** The cache table *)

Lemma purged_lookup (t : Z) (c : gmap string entry) (k : string) :
  purged t c !! k =
    match c !! k with
    | Some e => if decide (time e < t)%Z then None else Some e
    | None => None
    end.
Proof.
  unfold purged. rewrite map_lookup_filter.
  destruct (c !! k) as [e|]; simpl; [|done].
  destruct (decide (time e < t)%Z); by simplify_option_eq.
Qed.

Lemma purge_loop (_current : Z) (ks : list string) :
  NoDup ks ->
  forall w : world,
    (forall k, k ∈ ks -> is_Some (cache w !! k)) ->
    forEach ks (fun key =>
      let* c := get_cache in
      match c !! key with
      | Some e =>
          if bool_decide (time e < _current)%Z then put_cache (delete key c)
          else ret tt
      | None => throw (TypeError "Cannot read property time")
      end) w
    = (Ret tt,
       with_cache
         (filter (fun kv => kv.1 ∉ ks \/ ¬ (time kv.2 < _current)%Z) (cache w)) w).
Proof.
  induction 1 as [|k l Hk Hl IH]; intros w Hall.
  - simpl. unfold ret. f_equal.
    rewrite map_filter_id; [by rewrite with_cache_id|].
    intros i x _. left. apply not_elem_of_nil.
  - cbn [forEach]. unfold bind at 1. unfold bind at 1.
    cbn [get_cache].
    destruct (Hall k) as [e He]; [left|]. rewrite He.
    assert (Hrest : forall c' : gmap string entry,
      (forall i, i <> k -> c' !! i = cache w !! i) ->
      forall k0, k0 ∈ l -> is_Some (c' !! k0)).
    { intros c' Hc' k0 Hk0. rewrite Hc'; [apply Hall; by right|].
      intros ->. done. }
    case_bool_decide as Hexp.
    + cbn [put_cache]. rewrite IH.
      2:{ cbn. apply Hrest. intros i Hi. by apply lookup_delete_ne. }
      unfold with_cache. cbn. do 2 f_equal. apply map_eq. intros i.
      rewrite !map_lookup_filter.
      destruct (decide (i = k)) as [->|Hi].
      * rewrite lookup_delete_eq, He. cbn.
        rewrite option_guard_False; [done|].
        intros [Hn|Hn]; [apply Hn; left | done].
      * rewrite lookup_delete_ne by done.
        destruct (cache w !! i) as [x|]; cbn; [|done].
        apply option_guard_iff. cbn.
        rewrite not_elem_of_cons. tauto.
    + cbn [ret]. rewrite IH by (apply Hrest; done).
      f_equal. f_equal. apply map_filter_ext. intros i x Hi. cbn.
      rewrite not_elem_of_cons. split; [|tauto].
      intros [Hn|Hn]; [|by right].
      destruct (decide (i = k)) as [->|Hik]; [|by left].
      right. rewrite He in Hi. by inversion Hi; subst.
Qed.

(** [purgeCache] keeps exactly the entries that are not expired; it never
    throws and touches nothing but the table. *)
Lemma purgeCache_run (w : world) :
  purgeCache w = (Ret tt, with_cache (purged (clock w) (cache w)) w).
Proof.
  unfold purgeCache. unfold bind at 1. cbn [now]. unfold bind at 1.
  cbn [get_cache]. rewrite purge_loop.
  - f_equal. f_equal. unfold purged. apply map_filter_ext.
    intros i x Hi. cbn. split; [|by right].
    intros [Hn|Hn]; [|done]. exfalso. apply Hn.
    apply list_elem_of_fmap. exists (i, x). split; [done|].
    by apply elem_of_map_to_list.
  - apply NoDup_fst_map_to_list.
  - intros k Hk. apply list_elem_of_fmap in Hk as [[i x] [-> Hix]].
    apply elem_of_map_to_list in Hix. by exists x.
Qed.

(** Purging at [t1] and then at a later [t2] is purging at [t2]. *)
Lemma purged_purged (t1 t2 : Z) (c : gmap string entry) :
  (t1 <= t2)%Z -> purged t2 (purged t1 c) = purged t2 c.
Proof.
  intros Ht. apply map_eq. intros k. rewrite !purged_lookup.
  destruct (c !! k) as [e|]; [|done].
  repeat (case_decide; try done; try lia).
Qed.

(** C9. Calling [purgeCache] a second time right after a first call, with
    no insertion in between, leaves the store (and the rest of the process)
    exactly as the first call left it. *)
Theorem purgeCache_idempotent (w : world) :
  purgeCache (purgeCache w).2 = (Ret tt, (purgeCache w).2) /\
  cache (purgeCache (purgeCache w).2).2 = cache (purgeCache w).2.
Proof.
  assert (Hp : purgeCache (purgeCache w).2 = (Ret tt, (purgeCache w).2)).
  { rewrite (purgeCache_run w). cbn [snd]. rewrite purgeCache_run.
    cbn. by rewrite purged_purged. }
  split; [exact Hp | by rewrite Hp].
Qed.

(** X26. When time passes between the two calls, the second call also
    drops what expired meanwhile: both calls together amount to the
    second. *)
Lemma purgeCache_later (w : world) (d : Z) :
  (0 <= d)%Z ->
  purgeCache (advance d (purgeCache w).2) = purgeCache (advance d w).
Proof.
  intros Hd. rewrite (purgeCache_run w). cbn [snd].
  rewrite !purgeCache_run. cbn. rewrite purged_purged by lia. done.
Qed.

(** ** Copying the serialised properties *)

Lemma copy_props_prop (names : list string) (src dst : gmap string value)
    (name : string) :
  prop (copy_props names src dst) name =
    if decide (name ∈ names) then prop src name else prop dst name.
Proof.
  revert dst. induction names as [|n l IH]; intros dst;
    unfold copy_props; cbn [foldl].
  - by rewrite decide_False by apply not_elem_of_nil.
  - fold (copy_props l src (<[n := prop src n]> dst)). rewrite IH.
    destruct (decide (name ∈ l)) as [Hl|Hl].
    + rewrite decide_True; [done | by right].
    + destruct (decide (name = n)) as [->|Hn].
      * rewrite decide_True by left. unfold prop at 1.
        by rewrite lookup_insert_eq.
      * rewrite decide_False by (rewrite elem_of_cons; tauto).
        unfold prop. by rewrite lookup_insert_ne.
Qed.

Lemma copy_loop (names : list string) (s d : addr) (os : object) :
  s <> d ->
  forall (w : world) (od : object),
    heap w !! s = Some os ->
    heap w !! d = Some od ->
    forEach names (fun name =>
      let* v := get_prop (VObj s) name in
      set_prop (VObj d) name v) w
    = (Ret tt,
       with_heap
         (<[d := Object (o_kind od) (copy_props names (o_props os) (o_props od))]>
            (heap w)) w).
Proof.
  intros Hsd. induction names as [|n l IH]; intros w od Hs Hd.
  - cbn. unfold ret. f_equal. destruct od as [k p]. cbn.
    rewrite list_insert_id by done. by rewrite with_heap_id.
  - cbn [forEach]. unfold bind at 1.
    rewrite (bind_ret _ _ _ _ _ (get_prop_obj _ _ _ n Hs)).
    cbn [set_prop deref].
    rewrite (IH _ (Object (o_kind od) (<[n := prop (o_props os) n]> (o_props od)))).
    + rewrite (update_props_run _ _ _ _ Hd). unfold with_heap. cbn.
      by rewrite list_insert_insert_eq.
    + by rewrite update_props_other.
    + by apply update_props_same.
Qed.

Section CacheFacts.

Context `{Node}.

(** The state after [addToCache] of a response that is an object. *)
Lemma addToCache_run (w : world) (hash : string) (t : Z) (r : addr)
    (o : object) :
  heap w !! r = Some o ->
  addToCache hash t (VObj r) w =
    (Ret tt,
     World (heap w ++ [Object KObject (copy_props properties (o_props o) ∅)])
           (<[hash := Entry (VObj (length (heap w))) (clock w + t)]>
              (purged (clock w) (cache w)))
           (cacheTime w) (clock w) (trace w)).
Proof.
  intros Hr. unfold addToCache.
  rewrite (bind_ret _ _ _ _ _ (purgeCache_run w)).
  unfold bind at 1. cbn [alloc]. rewrite decide_False by done.
  assert (Hlt : r < length (heap w)) by (by eapply lookup_lt_Some).
  unfold bind at 1.
  rewrite (copy_loop properties r (length (heap w)) o) with
    (od := Object KObject ∅).
  - unfold bind, now, get_cache, put_cache, with_heap, with_cache. cbn.
    do 2 f_equal.
    rewrite insert_app_r_alt by done.
    by rewrite Nat.sub_diag.
  - lia.
  - cbn. by rewrite lookup_app_l.
  - cbn. by apply list_lookup_middle.
Qed.

(** The state after a hit of [fromCache]: a new message object holding the
    serialised properties of the stored data. *)
Lemma fromCache_hit (w : world) (hash : string) (e : entry) (s : addr)
    (os : object) :
  purged (clock w) (cache w) !! hash = Some e ->
  data e = VObj s ->
  heap w !! s = Some os ->
  fromCache hash w =
    (Ret (VObj (length (heap w))),
     World (heap w ++
              [Object KMessage
                 (copy_props properties (o_props os) IncomingMessage_props)])
           (purged (clock w) (cache w))
           (cacheTime w) (clock w) (trace w)).
Proof.
  intros He Hdata Hs. unfold fromCache.
  rewrite (bind_ret _ _ _ _ _ (purgeCache_run w)).
  unfold bind at 1. cbn [get_cache with_cache cache]. rewrite He, Hdata.
  unfold bind at 1. cbn [alloc]. rewrite decide_False by done.
  assert (Hlt : s < length (heap w)) by (by eapply lookup_lt_Some).
  unfold bind at 1.
  rewrite (copy_loop properties s (length (heap w)) os) with
    (od := Object KMessage IncomingMessage_props).
  - unfold ret, with_heap, with_cache. cbn. do 2 f_equal.
    rewrite insert_app_r_alt by done.
    by rewrite Nat.sub_diag.
  - lia.
  - cbn. by rewrite lookup_app_l.
  - cbn. by apply list_lookup_middle.
Qed.

(** The state after a miss. *)
Lemma fromCache_miss (w : world) (hash : string) :
  purged (clock w) (cache w) !! hash = None ->
  fromCache hash w =
    (Ret VUndef, with_cache (purged (clock w) (cache w)) w).
Proof.
  intros He. unfold fromCache.
  rewrite (bind_ret _ _ _ _ _ (purgeCache_run w)).
  unfold bind at 1. cbn [get_cache with_cache cache]. by rewrite He.
Qed.

End CacheFacts.

Section CacheTheorems.

Context `{Node}.

Lemma snapshot_prop (o init : gmap string value) (name : string) :
  name ∈ properties ->
  prop (copy_props properties (copy_props properties o ∅) init) name =
  prop o name.
Proof. intros Hn. by rewrite !copy_props_prop, !decide_True. Qed.

(** A lookup after an insertion, at a time when the entry is still there:
    whatever happened to the other objects of the heap meanwhile. *)
Lemma fromCache_after_insert (w1 : world) (hash : string) (s : addr)
    (stamp : Z) (o : gmap string value) :
  cache w1 !! hash = Some (Entry (VObj s) stamp) ->
  (clock w1 <= stamp)%Z ->
  heap w1 !! s = Some (Object KObject (copy_props properties o ∅)) ->
  exists w2,
    fromCache hash w1 = (Ret (VObj (length (heap w1))), w2) /\
    cache w2 !! hash = Some (Entry (VObj s) stamp) /\
    clock w2 = clock w1 /\
    heap w2 !! s = heap w1 !! s /\
    length (heap w2) = S (length (heap w1)) /\
    Forall (fun name =>
      get_prop (VObj (length (heap w1))) name w2 = (Ret (prop o name), w2))
      properties.
Proof.
  intros Hc Hstamp Hs.
  assert (Hp : purged (clock w1) (cache w1) !! hash = Some (Entry (VObj s) stamp)).
  { rewrite purged_lookup, Hc. cbn. by rewrite decide_False by lia. }
  assert (Hlt : s < length (heap w1)) by (by eapply lookup_lt_Some).
  eexists. split; [by eapply fromCache_hit|].
  cbn [cache clock heap].
  repeat split; try done.
  - by rewrite lookup_app_l.
  - rewrite length_app. cbn. lia.
  - apply Forall_forall. intros name Hn.
    erewrite get_prop_obj; [|cbn [heap]; by apply list_lookup_middle].
    cbn [o_props]. by rewrite snapshot_prop.
Qed.

(** C5. After inserting the response [r] under the hash [h] with a
    positive duration [t], a lookup of [h] made [d] milliseconds later
    returns, while [d <= t], a snapshot whose serialised properties all
    equal those of [r], and returns [undefined] once more than [t]
    milliseconds have passed. *)
Theorem cache_round_trip (w : world) (h : string) (t d : Z) (r : addr)
    (o : object) :
  (0 < t)%Z ->
  (0 <= d)%Z ->
  heap w !! r = Some o ->
  let w1 := (addToCache h t (VObj r) w).2 in
  exists (found : value) (w2 : world),
    fromCache h (advance d w1) = (Ret found, w2) /\
    if decide (d <= t)%Z then
      Forall (fun name =>
        (get_prop found name w2).1 = (get_prop (VObj r) name w).1) properties /\
      typeof found = "object" /\ truthy found = true
    else found = VUndef.
Proof.
  intros Ht Hd Hr w1. subst w1. rewrite (addToCache_run _ _ _ _ _ Hr). cbn [snd].
  destruct (decide (d <= t)%Z) as [Hle|Hgt].
  - edestruct (fromCache_after_insert
      (advance d (World (heap w ++ [Object KObject (copy_props properties (o_props o) ∅)])
         (<[h := Entry (VObj (length (heap w))) (clock w + t)]>
            (purged (clock w) (cache w)))
         (cacheTime w) (clock w) (trace w))) h (length (heap w)) (clock w + t)%Z
      (o_props o)) as (w2 & Hrun & _ & _ & _ & _ & Hall).
    + cbn. by rewrite lookup_insert_eq.
    + cbn. lia.
    + cbn. by apply list_lookup_middle.
    + exists (VObj (length (heap (advance d
        (World (heap w ++ [Object KObject (copy_props properties (o_props o) ∅)])
           (<[h := Entry (VObj (length (heap w))) (clock w + t)]>
              (purged (clock w) (cache w)))
           (cacheTime w) (clock w) (trace w)))))), w2.
      split; [exact Hrun|]. split; [|done].
      eapply Forall_impl; [exact Hall|]. intros name Hn. cbn beta in *.
      rewrite Hn. by rewrite (get_prop_obj _ _ _ name Hr).
  - eexists VUndef, _. split; [|done].
    apply fromCache_miss. cbn.
    rewrite purged_lookup, lookup_insert_eq. cbn.
    by rewrite decide_True by lia.
Qed.


End CacheTheorems.

(** ** Running a computation step by step *)

Lemma bind_assoc {A B C} (m : M A) (f : A -> M B) (k : B -> M C) (w : world) :
  bind (bind m f) k w = bind m (fun x => bind (f x) k) w.
Proof. unfold bind. by destruct (m w) as [[x|e] w']. Qed.

Lemma bind_ret_l {A B} (x : A) (k : A -> M B) (w : world) :
  bind (ret x) k w = k x w.
Proof. done. Qed.

Lemma bind_get_prop {B} (a : addr) (name : string) (k : value -> M B)
    (w : world) (o : object) :
  heap w !! a = Some o ->
  bind (get_prop (VObj a) name) k w = k (prop (o_props o) name) w.
Proof. intros Ha. by rewrite (bind_ret _ _ _ _ _ (get_prop_obj _ _ _ name Ha)). Qed.

Lemma bind_has_prop {B} (a : addr) (name : string) (k : bool -> M B)
    (w : world) (o : object) :
  heap w !! a = Some o ->
  bind (has_prop name (VObj a)) k w =
  k (bool_decide (is_Some (o_props o !! name))) w.
Proof. intros Ha. by rewrite (bind_ret _ _ _ _ _ (has_prop_obj _ _ _ name Ha)). Qed.

Lemma bind_set_prop {B} (a : addr) (name : string) (x : value)
    (k : unit -> M B) (w : world) :
  bind (set_prop (VObj a) name x) k w = k tt (update_props (insert name x) a w).
Proof. done. Qed.

Lemma bind_delete_prop {B} (a : addr) (name : string) (k : unit -> M B)
    (w : world) :
  bind (delete_prop (VObj a) name) k w = k tt (update_props (delete name) a w).
Proof. done. Qed.

Lemma bind_object_assign {B} (a : addr) (src : gmap string value)
    (k : unit -> M B) (w : world) :
  bind (object_assign (VObj a) src) k w =
  k tt (update_props (fun o => src ∪ o) a w).
Proof. done. Qed.

Lemma bind_log {B} (e : event) (k : unit -> M B) (w : world) :
  bind (log e) k w = k tt (with_trace (trace w ++ [e]) w).
Proof. done. Qed.

Lemma update_props_compose f g a w :
  update_props g a (update_props f a w) = update_props (fun o => g (f o)) a w.
Proof.
  destruct (heap w !! a) as [o|] eqn:Ha.
  - rewrite (update_props_run g a _ _ (update_props_same f a w o Ha)).
    rewrite !(update_props_run _ a w o Ha). unfold with_heap. cbn.
    by rewrite list_insert_insert_eq.
  - unfold update_props. rewrite Ha. by rewrite Ha.
Qed.

Lemma update_props_id f a w o :
  heap w !! a = Some o -> f (o_props o) = o_props o -> update_props f a w = w.
Proof.
  intros Ha Hf. rewrite (update_props_run _ _ _ _ Ha), Hf.
  destruct o as [k p]. cbn. rewrite list_insert_id by done.
  apply with_heap_id.
Qed.

Section Normaliser.

Context `{Node} `{HttpHeaders}.

Lemma checkUrl_run (w : world) (a : addr) (o : object) :
  heap w !! a = Some o ->
  checkUrl (VObj a) w =
    (if truthy (prop (aliased_host (merged_url (o_props o))) "hostname")
     then Ret tt else Throw (TypeError "Wrong hostname"),
     update_props (fun p => aliased_host (merged_url p)) a w).
Proof.
  intros Ha. unfold checkUrl.
  rewrite (bind_get_prop _ _ _ _ _ Ha).
  assert (Hfirst : forall (k : unit -> M unit),
    bind (match prop (o_props o) "url" with
          | VStr u =>
              let _url := urlParse u in
              let* pathname := get_prop (VObj a) "pathname" in
              let* _url0 :=
                (if truthy pathname then
                   delete_prop (VObj a) "pathname" ;;
                   ret (<["path" := pathname]> _url)
                 else if truthy (prop _url "query") then
                   ret (<["path" := VStr (to_string (prop _url "path") ++
                                          ("?" ++ to_string (prop _url "query")))]> _url)
                 else ret _url) in
              object_assign (VObj a) _url0 ;;
              delete_prop (VObj a) "url"
          | _ => ret tt
          end) k w = k tt (update_props merged_url a w)).
  { intros k. unfold merged_url, prop at 1.
    destruct (o_props o !! "url") as [[| | | |u| | | |]|] eqn:Hu;
      cbn [from_option id];
      try (rewrite bind_ret_l; by rewrite (update_props_id _ _ _ _ Ha) by (by rewrite Hu)).
    cbv zeta. rewrite bind_assoc, (bind_get_prop _ _ _ _ _ Ha).
    rewrite bind_assoc.
    destruct (truthy (prop (o_props o) "pathname")) eqn:Hp.
    - rewrite bind_assoc, bind_delete_prop, bind_ret_l.
      rewrite bind_assoc, bind_object_assign, bind_delete_prop.
      rewrite !update_props_compose. f_equal.
      unfold update_props. rewrite Ha. by rewrite Hu, Hp.
    - destruct (truthy (prop (urlParse u) "query")) eqn:Hq.
      + rewrite bind_ret_l.
        rewrite bind_assoc, bind_object_assign, bind_delete_prop.
        rewrite !update_props_compose. f_equal.
        unfold update_props. rewrite Ha. by rewrite Hu, Hp, Hq.
      + rewrite bind_ret_l.
        rewrite bind_assoc, bind_object_assign, bind_delete_prop.
        rewrite !update_props_compose. f_equal.
        unfold update_props. rewrite Ha. by rewrite Hu, Hp, Hq. }
  rewrite Hfirst. clear Hfirst.
  pose proof (update_props_same merged_url a w o Ha) as H1.
  rewrite (bind_get_prop _ _ _ _ _ H1). cbn [o_props].
  set (o1 := merged_url (o_props o)) in *.
  assert (Hsecond : forall (k : unit -> M unit),
    bind (if truthy (prop o1 "host") then
            let* hostname := get_prop (VObj a) "hostname" in
            (if negb (truthy hostname) then
               set_prop (VObj a) "hostname" (prop o1 "host")
             else ret tt) ;;
            delete_prop (VObj a) "host"
          else ret tt) k (update_props merged_url a w)
    = k tt (update_props (fun p => aliased_host (merged_url p)) a w)).
  { intros k. destruct (truthy (prop o1 "host")) eqn:Hh.
    - rewrite bind_assoc, (bind_get_prop _ _ _ _ _ H1). cbn [o_props].
      fold o1. rewrite bind_assoc.
      destruct (truthy (prop o1 "hostname")) eqn:Hn; cbn [negb].
      + rewrite bind_ret_l, bind_delete_prop, update_props_compose.
        f_equal. unfold update_props. rewrite Ha. unfold aliased_host.
        fold o1. by rewrite Hh, Hn.
      + rewrite bind_set_prop, bind_delete_prop, !update_props_compose.
        f_equal. unfold update_props. rewrite Ha. unfold aliased_host.
        fold o1. by rewrite Hh, Hn.
    - rewrite bind_ret_l. f_equal.
      unfold update_props. rewrite Ha. unfold aliased_host. fold o1.
      by rewrite Hh. }
  rewrite Hsecond. clear Hsecond.
  pose proof (update_props_same (fun p => aliased_host (merged_url p)) a w o Ha)
    as H2.
  rewrite (bind_get_prop _ _ _ _ _ H2). cbn [o_props].
  subst o1.
  by destruct (truthy (prop (aliased_host (merged_url (o_props o))) "hostname")).
Qed.

End Normaliser.

Section NormaliserTheorems.

Context `{Node} `{HttpHeaders}.

Lemma aliased_host_lookup (o : gmap string value) (name : string) :
  name <> "host" -> name <> "hostname" -> aliased_host o !! name = o !! name.
Proof.
  intros Hh Hn. unfold aliased_host.
  destruct (truthy (prop o "host")); [|done].
  rewrite lookup_delete_ne by done.
  destruct (negb (truthy (prop o "hostname"))); [|done].
  by rewrite lookup_insert_ne.
Qed.

Lemma prop_aliased_host (o : gmap string value) (name : string) :
  name <> "host" -> name <> "hostname" ->
  prop (aliased_host o) name = prop o name.
Proof. intros Hh Hn. unfold prop. by rewrite aliased_host_lookup. Qed.

Lemma merged_url_no_url (o : gmap string value) (u : string) :
  o !! "url" = Some (VStr u) -> merged_url o !! "url" = None.
Proof.
  intros Hu. unfold merged_url. rewrite Hu.
  repeat case_match; apply lookup_delete_eq.
Qed.

Lemma prop_delete_ne (o : gmap string value) (n m : string) :
  n <> m -> prop (delete n o) m = prop o m.
Proof. intros Hne. unfold prop. by rewrite lookup_delete_ne. Qed.

Lemma prop_insert_union (o p : gmap string value) (n : string) (v : value) :
  prop (<[n := v]> p ∪ o) n = v.
Proof.
  unfold prop. erewrite lookup_union_Some_l; [done|]. apply lookup_insert_eq.
Qed.

(** What [checkUrl] makes of the path when the [url] of the options is a
    text: a truthy [pathname] (a non-empty text, for instance) becomes the
    path as it is; otherwise (no [pathname], or a falsy one such as the
    empty text), when the parsed URL has a truthy query, the path is the
    path of the parsed URL with [?] and the query put after it.  In all
    cases the options end without a [url]. *)
Lemma checkUrl_path (w : world) (a : addr) (o : object) (u : string) :
  heap w !! a = Some o ->
  o_props o !! "url" = Some (VStr u) ->
  exists o' : object,
    heap (checkUrl (VObj a) w).2 !! a = Some o' /\
    o_props o' !! "url" = None /\
    if truthy (prop (o_props o) "pathname") then
      prop (o_props o') "path" = prop (o_props o) "pathname"
    else if truthy (prop (urlParse u) "query") then
      prop (o_props o') "path" =
        VStr (to_string (prop (urlParse u) "path") ++ "?" ++
              to_string (prop (urlParse u) "query"))
    else True.
Proof.
  intros Ha Hu. rewrite (checkUrl_run w a o Ha). cbn [snd].
  eexists. split; [by apply update_props_same|]. cbn [o_props].
  split.
  { rewrite aliased_host_lookup by done. by eapply merged_url_no_url. }
  rewrite !prop_aliased_host by done.
  unfold merged_url. rewrite Hu.
  destruct (truthy (prop (o_props o) "pathname")).
  - rewrite prop_delete_ne by done. apply prop_insert_union.
  - destruct (truthy (prop (urlParse u) "query")); [|done].
    rewrite prop_delete_ne by done. apply prop_insert_union.
Qed.

End NormaliserTheorems.

(** A [pathname] that is supplied but empty does not count as supplied:
    the path of the request is not that [pathname] but what the parsed URL
    gives. *)
Example checkUrl_empty_pathname :
  let o : gmap string value :=
    list_to_map [ ("url", VStr "http://example.com/a?b=1");
                  ("pathname", VStr "") ] in
  let w := World [Object KObject o] ∅ (VNum 0) 0 [] in
  o !! "pathname" = Some (VStr "") /\
  exists o' : object,
    heap (@checkUrl Sample.node (VObj 0) w).2 !! 0%nat = Some o' /\
    o_props o' !! "url" = None /\
    prop (o_props o') "path" = VStr "/a?b=1?b=1" /\
    prop (o_props o') "path" <> prop o "pathname".
Proof.
  intros o w. split; [reflexivity|].
  eexists. split; [vm_compute; reflexivity|].
  split; [vm_compute; reflexivity|].
  split; [vm_compute; reflexivity|].
  vm_compute. discriminate.
Qed.

(** ** Header defaults *)

Lemma own_props_run (v : value) (w : world) :
  own_props v w = (Ret (props_at w v), w).
Proof.
  unfold own_props, props_at. destruct (deref v) as [a|]; [|done].
  by destruct (heap w !! a).
Qed.

Lemma lower_content_type_accept : lower "Content-Type" <> lower "Accept".
Proof. vm_compute. discriminate. Qed.

Section HeaderTheorems.

Context `{HttpHeaders}.

(** C3, as the code has it.  When the options have a [headers] field in
    which neither [Content-Type] nor [Accept] is set, and a body that is an
    object, [checkHeaders] leaves headers with
    [Content-Type: application/json; charset=utf-8] and
    [Accept: application/json]. *)
Theorem checkHeaders_json_body (w : world) (a : addr) (o : object)
    (given body : value) :
  heap w !! a = Some o ->
  o_props o !! "headers" = Some given ->
  o_props o !! "body" = Some body ->
  typeof body = "object" ->
  truthy (hdr_get (hdr_new (props_at w given)) "Content-Type") = false ->
  truthy (hdr_get (hdr_new (props_at w given)) "Accept") = false ->
  exists (w' : world) (result : value),
    checkHeaders (VObj a) w = (Ret tt, w') /\
    get_prop (VObj a) "headers" w' = (Ret result, w') /\
    hdr_get (hdr_new (props_at w' result)) "Content-Type" =
      VStr "application/json; charset=utf-8" /\
    hdr_get (hdr_new (props_at w' result)) "Accept" = VStr "application/json".
Proof.
  intros Ha Hh Hb Hobj Hct Hacc. unfold checkHeaders.
  rewrite (bind_has_prop _ _ _ _ _ Ha), Hh.
  rewrite bool_decide_eq_true_2 by done.
  rewrite (bind_get_prop _ _ _ _ _ Ha). unfold prop at 1. rewrite Hh.
  cbn [from_option id].
  rewrite (bind_ret _ _ _ _ _ (own_props_run given w)).
  rewrite Hct. cbn [negb].
  rewrite bind_assoc, (bind_has_prop _ _ _ _ _ Ha), Hb.
  rewrite bool_decide_eq_true_2 by done.
  assert (Hpb : prop (o_props o) "body" = body) by (unfold prop; by rewrite Hb).
  rewrite bind_assoc, (bind_get_prop _ _ _ _ _ Ha), !Hpb.
  set (h0 := hdr_new (props_at w given)) in *.
  set (h1 := hdr_set h0 "Content-Type" (VStr "application/json; charset=utf-8")).
  assert (Hbody : forall (k : headers_t -> M unit),
    bind (match body with
          | VStr s =>
              ret (hdr_set h0 "Content-Type"
                     (VStr (if starts_with_lt s then "text/html; charset=utf-8"
                            else "text/plain; charset=utf-8")))
          | _ =>
              if String.eqb (typeof body) "object" then
                ret (hdr_set h0 "Content-Type"
                       (VStr "application/json; charset=utf-8"))
              else ret h0
          end) k w = k h1 w).
  { intros k. rewrite Hobj. by destruct body. }
  rewrite Hbody. clear Hbody.
  assert (Hacc1 : hdr_get h1 "Accept" = hdr_get h0 "Accept").
  { apply hdr_get_set_ne. apply lower_content_type_accept. }
  assert (Hct1 : hdr_get h1 "Content-Type" = VStr "application/json; charset=utf-8").
  { apply hdr_get_set_eq. }
  rewrite Hacc1, Hacc, Hct1. cbn [negb truthy String.eqb Ascii.eqb Bool.eqb].
  cbn [before_semicolon Ascii.eqb Bool.eqb].
  set (h2 := hdr_set h1 "Accept" (VStr "application/json")).
  rewrite bind_ret_l.
  unfold bind at 1. cbn [alloc]. rewrite decide_False by done.
  cbn [set_prop deref].
  assert (Hlt : a < length (heap w)) by (by eapply lookup_lt_Some).
  set (w1 := with_heap (heap w ++ [Object KObject (hdr_headers h2)]) w).
  assert (Ha1 : heap w1 !! a = Some o) by (cbn; by rewrite lookup_app_l).
  eexists _, (VObj (length (heap w))). split; [reflexivity|].
  pose proof (update_props_same (insert "headers" (VObj (length (heap w)))) a w1 o Ha1)
    as Ha2.
  split.
  { rewrite (get_prop_obj _ _ _ _ Ha2). cbn [o_props]. unfold prop.
    by rewrite lookup_insert_eq. }
  assert (Hres : props_at
            (update_props (insert "headers" (VObj (length (heap w)))) a w1)
            (VObj (length (heap w))) = hdr_headers h2).
  { unfold props_at. cbn [deref].
    rewrite update_props_other by lia. cbn.
    by rewrite list_lookup_middle. }
  rewrite Hres, !hdr_get_new_headers. split.
  - unfold h2. rewrite hdr_get_set_ne; [exact Hct1|].
    intros Heq. by apply lower_content_type_accept.
  - apply hdr_get_set_eq.
Qed.

End HeaderTheorems.

(** C3 as it is worded fails on a request that sets no headers at all:
    without a [headers] field [checkHeaders] does nothing, and the options
    end without headers. *)
Lemma checkHeaders_without_headers :
  let o : gmap string value :=
    list_to_map [ ("hostname", VStr "example.com"); ("body", VObj 1) ] in
  let w := World [Object KObject o; Object KObject {[ "a" := VNum 1 ]}]
                 ∅ (VNum 0) 0 [] in
  o !! "headers" = None /\
  typeof (prop o "body") = "object" /\
  @checkHeaders Sample.http_headers (VObj 0) w = (Ret tt, w) /\
  get_prop (VObj 0) "headers" w = (Ret VUndef, w) /\
  @hdr_get Sample.http_headers
    (@hdr_new Sample.http_headers (props_at w VUndef)) "Content-Type"
    <> VStr "application/json; charset=utf-8".
Proof.
  intros. repeat (apply conj); vm_compute; try reflexivity. discriminate.
Qed.

Lemma checkHeaders_json_body_witness :
  let o : gmap string value :=
    list_to_map [ ("hostname", VStr "example.com"); ("body", VObj 1);
                  ("headers", VObj 2) ] in
  let w := World [Object KObject o; Object KObject {[ "a" := VNum 1 ]};
                  Object KObject ∅] ∅ (VNum 0) 0 [] in
  exists (w' : world) (result : value),
    @checkHeaders Sample.http_headers (VObj 0) w = (Ret tt, w') /\
    get_prop (VObj 0) "headers" w' = (Ret result, w') /\
    @hdr_get Sample.http_headers
      (@hdr_new Sample.http_headers (props_at w' result)) "Content-Type" =
      VStr "application/json; charset=utf-8" /\
    @hdr_get Sample.http_headers
      (@hdr_new Sample.http_headers (props_at w' result)) "Accept" =
      VStr "application/json".
Proof.
  intros o w.
  exact (checkHeaders_json_body (H:=Sample.http_headers) w 0 (Object KObject o)
           (VObj 2) (VObj 1) eq_refl eq_refl eq_refl eq_refl eq_refl eq_refl).
Defined.

(** ** Decoding the body *)

Lemma allocates_ret {A} (x : A) : allocates (ret x).
Proof.
  intros w. exists x, []. unfold ret. by rewrite app_nil_r, with_heap_id.
Qed.

Lemma allocates_alloc (k : kind) (props : gmap string value) :
  allocates (alloc k props).
Proof. intros w. by eexists _, [_]. Qed.

Lemma allocates_bind {A B} (m : M A) (k : A -> M B) :
  allocates m -> (forall x, allocates (k x)) -> allocates (bind m k).
Proof.
  intros Hm Hk w. destruct (Hm w) as (x & ext & Hx).
  destruct (Hk x (with_heap (heap w ++ ext) w)) as (y & ext' & Hy).
  exists y, (ext ++ ext')%list. rewrite (bind_ret _ _ _ _ _ Hx), Hy.
  unfold with_heap. cbn. by rewrite app_assoc.
Qed.

Lemma alloc_json_allocates (j : json) : allocates (alloc_json j).
Proof.
  induction j as [| | | |items IH|members IH] using json_nested_ind;
    try apply allocates_ret.
  - cbn [alloc_json]. apply allocates_bind; [|intros; apply allocates_alloc].
    generalize 0%nat. induction IH as [|x l Hx _ IHl]; intros i.
    + apply allocates_ret.
    + apply allocates_bind; [exact Hx|]. intros v.
      apply allocates_bind; [apply IHl|]. intros m. apply allocates_ret.
  - cbn [alloc_json]. apply allocates_bind; [|intros; apply allocates_alloc].
    induction IH as [|[k x] l Hx _ IHl].
    + apply allocates_ret.
    + apply allocates_bind; [exact Hx|]. intros v.
      apply allocates_bind; [apply IHl|]. intros m. apply allocates_ret.
Qed.

(** The test on the content type, spelled out: the text holds a [+] or a
    [/] followed by [json] and then ends or goes on with a [;]. *)
Lemma strip_prefix_spec (p s r : string) :
  strip_prefix p s = Some r <-> s = p ++ r.
Proof.
  revert s. induction p as [|a p IH]; intros s; cbn.
  - split; [by intros [= ->] | by intros ->].
  - destruct s as [|b s]; [done|].
    destruct (Ascii.eqb_spec a b) as [->|Hab].
    + rewrite IH. split; [by intros -> | by intros [= ->]].
    + split; [done | intros [= ? ?]; by subst].
Qed.

Lemma json_suffix_spec (s : string) :
  json_suffix s = true <->
  exists (c : ascii) (post : string),
    s = String c ("json" ++ post) /\
    (c = "+"%char \/ c = "/"%char) /\
    (post = "" \/ exists post', post = String ";" post').
Proof.
  split.
  - destruct s as [|c s']; [done|]. unfold json_suffix.
    intros [Hc Hrest]%andb_true_iff.
    destruct (strip_prefix "json" s') as [rest|] eqn:Hs; [|done].
    apply strip_prefix_spec in Hs as ->.
    exists c, rest. split; [done|]. split.
    + apply orb_true_iff in Hc as [Hc|Hc]; apply Ascii.eqb_eq in Hc; auto.
    + destruct rest as [|d rest']; [by left|].
      apply Ascii.eqb_eq in Hrest as ->. right. by eexists.
  - intros (c & post & -> & Hc & Hpost). unfold json_suffix.
    apply andb_true_iff. split.
    + destruct Hc as [->| ->]; done.
    + rewrite (proj2 (strip_prefix_spec "json" ("json" ++ post) post) eq_refl).
      destruct Hpost as [->|[post' ->]]; done.
Qed.

(** X25. The content types whose body is decoded are exactly the texts
    that hold, somewhere, a [+] or a [/] followed by [json] and then by a
    [;] or by the end of the text: [application/json],
    [application/vnd.api+json; charset=utf-8], but neither [json] alone nor
    [application/jsonp]. *)
Lemma json_content_type_spec (s : string) :
  json_content_type s = true <->
  exists (pre : string) (c : ascii) (post : string),
    s = pre ++ String c ("json" ++ post) /\
    (c = "+"%char \/ c = "/"%char) /\
    (post = "" \/ exists post', post = String ";" post').
Proof.
  induction s as [|a s IH].
  - split; [done|]. intros (pre & c & post & Hs & _). by destruct pre.
  - cbn [json_content_type]. rewrite orb_true_iff, json_suffix_spec, IH.
    split.
    + intros [(c & post & Hs & Hc)|(pre & c & post & Hs & Hc)].
      * exists "", c, post. by split.
      * exists (String a pre), c, post. split; [by rewrite Hs|done].
    + intros (pre & c & post & Hs & Hc). destruct pre as [|b pre].
      * left. by exists c, post.
      * right. cbn in Hs. inversion Hs; subst. by exists pre, c, post.
Qed.

(** *** What [JSON.parse] builds *)

Lemma pretty_N_go_ne_length (x : N) (s : string) :
  s <> "length" -> pretty.pretty_N_go x s <> "length".
Proof.
  revert s. induction (N.lt_wf_0 x) as [x _ IH]; intros s Hs.
  assert (x = 0 \/ 0 < x)%N as [->|Hx] by lia.
  - by rewrite pretty.pretty_N_go_0.
  - rewrite pretty.pretty_N_go_step by done. apply IH.
    { by apply N.div_lt. }
    unfold pretty.pretty_N_char. by repeat case_match.
Qed.

Lemma pretty_nat_ne_length (i : nat) : pretty i <> "length".
Proof.
  unfold pretty, pretty.pretty_nat, pretty, pretty.pretty_N.
  case_decide; [done|]. by apply pretty_N_go_ne_length.
Qed.

Lemma arr_items_impl {A} (D D' : A -> value -> Prop)
    (props props' : gmap string value) (l : list A) (i : nat) :
  Forall (fun x => forall v, D x v -> D' x v) l ->
  (forall i', i <= i' -> props' !! pretty i' = props !! pretty i') ->
  arr_items D props l i -> arr_items D' props' l i.
Proof.
  intros HD. revert i. induction HD as [|x l Hx _ IH]; intros i Hp; [done|].
  cbn [arr_items]. intros [(v & Hv & Hd) Hrest]. split.
  - exists v. split; [by rewrite Hp | by apply Hx].
  - apply IH; [|done]. intros i' Hi'. apply Hp. lia.
Qed.

Lemma obj_members_impl {A} (D D' : A -> value -> Prop)
    (props props' : gmap string value) (l : list (string * A)) :
  Forall (fun kx => forall v, D kx.2 v -> D' kx.2 v) l ->
  (forall k, k ∈ l.*1 -> props' !! k = props !! k) ->
  obj_members D props l -> obj_members D' props' l.
Proof.
  intros HD. induction HD as [|kx l Hx _ IH]; intros Hp; [done|].
  cbn [obj_members]. intros [Hhead Hrest]. split.
  - destruct Hhead as [Hin|(v & Hv & Hd)]; [by left|right].
    exists v. split; [|by apply Hx].
    rewrite Hp; [done|]. cbn. apply elem_of_cons. by left.
  - apply IH; [|done]. intros k Hk. apply Hp. cbn. apply elem_of_cons.
    by right.
Qed.

(** A value stays the parsed text it is when the heap keeps the objects
    from [n] on. *)
Lemma denotes_mono (n n' : nat) (h h' : list object) (j : json) (v : value) :
  n' <= n ->
  (forall a x, n <= a -> h !! a = Some x -> h' !! a = Some x) ->
  denotes n h j v -> denotes n' h' j v.
Proof.
  intros Hn Hh. revert v.
  induction j as [| | | |items IH|members IH] using json_nested_ind;
    intros v; try done.
  - cbn [denotes]. intros (a & props & -> & Ha & Hobj & Hlen & Hdom & Hitems).
    exists a, props. split; [done|]. split; [lia|]. split; [by apply Hh|].
    split; [done|]. split; [done|].
    by apply (arr_items_impl (denotes n h) _ props props items 0 IH).
  - cbn [denotes]. intros (a & props & -> & Ha & Hobj & Hdom & Hmembers).
    exists a, props. split; [done|]. split; [lia|]. split; [by apply Hh|].
    split; [done|].
    by apply (obj_members_impl (denotes n h) _ props props members IH).
Qed.

Lemma Forall_denotes_mono {A} (f : A -> json) (l : list A) (n n' : nat)
    (h h' : list object) :
  n' <= n ->
  (forall a x, n <= a -> h !! a = Some x -> h' !! a = Some x) ->
  Forall (fun x => forall v, denotes n h (f x) v -> denotes n' h' (f x) v) l.
Proof.
  intros Hn Hh. apply Forall_forall. intros x _ v. by apply denotes_mono.
Qed.

(** [JSON.parse] only adds objects to the heap, and the value it returns
    is the parsed text, built of these new objects. *)
Lemma alloc_json_denotes (j : json) (w : world) :
  exists (v : value) (ext : list object),
    alloc_json j w = (Ret v, with_heap (heap w ++ ext) w) /\
    denotes (length (heap w)) (heap w ++ ext) j v.
Proof.
  revert w.
  induction j as [|b|x|t|items IH|members IH] using json_nested_ind;
    intros w;
    try (eexists _, []; split;
         [unfold alloc_json, ret; by rewrite app_nil_r, with_heap_id | done]).
  - (* arrays *)
    assert (Hgo : forall i w,
      exists (m : gmap string value) (ext : list object),
        alloc_items alloc_json items i w =
          (Ret m, with_heap (heap w ++ ext) w) /\
        m !! "length" = Some (VNum (Z.of_nat (i + length items))) /\
        (forall k, is_Some (m !! k) ->
           k = "length" \/ exists i', i <= i' < i + length items /\ k = pretty i') /\
        arr_items (denotes (length (heap w)) (heap w ++ ext)) m items i).
    { clear w. induction IH as [|x l Hx _ IHl]; intros i w.
      - exists {[ "length" := VNum (Z.of_nat i) ]}, [].
        cbn [alloc_items length arr_items]. split.
        { unfold ret. by rewrite app_nil_r, with_heap_id. }
        split; [rewrite Nat.add_0_r; apply lookup_singleton_eq|].
        split; [|done]. intros k [y Hk].
        apply lookup_singleton_Some in Hk as [<- _]. by left.
      - destruct (Hx w) as (v & ext1 & Hv & Hdv).
        set (w1 := with_heap (heap w ++ ext1) w).
        destruct (IHl (S i) w1) as (m & ext2 & Hm & Hlen & Hdom & Hrest).
        exists (<[pretty i := v]> m), (ext1 ++ ext2)%list.
        cbn [alloc_items length arr_items].
        split.
        { rewrite (bind_ret _ _ _ _ _ Hv). fold w1.
          rewrite (bind_ret _ _ _ _ _ Hm). unfold ret, w1, with_heap. cbn.
          by rewrite app_assoc. }
        split.
        { rewrite lookup_insert_ne by apply pretty_nat_ne_length.
          rewrite Hlen. do 3 f_equal. lia. }
        split.
        { intros k Hk. destruct (decide (k = pretty i)) as [->|Hne].
          - right. exists i. split; [lia|done].
          - rewrite lookup_insert_ne in Hk by done.
            destruct (Hdom k Hk) as [->|(i' & Hi' & ->)]; [by left|].
            right. exists i'. split; [lia|done]. }
        split.
        { exists v. split; [apply lookup_insert_eq|].
          apply (denotes_mono (length (heap w)) _ (heap w ++ ext1)); [lia| |done].
          intros a y _ Hy. rewrite app_assoc. by apply lookup_app_l_Some. }
        apply (arr_items_impl (denotes (length (heap w1)) (heap w1 ++ ext2))
                 _ m _ l (S i)); [| |exact Hrest].
        + apply (Forall_denotes_mono (fun x => x)).
          * unfold w1. cbn. rewrite length_app. lia.
          * intros a y _ Hy. unfold w1 in Hy. cbn in Hy.
            by rewrite app_assoc.
        + intros i' Hi'. rewrite lookup_insert_ne; [done|].
          intros Heq. apply (inj pretty) in Heq. lia. }
    destruct (Hgo 0%nat w) as (m & ext & Hm & Hlen & Hdom & Hitems).
    exists (VObj (length (heap w ++ ext))), (ext ++ [Object KArray m])%list.
    cbn [alloc_json]. split.
    { rewrite (bind_ret _ _ _ _ _ Hm). unfold alloc. cbn.
      rewrite decide_False by done. unfold with_heap. cbn.
      by rewrite app_assoc. }
    cbn [denotes]. exists (length (heap w ++ ext)), m.
    split; [done|]. split; [rewrite length_app; lia|].
    split; [rewrite app_assoc; by apply list_lookup_middle|].
    split; [exact Hlen|]. split.
    { intros k Hk. destruct (Hdom k Hk) as [->|(i' & Hi' & ->)]; [by left|].
      right. exists i'. split; [lia|done]. }
    apply (arr_items_impl (denotes (length (heap w)) (heap w ++ ext))
             _ m _ items 0); [| done |exact Hitems].
    apply (Forall_denotes_mono (fun x => x)); [lia|].
    intros a y _ Hy. rewrite app_assoc. by apply lookup_app_l_Some.
  - (* objects *)
    assert (Hgo : forall w,
      exists (m : gmap string value) (ext : list object),
        alloc_members alloc_json members w =
          (Ret m, with_heap (heap w ++ ext) w) /\
        (forall k, is_Some (m !! k) <-> k ∈ members.*1) /\
        obj_members (denotes (length (heap w)) (heap w ++ ext)) m members).
    { clear w. induction IH as [|[k x] l Hx _ IHl]; intros w.
      - exists ∅, []. cbn [alloc_members obj_members]. split.
        { unfold ret. by rewrite app_nil_r, with_heap_id. }
        split; [|done]. intros k. rewrite lookup_empty. cbn.
        split; [by intros [? ?] | by intros ?%elem_of_nil].
      - cbn [snd] in Hx. destruct (Hx w) as (v & ext1 & Hv & Hdv).
        set (w1 := with_heap (heap w ++ ext1) w).
        destruct (IHl w1) as (m & ext2 & Hm & Hdom & Hrest).
        exists (if decide (is_Some (m !! k)) then m else <[k := v]> m),
               (ext1 ++ ext2)%list.
        cbn [alloc_members obj_members fst snd].
        split.
        { rewrite (bind_ret _ _ _ _ _ Hv). fold w1.
          rewrite (bind_ret _ _ _ _ _ Hm). unfold ret, w1, with_heap. cbn.
          by rewrite app_assoc. }
        assert (Hrest' :
          obj_members (denotes (length (heap w)) (heap w ++ (ext1 ++ ext2)))
            (if decide (is_Some (m !! k)) then m else <[k := v]> m) l).
        { apply (obj_members_impl (denotes (length (heap w1)) (heap w1 ++ ext2))
                   _ m _ l); [| |exact Hrest].
          - apply (Forall_denotes_mono (fun kx => kx.2)).
            + unfold w1. cbn. rewrite length_app. lia.
            + intros a y _ Hy. unfold w1 in Hy. cbn in Hy.
              by rewrite app_assoc.
          - intros k' Hk'. case_decide as Hk; [done|].
            rewrite lookup_insert_ne; [done|]. intros <-.
            apply Hk. by apply Hdom. }
        split.
        { intros k'. cbn [fmap list_fmap fst]. rewrite elem_of_cons.
          case_decide as Hk.
          - rewrite Hdom. split; [by right|].
            intros [->|?]; [by apply Hdom|done].
          - destruct (decide (k' = k)) as [->|Hne].
            + rewrite lookup_insert_eq. split; [by left|by eexists].
            + rewrite lookup_insert_ne by done. rewrite Hdom.
              split; [by right|]. by intros [?|?]. }
        split; [|exact Hrest'].
        case_decide as Hk; [left; by apply Hdom|right].
        exists v. split; [apply lookup_insert_eq|].
        apply (denotes_mono (length (heap w)) _ (heap w ++ ext1)); [lia| |done].
        intros a y _ Hy. rewrite app_assoc. by apply lookup_app_l_Some. }
    destruct (Hgo w) as (m & ext & Hm & Hdom & Hmembers).
    exists (VObj (length (heap w ++ ext))), (ext ++ [Object KObject m])%list.
    cbn [alloc_json]. split.
    { rewrite (bind_ret _ _ _ _ _ Hm). unfold alloc. cbn.
      rewrite decide_False by done. unfold with_heap. cbn.
      by rewrite app_assoc. }
    cbn [denotes]. exists (length (heap w ++ ext)), m.
    split; [done|]. split; [rewrite length_app; lia|].
    split; [rewrite app_assoc; by apply list_lookup_middle|].
    split; [intros k Hk; by apply Hdom|].
    apply (obj_members_impl (denotes (length (heap w)) (heap w ++ ext))
             _ m _ members); [| done |exact Hmembers].
    apply (Forall_denotes_mono (fun kx => kx.2)); [lia|].
    intros a y _ Hy. rewrite app_assoc. by apply lookup_app_l_Some.
Qed.

Section ExecutorTheorems.

Context `{Node} `{HttpHeaders}.

(** C7. When the [Content-Type] of the response matches
    [/[+/]json(;|$)/], the end of the response parses the text of the
    concatenated chunks as JSON and stores the value as the [body] of the
    response: when the text parses, the body is that JSON value, built in
    the heap out of new arrays and objects; when it does not parse, the
    body is a new empty object.  Either way the response goes to the
    success continuation [ok], with nothing thrown and nothing else
    delivered meanwhile. *)
Theorem onEnd_decodes_json (w : world) (r : addr) (o : object)
    (_hash _cacheTime : value) (chunks : list string) (ok : value -> M unit) :
  heap w !! r = Some o ->
  json_content_type
    (to_string
       (hdr_get (hdr_new (props_at w (prop (o_props o) "headers")))
                "Content-Type")) = true ->
  exists (body : value) (w' : world),
    onEnd _hash _cacheTime (VObj r) chunks ok w = ok (VObj r) w' /\
    get_prop (VObj r) "body" w' = (Ret body, w') /\
    trace w' = trace w /\
    match JSON_parse (Buffer_toString (String.concat "" chunks)) with
    | Some j =>
        (alloc_json j w).1 = Ret body /\
        denotes (length (heap w)) (heap w') j body
    | None =>
        body = VObj (length (heap w)) /\
        heap w' !! length (heap w) = Some (Object KObject ∅)
    end.
Proof.
  intros Hr Hct. unfold onEnd.
  rewrite (bind_get_prop _ _ _ _ _ Hr).
  rewrite (bind_ret _ _ _ _ _ (own_props_run _ w)).
  cbv zeta. rewrite Hct.
  assert (Hlt : r < length (heap w)) by (by eapply lookup_lt_Some).
  set (text := Buffer_toString (String.concat "" chunks)).
  assert (Hdec : exists (body : value) (ext : list object),
    match JSON_parse text with
    | Some j => alloc_json j
    | None => alloc KObject ∅
    end w = (Ret body, with_heap (heap w ++ ext) w) /\
    match JSON_parse text with
    | Some j =>
        (alloc_json j w).1 = Ret body /\
        denotes (length (heap w)) (heap w ++ ext) j body
    | None => body = VObj (length (heap w)) /\ ext = [Object KObject ∅]
    end).
  { destruct (JSON_parse text) as [j|].
    - destruct (alloc_json_denotes j w) as (body & ext & Hj & Hden).
      exists body, ext. by rewrite Hj.
    - by eexists _, _. }
  destruct Hdec as (body & ext & Hrun & Hbody).
  rewrite (bind_ret _ _ _ _ _ Hrun), bind_set_prop.
  set (w1 := with_heap (heap w ++ ext) w).
  assert (Hr1 : heap w1 !! r = Some o) by (cbn; by rewrite lookup_app_l).
  pose proof (update_props_same (insert "body" body) r w1 o Hr1) as Hr2.
  destruct (update_props_frame (insert "body" body) r w1) as (_ & _ & _ & Ht2).
  set (w2 := update_props (insert "body" body) r w1) in *.
  assert (Hkeep : forall (a : nat) (x : object), length (heap w) <= a ->
                    (heap w ++ ext)%list !! a = Some x -> heap w2 !! a = Some x).
  { intros a x Ha Hx. unfold w2. rewrite update_props_other by lia. exact Hx. }
  assert (Hext : JSON_parse text = None ->
                 heap w2 !! length (heap w) = Some (Object KObject ∅)).
  { intros Hnone. rewrite Hnone in Hbody. destruct Hbody as [_ ->].
    apply Hkeep; [lia|]. by apply list_lookup_middle. }
  exists body.
  destruct (truthy _hash).
  - rewrite (bind_ret _ _ _ _ _ (addToCache_run w2 _ _ r _ Hr2)).
    eexists. split; [reflexivity|]. split; [|split].
    + erewrite get_prop_obj.
      2:{ cbn [heap]. rewrite lookup_app_l; [exact Hr2|].
          by eapply lookup_lt_Some. }
      cbn [o_props]. unfold prop. by rewrite lookup_insert_eq.
    + cbn [trace]. exact Ht2.
    + destruct (JSON_parse text) as [j|].
      * destruct Hbody as [Hb Hden]. split; [exact Hb|]. cbn [heap].
        apply (denotes_mono (length (heap w)) _ (heap w ++ ext));
          [lia| |exact Hden].
        intros a x Ha Hx. apply lookup_app_l_Some. by apply Hkeep.
      * split; [apply Hbody|]. cbn [heap].
        rewrite lookup_app_l; [by apply Hext|].
        eapply lookup_lt_Some. by apply Hext.
  - rewrite bind_ret_l. exists w2. split; [reflexivity|]. split; [|split].
    + rewrite (get_prop_obj _ _ _ _ Hr2). cbn [o_props]. unfold prop.
      by rewrite lookup_insert_eq.
    + exact Ht2.
    + destruct (JSON_parse text) as [j|].
      * destruct Hbody as [Hb Hden]. split; [exact Hb|].
        by apply (denotes_mono (length (heap w)) _ (heap w ++ ext)).
      * split; [apply Hbody | by apply Hext].
Qed.

Lemma effectiveCacheTime_run (w : world) (a : addr) (o : object) :
  heap w !! a = Some o ->
  effectiveCacheTime (VObj a) w =
    (Ret (match o_props o !! "cacheTime" with
          | Some v => v
          | None => cacheTime w
          end), w).
Proof.
  intros Ha. unfold effectiveCacheTime.
  rewrite (bind_has_prop _ _ _ _ _ Ha).
  destruct (o_props o !! "cacheTime") as [v|] eqn:Hv.
  - rewrite bool_decide_eq_true_2 by done.
    rewrite (get_prop_obj _ _ _ _ Ha). unfold prop. by rewrite Hv.
  - rewrite bool_decide_eq_false_2; [done|]. by intros [? ?].
Qed.

(** C6. The effective cache time of a request is its [cacheTime] when the
    options have one, and the default of the module otherwise.  When it is
    truthy (a duration other than 0), the cache is looked up under the
    SHA-256 hash of the JSON text of the options, and on a hit (an entry
    under that key that is not expired) the success continuation [ok]
    receives the stored snapshot, rebuilt by [fromCache]: by then nothing
    has been sent to the network and nothing else has been delivered. *)
Theorem doRequest_cache_hit (w : world) (a : addr) (o : object)
    (ok error : value -> M unit) (net : answer) (e : entry) (s : addr)
    (os : object) :
  heap w !! a = Some o ->
  let ttl := match o_props o !! "cacheTime" with
             | Some v => v
             | None => cacheTime w
             end in
  let key := sha256_hex (JSON_stringify (heap w) (VObj a)) in
  effectiveCacheTime (VObj a) w = (Ret ttl, w) /\
  (truthy ttl = true ->
   cache w !! key = Some e ->
   (clock w <= time e)%Z ->
   data e = VObj s ->
   heap w !! s = Some os ->
   exists (snapshot : value) (w' : world),
     fromCache key w = (Ret snapshot, w') /\
     doRequest (VObj a) ok error net w = ok snapshot w' /\
     trace w' = trace w /\
     Forall (fun name =>
       get_prop snapshot name w' = (Ret (prop (o_props os) name), w'))
       properties).
Proof.
  intros Ha ttl key. split; [by apply effectiveCacheTime_run|].
  intros Httl He Htime Hdata Hs.
  assert (Hp : purged (clock w) (cache w) !! key = Some e).
  { rewrite purged_lookup, He. by rewrite decide_False by lia. }
  pose proof (fromCache_hit w key e s os Hp Hdata Hs) as Hhit.
  eexists _, _. split; [exact Hhit|]. split; [|split].
  - unfold doRequest.
    rewrite (bind_ret _ _ _ _ _ (effectiveCacheTime_run w a o Ha)).
    fold ttl. rewrite Httl.
    rewrite bind_assoc. unfold bind at 1. unfold buildHash. fold key.
    rewrite bind_assoc, (bind_ret _ _ _ _ _ Hhit).
    by rewrite !bind_ret_l.
  - done.
  - apply Forall_forall. intros name Hn.
    erewrite get_prop_obj; [|cbn [heap]; apply list_lookup_middle; done].
    cbn [o_props]. by rewrite copy_props_prop, decide_True.
Qed.

End ExecutorTheorems.

(** ** The entry point *)

Section EntryPointTheorems.

Context `{Node} `{HttpHeaders}.

(** C8. Called without options, or with options from which no host name
    comes out of the URL and of the [host] alias, the entry point throws a
    [TypeError] at once: it returns nothing (no emitter, no promise), and
    nothing has been sent to the network nor handed to a callback, an event
    or a promise. *)
Theorem jfHttpRequest_rejects_bad_options (w : world) (options : value)
    (net : answer) :
  (truthy options = false \/
   exists p : gmap string value,
     options_props w options = Some p /\
     truthy (prop (aliased_host (merged_url p)) "hostname") = false) ->
  exists w' : world,
    jfHttpRequest options net w =
      (Throw (TypeError (if truthy options then "Wrong hostname"
                         else "Wrong options")), w') /\
    trace w' = trace w.
Proof.
  intros Hbad. unfold jfHttpRequest.
  destruct (truthy options) eqn:Ht.
  2:{ exists w. by split. }
  destruct Hbad as [Hf|(p & Hp & Hhost)]; [done|].
  destruct options as [| | | |url| | |a|]; try done.
  - (* a bare URL *)
    injection Hp as <-.
    unfold bind at 1. cbn [alloc]. rewrite decide_False by done.
    set (w1 := with_heap _ w).
    assert (Ha : heap w1 !! length (heap w) = Some (Object KObject {[ "url" := VStr url ]})).
    { cbn. by apply list_lookup_middle. }
    eexists. split.
    + apply bind_throw. rewrite (checkUrl_run w1 _ _ Ha). cbn [o_props].
      by rewrite Hhost.
    + by destruct (update_props_frame
        (fun p => aliased_host (merged_url p)) (length (heap w)) w1)
        as (_ & _ & _ & ->).
  - (* an options object *)
    cbn in Hp. destruct (heap w !! a) as [o|] eqn:Ha; [|done].
    injection Hp as <-. rewrite bind_ret_l.
    eexists. split.
    + apply bind_throw. rewrite (checkUrl_run w _ _ Ha). by rewrite Hhost.
    + by destruct (update_props_frame
        (fun p => aliased_host (merged_url p)) a w) as (_ & _ & _ & ->).
Qed.

End EntryPointTheorems.

(** Options with a path but no host, for instance. *)
Lemma jfHttpRequest_rejects_bad_options_witness :
  let w := World [Object KObject {[ "path" := VStr "/a" ]}] ∅ (VNum 0) 0 [] in
  let net := NetError 10 (VErr "getaddrinfo ENOTFOUND") in
  exists w' : world,
    @jfHttpRequest Sample.node Sample.http_headers (VObj 0) net w =
      (Throw (TypeError "Wrong hostname"), w') /\
    trace w' = trace w.
Proof.
  intros w net.
  apply (jfHttpRequest_rejects_bad_options
           (H:=Sample.node) (H0:=Sample.http_headers) w (VObj 0) net).
  right. exists {[ "path" := VStr "/a" ]}. split; reflexivity.
Defined.

(** C2. The documented call with [requestType : 'promise'], here answered
    by a 404: the text is not a function, so the request is made in event
    mode.  The entry point returns a new event emitter, on which
    [request-fail] is emitted; no promise is made, resolved or rejected. *)
Theorem jfHttpRequest_promise_text_is_event_mode :
  let options : gmap string value :=
    list_to_map [ ("requestType", VStr "promise");
                  ("url", VStr "http://example.com/a?b=1") ] in
  let response : gmap string value :=
    list_to_map [ ("statusCode", VNum 404); ("headers", VObj 2) ] in
  let w := World [Object KObject options; Object KMessage response;
                  Object KObject ∅] ∅ (VNum 0) 1000 [] in
  let run := @jfHttpRequest Sample.node Sample.http_headers (VObj 0)
               (NetResponse 30 (VObj 1) ["Not Found"]) w in
  run.1 = Ret (VObj 3) /\
  o_kind <$> heap run.2 !! 3%nat = Some KEvents /\
  trace run.2 = [ Request false (VObj 0); RequestEnd;
                  Emit (VObj 3) "request-fail" (VObj 1) ].
Proof.
  intros. repeat (apply conj); vm_compute; reflexivity.
Qed.

(** With a promise class as [requestType] the same request does settle a
    promise, resolved although the status is 404. *)
Example jfHttpRequest_promise_class_resolves :
  let options : gmap string value :=
    list_to_map [ ("requestType", VFun 3);
                  ("url", VStr "http://example.com/a?b=1") ] in
  let response : gmap string value :=
    list_to_map [ ("statusCode", VNum 404); ("headers", VObj 2) ] in
  let w := World [Object KObject options; Object KMessage response;
                  Object KObject ∅;
                  Object KFunction {[ "prototype" := VObj 4 ]};
                  Object KObject (list_to_map [ ("then", VFun 5);
                                                ("catch", VFun 6) ]);
                  Object KFunction ∅; Object KFunction ∅] ∅ (VNum 0) 1000 [] in
  let run := @jfHttpRequest Sample.node Sample.http_headers (VObj 0)
               (NetResponse 30 (VObj 1) ["Not Found"]) w in
  run.1 = Ret (VObj 7) /\
  o_kind <$> heap run.2 !! 7%nat = Some KPromise /\
  trace run.2 = [ Request false (VObj 0); RequestEnd;
                  Resolve (VObj 7) (VObj 1) ].
Proof.
  intros. repeat (apply conj); vm_compute; reflexivity.
Qed.

(** ** The statements above at concrete requests *)

(** A response kept for a minute and looked up after half a second. *)
Lemma cache_round_trip_witness :
  let r : gmap string value :=
    list_to_map [ ("statusCode", VNum 200); ("body", VStr "hello") ] in
  let w := World [Object KMessage r] ∅ (VNum 0) 1000 [] in
  let w1 := (addToCache "k" 60000 (VObj 0) w).2 in
  exists (found : value) (w2 : world),
    @fromCache Sample.node "k" (advance 500 w1) = (Ret found, w2) /\
    if decide (500 <= 60000)%Z then
      Forall (fun name =>
        (get_prop found name w2).1 = (get_prop (VObj 0) name w).1) properties /\
      typeof found = "object" /\ truthy found = true
    else found = VUndef.
Proof.
  intros r w.
  apply (cache_round_trip (H:=Sample.node) w "k" 60000 500 0 (Object KMessage r));
    [lia | lia | reflexivity].
Defined.


(** A request with its own cache time, whose response is in the cache. *)
Lemma doRequest_cache_hit_witness :
  let options : gmap string value :=
    list_to_map [ ("hostname", VStr "example.com"); ("cacheTime", VNum 60000) ] in
  let stored : gmap string value :=
    list_to_map [ ("statusCode", VNum 200); ("body", VStr "hello") ] in
  let h := [Object KObject options; Object KObject stored] in
  let key := @sha256_hex Sample.node (@JSON_stringify Sample.node h (VObj 0)) in
  let w := World h {[ key := Entry (VObj 1) 5000 ]} (VNum 0) 1000 [] in
  let ok := fun v => log (Resolve (VObj 9) v) in
  let error := fun v => log (Reject (VObj 9) v) in
  let net := NetError 10 (VErr "ECONNREFUSED") in
  effectiveCacheTime (VObj 0) w = (Ret (VNum 60000), w) /\
  exists (snapshot : value) (w' : world),
    @fromCache Sample.node key w = (Ret snapshot, w') /\
    @doRequest Sample.node Sample.http_headers (VObj 0) ok error net w =
      ok snapshot w' /\
    trace w' = trace w /\
    Forall (fun name =>
      get_prop snapshot name w' = (Ret (prop stored name), w'))
      properties.
Proof.
  intros options stored h key w ok error net.
  destruct (doRequest_cache_hit (H:=Sample.node) (H0:=Sample.http_headers)
              w 0 (Object KObject options) ok error net
              (Entry (VObj 1) 5000) 1 (Object KObject stored) eq_refl)
    as [Httl Hhit].
  split; [exact Httl|].
  apply Hhit; [reflexivity | vm_compute; reflexivity | cbn; lia
              | reflexivity | reflexivity].
Defined.

(** A response announced as JSON whose body is not JSON. *)
Lemma onEnd_decodes_json_witness :
  let response : gmap string value :=
    list_to_map [ ("statusCode", VNum 200); ("headers", VObj 1) ] in
  let w := World [Object KMessage response;
                  Object KObject {[ "Content-Type" := VStr "application/json" ]}]
                 ∅ (VNum 0) 1000 [] in
  let ok := fun v => log (Resolve (VObj 9) v) in
  let j := JObj [("a", JNum 1)] in
  (exists (body : value) (w' : world),
     @onEnd Sample.node Sample.http_headers VUndef (VNum 0) (VObj 0)
       ["{"; Sample.quote ++ "a" ++ Sample.quote ++ ":1}"] ok w =
       ok (VObj 0) w' /\
     get_prop (VObj 0) "body" w' = (Ret body, w') /\
     trace w' = trace w /\
     (alloc_json j w).1 = Ret body /\
     denotes 2 (heap w') j body) /\
  (exists (body : value) (w' : world),
     @onEnd Sample.node Sample.http_headers VUndef (VNum 0) (VObj 0)
       ["not "; "json"] ok w = ok (VObj 0) w' /\
     get_prop (VObj 0) "body" w' = (Ret body, w') /\
     trace w' = trace w /\
     body = VObj 2 /\ heap w' !! 2%nat = Some (Object KObject ∅)).
Proof.
  intros response w ok j. apply conj.
  - apply (onEnd_decodes_json (H:=Sample.node) (H0:=Sample.http_headers)
             w 0 (Object KMessage response) VUndef (VNum 0)
             ["{"; Sample.quote ++ "a" ++ Sample.quote ++ ":1}"] ok);
      reflexivity.
  - apply (onEnd_decodes_json (H:=Sample.node) (H0:=Sample.http_headers)
             w 0 (Object KMessage response) VUndef (VNum 0)
             ["not "; "json"] ok);
      reflexivity.
Defined.

(** ** Further facts about the model *)

Section ExecutorFacts.

Context `{Node} `{HttpHeaders}.

(** Without caching, a request that the transport takes and that the
    network answers with a response is sent once and ends in [onEnd]; the
    error continuation plays no part. *)
Lemma doRequest_without_cache (w : world) (a : addr) (o : object)
    (ok error : value -> M unit) (elapsed : Z) (response : value)
    (chunks : list string) :
  heap w !! a = Some o ->
  let ttl := match o_props o !! "cacheTime" with
             | Some v => v
             | None => cacheTime w
             end in
  truthy ttl = false ->
  accepted (heap w) a (o_props o) ->
  doRequest (VObj a) ok error (NetResponse elapsed response chunks) w =
    onEnd VUndef ttl response chunks ok
      (advance elapsed
         (with_trace
            (trace w ++
             Request (strict_eq (prop (o_props o) "protocol") (VStr "https:"))
                     (VObj a)
             :: match o_props o !! "body" with
                | Some body => [RequestWrite body; RequestEnd]
                | None => [RequestEnd]
                end) w)).
Proof.
  intros Ha ttl Httl [Hreq Hbody]. unfold doRequest.
  rewrite (bind_ret _ _ _ _ _ (effectiveCacheTime_run w a o Ha)).
  fold ttl. rewrite Httl, bind_ret_l. cbn [fst snd truthy].
  rewrite (bind_get_prop _ _ _ _ _ Ha). cbv zeta.
  unfold bind at 1. rewrite Hreq, bind_log.
  set (w1 := with_trace _ w).
  assert (Ha1 : heap w1 !! a = Some o) by done.
  rewrite (bind_has_prop _ _ _ _ _ Ha1).
  destruct (o_props o !! "body") as [body|] eqn:Hb.
  - rewrite bool_decide_eq_true_2 by done.
    rewrite bind_assoc, (bind_get_prop _ _ _ _ _ Ha1).
    assert (Hpb : prop (o_props o) "body" = body) by (unfold prop; by rewrite Hb).
    rewrite Hpb, Hbody, !bind_log.
    unfold bind at 1.
    unfold w1, with_trace, advance. cbn.
    by rewrite <- !app_assoc.
  - rewrite bool_decide_eq_false_2 by (by intros [? ?]).
    rewrite bind_ret_l, bind_log. unfold bind at 1.
    unfold w1, with_trace, advance. cbn.
    by rewrite <- !app_assoc.
Qed.

(** Whenever the normalised options carry a text as [requestType] (the
    text [promise] included), the request is made in event mode. *)
Lemma jfHttpRequest_text_type_is_event_mode (w w1 w2 : world) (a : addr)
    (s : string) (net : answer) :
  checkUrl (VObj a) w = (Ret tt, w1) ->
  checkHeaders (VObj a) w1 = (Ret tt, w2) ->
  get_prop (VObj a) "requestType" w2 = (Ret (VStr s), w2) ->
  jfHttpRequest (VObj a) net w =
    typeEvents (VObj a) net (update_props (delete "requestType") a w2).
Proof.
  intros Hurl Hheaders Htype. unfold jfHttpRequest. cbn [truthy].
  rewrite bind_ret_l.
  rewrite (bind_ret _ _ _ _ _ Hurl), (bind_ret _ _ _ _ _ Hheaders).
  rewrite (bind_ret _ _ _ _ _ Htype). by rewrite bind_delete_prop.
Qed.

End ExecutorFacts.

(** The copy kept by the cache is one level deep: a property whose value
    is an object (here the headers) still refers to the object the response
    refers to, so a change inside that object shows in later lookups. *)
Example cache_shares_nested_objects :
  let response : gmap string value :=
    list_to_map [ ("statusCode", VNum 200); ("headers", VObj 1) ] in
  let w := World [Object KMessage response;
                  Object KObject {[ "etag" := VStr "v1" ]}] ∅ (VNum 0) 1000 [] in
  let w1 := update_props (insert "etag" (VStr "v2")) 1
              (addToCache "k" 60000 (VObj 0) w).2 in
  let run := @fromCache Sample.node "k" w1 in
  run.1 = Ret (VObj 3) /\
  get_prop (VObj 3) "headers" run.2 = (Ret (VObj 1), run.2) /\
  props_at run.2 (VObj 1) = {[ "etag" := VStr "v2" ]}.
Proof.
  intros. repeat (apply conj); vm_compute; reflexivity.
Qed.

(** In promise mode a transport error rejects the promise. *)
Example jfHttpRequest_promise_class_rejects :
  let options : gmap string value :=
    list_to_map [ ("requestType", VFun 1);
                  ("url", VStr "http://example.com/a?b=1") ] in
  let w := World [Object KObject options;
                  Object KFunction {[ "prototype" := VObj 2 ]};
                  Object KObject (list_to_map [ ("then", VFun 3);
                                                ("catch", VFun 4) ]);
                  Object KFunction ∅; Object KFunction ∅] ∅ (VNum 0) 1000 [] in
  let run := @jfHttpRequest Sample.node Sample.http_headers (VObj 0)
               (NetError 30 (VErr "getaddrinfo ENOTFOUND example.com")) w in
  run.1 = Ret (VObj 5) /\
  o_kind <$> heap run.2 !! 5%nat = Some KPromise /\
  trace run.2 = [ Request false (VObj 0); RequestEnd;
                  Reject (VObj 5) (VErr "getaddrinfo ENOTFOUND example.com") ].
Proof.
  intros. repeat (apply conj); vm_compute; reflexivity.
Qed.

(** * Further properties of the code *)

(** ** The request executor, step by step *)

Lemma isOk_run (w : world) (response : value) :
  response_like w response ->
  isOk response w =
    (Ret (bool_decide
            (200 <= status_code w response < 300 \/
             status_code w response = 304)%Z), w).
Proof.
  unfold response_like, status_code, isOk. intros Hr.
  assert (H0 : false = bool_decide (200 <= 0 < 300 \/ 0 = 304)%Z).
  { symmetry. apply bool_decide_eq_false. lia. }
  destruct response as [| | | | | | |a|]; try done.
  destruct (heap w !! a) as [o|] eqn:Ha; [|done].
  simpl truthy. cbv iota.
  rewrite (bind_ret _ _ _ _ _ (get_prop_obj _ _ _ "statusCode" Ha)).
  unfold prop, ret.
  destruct (o_props o !! "statusCode") as [[| | |c| | | | |]|];
    simpl default; try done; try (cbn; by rewrite <- H0).
  do 2 f_equal. apply eq_true_iff_eq.
  rewrite isOk_code. by rewrite bool_decide_eq_true.
Qed.

Section ExecutorRuns.

Context `{Node} `{HttpHeaders}.

(** The end of a response held by an object: the body is decoded, set on
    the response and, when a hash was computed, a snapshot of the response
    is stored; then [ok] runs. *)
Lemma onEnd_run (w : world) (r : addr) (o : object)
    (_hash _cacheTime : value) (chunks : list string) (ok : value -> M unit) :
  heap w !! r = Some o ->
  exists (body : value) (ext : list object),
    (if json_content_type
          (to_string
             (hdr_get (hdr_new (props_at w (prop (o_props o) "headers")))
                      "Content-Type"))
     then
       match JSON_parse (Buffer_toString (String.concat "" chunks)) with
       | Some j => alloc_json j w = (Ret body, with_heap (heap w ++ ext) w)
       | None => body = VObj (length (heap w)) /\ ext = [Object KObject ∅]
       end
     else body = VBuf (String.concat "" chunks) /\ ext = []) /\
    let w2 := update_props (insert "body" body) r
                (with_heap (heap w ++ ext) w) in
    heap w2 !! r = Some (Object (o_kind o) (<["body" := body]> (o_props o))) /\
    onEnd _hash _cacheTime (VObj r) chunks ok w =
      ok (VObj r)
        (if truthy _hash then
           World (heap w2 ++
                    [Object KObject
                       (copy_props properties
                          (<["body" := body]> (o_props o)) ∅)])
                 (<[to_string _hash :=
                      Entry (VObj (length (heap w2)))
                            (clock w + milliseconds _cacheTime)]>
                    (purged (clock w) (cache w)))
                 (cacheTime w) (clock w) (trace w)
         else w2).
Proof.
  intros Hr. unfold onEnd.
  rewrite (bind_get_prop _ _ _ _ _ Hr).
  rewrite (bind_ret _ _ _ _ _ (own_props_run _ w)).
  cbv zeta. cbn [to_string].
  assert (Hlt : r < length (heap w)) by (by eapply lookup_lt_Some).
  set (ct := json_content_type _).
  assert (Hdec : exists (body : value) (ext : list object),
    (if ct then
       match JSON_parse (Buffer_toString (String.concat "" chunks)) with
       | Some j => alloc_json j
       | None => alloc KObject ∅
       end
     else ret (VBuf (String.concat "" chunks))) w
      = (Ret body, with_heap (heap w ++ ext) w) /\
    (if ct then
       match JSON_parse (Buffer_toString (String.concat "" chunks)) with
       | Some j => alloc_json j w = (Ret body, with_heap (heap w ++ ext) w)
       | None => body = VObj (length (heap w)) /\ ext = [Object KObject ∅]
       end
     else body = VBuf (String.concat "" chunks) /\ ext = [])).
  { destruct ct.
    - destruct (JSON_parse (Buffer_toString (String.concat "" chunks))) as [j|].
      + destruct (alloc_json_allocates j w) as (body & ext & Hj).
        by exists body, ext.
      + by eexists _, _.
    - exists (VBuf (String.concat "" chunks)), [].
      split; [|done]. unfold ret. by rewrite app_nil_r, with_heap_id. }
  destruct Hdec as (body & ext & Hrun & Hbody).
  exists body, ext. split; [exact Hbody|].
  rewrite (bind_ret _ _ _ _ _ Hrun), bind_set_prop.
  set (w1 := with_heap (heap w ++ ext) w).
  assert (Hr1 : heap w1 !! r = Some o) by (cbn; by rewrite lookup_app_l).
  pose proof (update_props_same (insert "body" body) r w1 o Hr1) as Hr2.
  destruct (update_props_frame (insert "body" body) r w1)
    as (Hc2 & Hm2 & Hk2 & Ht2).
  cbv zeta. split; [exact Hr2|].
  destruct (truthy _hash).
  - rewrite (bind_ret _ _ _ _ _ (addToCache_run _ _ _ r _ Hr2)).
    cbn [o_props]. by rewrite Hc2, Hm2, Hk2, Ht2.
  - by rewrite bind_ret_l.
Qed.

(** A request that does not hit the cache: the transport may refuse the
    options at once, or the body when it is written; otherwise the request
    is sent and the answer of the network goes to [error] or to the end of
    the response. *)
Lemma doRequest_miss_run (w : world) (a : addr) (o : object)
    (ok error : value -> M unit) (net : answer) :
  heap w !! a = Some o ->
  let ttl := match o_props o !! "cacheTime" with
             | Some v => v
             | None => cacheTime w
             end in
  let key := sha256_hex (JSON_stringify (heap w) (VObj a)) in
  (truthy ttl = true -> purged (clock w) (cache w) !! key = None) ->
  let secure := strict_eq (prop (o_props o) "protocol") (VStr "https:") in
  let w0 := if truthy ttl then with_cache (purged (clock w) (cache w)) w
            else w in
  let sent := with_trace (trace w ++ sent_events a (o_props o)) w0 in
  let go :=
    match net with
    | NetError elapsed err => error err (advance elapsed sent)
    | NetResponse elapsed response chunks =>
        onEnd (if truthy ttl then VStr key else VUndef) ttl response chunks ok
          (advance elapsed sent)
    end in
  doRequest (VObj a) ok error net w =
    match request_throws secure (heap w) (VObj a) with
    | Some e => (Throw e, w0)
    | None =>
        match o_props o !! "body" with
        | Some body =>
            if writable body then go
            else (Throw (TypeError "The chunk must be a string or a Buffer"),
                  with_trace (trace w ++ [Request secure (VObj a)]) w0)
        | None => go
        end
    end.
Proof.
  intros Ha ttl key Hmiss secure w0 sent go. unfold doRequest.
  rewrite (bind_ret _ _ _ _ _ (effectiveCacheTime_run w a o Ha)). fold ttl.
  assert (Hfound : forall (k : value * value -> M unit),
    bind (if truthy ttl then
            let* h := (fun w => (Ret (JSON_stringify (heap w) (VObj a)), w)) in
            let _hash := buildHash h in
            let* _response := fromCache _hash in
            ret (VStr _hash, _response)
          else ret (VUndef, VUndef)) k w =
    k (if truthy ttl then VStr key else VUndef, VUndef) w0).
  { intros k. unfold w0. destruct (truthy ttl); [|done].
    rewrite bind_assoc. unfold bind at 1. unfold buildHash. fold key.
    rewrite bind_assoc, (bind_ret _ _ _ _ _ (fromCache_miss w key (Hmiss eq_refl))).
    by rewrite bind_ret_l. }
  rewrite Hfound. clear Hfound. cbn [fst snd truthy].
  assert (Ha0 : heap w0 !! a = Some o) by (unfold w0; by destruct (truthy ttl)).
  assert (Hh0 : heap w0 = heap w) by (unfold w0; by destruct (truthy ttl)).
  assert (Ht0 : trace w0 = trace w) by (unfold w0; by destruct (truthy ttl)).
  rewrite (bind_get_prop _ _ _ _ _ Ha0). cbv zeta. fold secure.
  unfold bind at 1. rewrite Hh0.
  destruct (request_throws secure (heap w) (VObj a)) as [e|]; [done|].
  rewrite bind_log.
  set (w1 := with_trace _ w0).
  assert (Ha1 : heap w1 !! a = Some o) by done.
  rewrite (bind_has_prop _ _ _ _ _ Ha1).
  assert (Hgo : forall w',
    w' = sent ->
    match net with
    | NetError elapsed err =>
        (fun w => (Ret tt, advance elapsed w)) ;; error err
    | NetResponse elapsed response _chunks =>
        (fun w => (Ret tt, advance elapsed w)) ;;
        onEnd (if truthy ttl then VStr key else VUndef) ttl response
          _chunks ok
    end w' = go).
  { intros w' ->. unfold go. by destruct net. }
  destruct (o_props o !! "body") as [body|] eqn:Hb.
  - rewrite bool_decide_eq_true_2 by done.
    rewrite bind_assoc, (bind_get_prop _ _ _ _ _ Ha1).
    assert (Hpb : prop (o_props o) "body" = body)
      by (unfold prop; by rewrite Hb).
    rewrite Hpb. destruct (writable body).
    + rewrite !bind_log. apply Hgo.
      unfold sent, sent_events, w1, with_trace. cbn.
      by rewrite Hb, Ht0, <- !app_assoc.
    + unfold bind, throw, w1. by rewrite Ht0.
  - rewrite bool_decide_eq_false_2 by (by intros [? ?]).
    rewrite bind_ret_l, bind_log. apply Hgo.
    unfold sent, sent_events, w1, with_trace. cbn.
    by rewrite Hb, Ht0, <- !app_assoc.
Qed.

(** A request that does not hit the cache and that the transport takes is
    sent; the answer of the network then goes to [error] or to the end of
    the response. *)
Lemma doRequest_miss (w : world) (a : addr) (o : object)
    (ok error : value -> M unit) (net : answer) :
  heap w !! a = Some o ->
  let ttl := match o_props o !! "cacheTime" with
             | Some v => v
             | None => cacheTime w
             end in
  let key := sha256_hex (JSON_stringify (heap w) (VObj a)) in
  (truthy ttl = true -> purged (clock w) (cache w) !! key = None) ->
  accepted (heap w) a (o_props o) ->
  let sent :=
    with_trace (trace w ++ sent_events a (o_props o))
      (if truthy ttl then with_cache (purged (clock w) (cache w)) w else w) in
  doRequest (VObj a) ok error net w =
    match net with
    | NetError elapsed err => error err (advance elapsed sent)
    | NetResponse elapsed response chunks =>
        onEnd (if truthy ttl then VStr key else VUndef) ttl response chunks ok
          (advance elapsed sent)
    end.
Proof.
  intros Ha ttl key Hmiss [Hreq Hbody] sent.
  rewrite (doRequest_miss_run w a o ok error net Ha Hmiss). cbv zeta.
  rewrite Hreq.
  destruct (o_props o !! "body") as [body|]; [by rewrite Hbody|done].
Qed.

(** On a hit the snapshot rebuilt from the store goes to [ok]. *)
Lemma doRequest_hit (w : world) (a : addr) (o : object)
    (ok error : value -> M unit) (net : answer) (e : entry) (s : addr)
    (os : object) :
  heap w !! a = Some o ->
  let ttl := match o_props o !! "cacheTime" with
             | Some v => v
             | None => cacheTime w
             end in
  let key := sha256_hex (JSON_stringify (heap w) (VObj a)) in
  truthy ttl = true ->
  cache w !! key = Some e ->
  (clock w <= time e)%Z ->
  data e = VObj s ->
  heap w !! s = Some os ->
  doRequest (VObj a) ok error net w =
    ok (VObj (length (heap w)))
       (World (heap w ++
                 [Object KMessage
                    (copy_props properties (o_props os) IncomingMessage_props)])
              (purged (clock w) (cache w))
              (cacheTime w) (clock w) (trace w)).
Proof.
  intros Ha ttl key Httl He Htime Hdata Hs.
  assert (Hp : purged (clock w) (cache w) !! key = Some e).
  { rewrite purged_lookup, He. by rewrite decide_False by lia. }
  pose proof (fromCache_hit w key e s os Hp Hdata Hs) as Hhit.
  unfold doRequest.
  rewrite (bind_ret _ _ _ _ _ (effectiveCacheTime_run w a o Ha)).
  fold ttl. rewrite Httl.
  rewrite bind_assoc. unfold bind at 1. unfold buildHash. fold key.
  rewrite bind_assoc, (bind_ret _ _ _ _ _ Hhit).
  by rewrite !bind_ret_l.
Qed.

(** Setting the body of a response leaves its status code as it is. *)
Lemma status_code_body (w w' : world) (r : addr) (o : object) (body : value) :
  heap w !! r = Some o ->
  heap w' !! r = Some (Object (o_kind o) (<["body" := body]> (o_props o))) ->
  (response_like w (VObj r) -> response_like w' (VObj r)) /\
  status_code w' (VObj r) = status_code w (VObj r).
Proof.
  intros Hr Hr'. unfold response_like, status_code. rewrite Hr, Hr'.
  cbn [o_props]. by rewrite lookup_insert_ne.
Qed.

(** A request that is not served from the cache ends in exactly one of the
    two continuations: [error] with the error of the transport, or [ok]
    with the response, whose body is set by then.  The objects the heap had
    (the response apart) are as they were. *)
Lemma doRequest_answers (w : world) (a : addr) (o : object)
    (ok error : value -> M unit) (net : answer) :
  heap w !! a = Some o ->
  let ttl := match o_props o !! "cacheTime" with
             | Some v => v
             | None => cacheTime w
             end in
  let key := sha256_hex (JSON_stringify (heap w) (VObj a)) in
  (truthy ttl = true -> purged (clock w) (cache w) !! key = None) ->
  accepted (heap w) a (o_props o) ->
  well_answered w net ->
  exists w' : world,
    doRequest (VObj a) ok error net w =
      match net with
      | NetError _ err => error err w'
      | NetResponse _ response _ => ok response w'
      end /\
    trace w' = (trace w ++ sent_events a (o_props o))%list /\
    match net with
    | NetError _ _ => heap w' = heap w
    | NetResponse _ response _ =>
        response_like w' response /\
        status_code w' response = status_code w response /\
        forall i x, deref response <> Some i -> heap w !! i = Some x ->
                    heap w' !! i = Some x
    end.
Proof.
  intros Ha ttl key Hmiss Hacc Hnet.
  rewrite (doRequest_miss w a o ok error net Ha Hmiss Hacc). fold ttl key.
  set (w0 := if truthy ttl then _ else w).
  assert (Hh0 : heap w0 = heap w) by (unfold w0; by destruct (truthy ttl)).
  destruct net as [elapsed err|elapsed response chunks].
  - eexists. split; [reflexivity|]. by split.
  - destruct Hnet as [[r Hd] Hlike].
    assert (response = VObj r) as ->.
    { destruct response; try done; try (by cbn in Hlike).
      by injection Hd as ->. }
    assert (exists or, heap w !! r = Some or) as [or Hr].
    { unfold response_like in Hlike. destruct (heap w !! r); [by eexists|done]. }
    set (W := advance elapsed _).
    assert (HrW : heap W !! r = Some or) by (cbn; by rewrite Hh0).
    destruct (onEnd_run W r or (if truthy ttl then VStr key else VUndef) ttl
                chunks ok HrW) as (body & ext & _ & Hr2 & Hrun).
    cbv zeta in Hr2, Hrun.
    set (w2 := update_props (insert "body" body) r
                 (with_heap (heap W ++ ext) W)) in *.
    assert (Ht2 : trace w2 = (trace w ++ sent_events a (o_props o))%list).
    { unfold w2.
      by destruct (update_props_frame (insert "body" body) r
                     (with_heap (heap W ++ ext) W)) as (_ & _ & _ & ->). }
    assert (Hframe2 : forall i x, i <> r -> heap w !! i = Some x ->
                                  heap w2 !! i = Some x).
    { intros i x Hi Hx. unfold w2. rewrite update_props_other by done.
      cbn. rewrite Hh0. rewrite lookup_app_l; [done|].
      by eapply lookup_lt_Some. }
    set (w3 := World _ _ _ _ _) in Hrun.
    assert (Hext3 : forall i x, heap w2 !! i = Some x -> heap w3 !! i = Some x).
    { intros i x Hx. unfold w3. cbn [heap]. rewrite lookup_app_l; [done|].
      by eapply lookup_lt_Some. }
    assert (Ht3 : trace w3 = trace w2) by (by rewrite Ht2).
    clearbody w3.
    set (stored := truthy (if truthy ttl then VStr key else VUndef)) in Hrun.
    set (w' := if stored then w3 else w2) in Hrun.
    assert (Hr' : heap w' !! r =
                  Some (Object (o_kind or) (<["body" := body]> (o_props or)))).
    { unfold w'. destruct stored; [by apply Hext3 | done]. }
    assert (Hframe' : forall i x, i <> r -> heap w !! i = Some x ->
                                  heap w' !! i = Some x).
    { intros i x Hi Hx. unfold w'.
      destruct stored; [apply Hext3|]; by apply Hframe2. }
    assert (Ht' : trace w' = (trace w ++ sent_events a (o_props o))%list).
    { unfold w'. destruct stored; [by rewrite Ht3|done]. }
    exists w'. split; [exact Hrun|]. split; [exact Ht'|].
    destruct (status_code_body w w' r or body Hr Hr') as [Hl Hs].
    split; [by apply Hl|]. split; [exact Hs|].
    intros i x Hi Hx. apply Hframe'; [|done]. intros ->. by apply Hi.
Qed.

End ExecutorRuns.

(** ** The request executor and the cache *)

Section ExecutorExtras.

Context `{Node} `{HttpHeaders}.

(** X1. A response whose [Content-Type] does not match the JSON pattern
    keeps its raw body: the [body] of the response is the buffer made of
    its chunks, in the order they came, and [ok] gets the response. *)
Theorem onEnd_keeps_raw_body (w : world) (r : addr) (o : object)
    (_hash _cacheTime : value) (chunks : list string) (ok : value -> M unit) :
  heap w !! r = Some o ->
  json_content_type
    (to_string
       (hdr_get (hdr_new (props_at w (prop (o_props o) "headers")))
                "Content-Type")) = false ->
  exists w' : world,
    onEnd _hash _cacheTime (VObj r) chunks ok w = ok (VObj r) w' /\
    get_prop (VObj r) "body" w' = (Ret (VBuf (String.concat "" chunks)), w') /\
    trace w' = trace w.
Proof.
  intros Hr Hct.
  destruct (onEnd_run w r o _hash _cacheTime chunks ok Hr)
    as (body & ext & Hbody & Hr2 & Hrun).
  rewrite Hct in Hbody. destruct Hbody as [-> ->].
  cbv zeta in Hr2, Hrun. rewrite Hrun.
  destruct (update_props_frame (insert "body" (VBuf (String.concat "" chunks)))
              r (with_heap (heap w ++ []) w)) as (_ & _ & _ & Ht).
  destruct (truthy _hash).
  - eexists. split; [reflexivity|]. split.
    + erewrite get_prop_obj.
      2:{ cbn [heap]. rewrite lookup_app_l; [exact Hr2|].
          by eapply lookup_lt_Some. }
      cbn [o_props]. unfold prop. by rewrite lookup_insert_eq.
    + done.
  - eexists. split; [reflexivity|]. split; [|exact Ht].
    rewrite (get_prop_obj _ _ _ _ Hr2). cbn [o_props]. unfold prop.
    by rewrite lookup_insert_eq.
Qed.

(** X2. With a falsy effective cache time (the default 0, for instance)
    the store is neither read nor written: whatever it holds, a request
    that the transport takes is sent, the answer goes to [error] or to
    [ok], and the store is the same afterwards, expired entries
    included. *)
Theorem doRequest_cache_disabled (w : world) (a : addr) (o : object)
    (ok error : value -> M unit) (net : answer) :
  heap w !! a = Some o ->
  truthy (match o_props o !! "cacheTime" with
          | Some v => v
          | None => cacheTime w
          end) = false ->
  accepted (heap w) a (o_props o) ->
  well_answered w net ->
  exists w' : world,
    doRequest (VObj a) ok error net w =
      match net with
      | NetError _ err => error err w'
      | NetResponse _ response _ => ok response w'
      end /\
    cache w' = cache w /\
    trace w' = (trace w ++ sent_events a (o_props o))%list.
Proof.
  intros Ha Httl Hacc Hnet.
  rewrite (doRequest_miss w a o ok error net Ha); [|by rewrite Httl|exact Hacc].
  rewrite Httl.
  destruct net as [elapsed err|elapsed response chunks].
  - by eexists.
  - destruct Hnet as [[r Hd] Hlike].
    assert (response = VObj r) as ->.
    { destruct response; try done; try (by cbn in Hlike).
      by injection Hd as ->. }
    assert (exists or, heap w !! r = Some or) as [or Hr].
    { unfold response_like in Hlike. destruct (heap w !! r); [by eexists|done]. }
    set (W := advance elapsed _).
    destruct (onEnd_run W r or VUndef
                (match o_props o !! "cacheTime" with
                 | Some v => v
                 | None => cacheTime w
                 end) chunks ok Hr) as (body & ext & _ & _ & Hrun).
    cbv zeta in Hrun. cbn [truthy] in Hrun. rewrite Hrun.
    eexists. split; [reflexivity|].
    by destruct (update_props_frame (insert "body" body) r
                   (with_heap (heap W ++ ext) W)) as (-> & _ & _ & ->).
Qed.

(** X3. A transport error on a request that is not served from the cache
    and that the transport took goes to [error] alone: the request was
    sent once, no object was made or changed, and nothing was added to the
    store (which was purged if a cache time is in force). *)
Theorem doRequest_transport_error (w : world) (a : addr) (o : object)
    (ok error : value -> M unit) (elapsed : Z) (err : value) :
  heap w !! a = Some o ->
  let ttl := match o_props o !! "cacheTime" with
             | Some v => v
             | None => cacheTime w
             end in
  (truthy ttl = true ->
   purged (clock w) (cache w)
     !! sha256_hex (JSON_stringify (heap w) (VObj a)) = None) ->
  accepted (heap w) a (o_props o) ->
  exists w' : world,
    doRequest (VObj a) ok error (NetError elapsed err) w = error err w' /\
    heap w' = heap w /\
    cache w' = (if truthy ttl then purged (clock w) (cache w) else cache w) /\
    clock w' = (clock w + elapsed)%Z /\
    trace w' = (trace w ++ sent_events a (o_props o))%list.
Proof.
  intros Ha ttl Hmiss Hacc.
  rewrite (doRequest_miss w a o ok error _ Ha Hmiss Hacc). fold ttl.
  eexists. split; [reflexivity|]. by destruct (truthy ttl).
Qed.

(** X4. The cache at work: a request with a positive cache time [n] that
    misses the cache and that the transport takes is sent, and its response
    is stored.  The same request
    made again up to [n] milliseconds after the response is not sent: [ok']
    receives a snapshot whose serialised properties are those of the
    response (its decoded body among them), and nothing reaches the network.
    The text of the options is assumed not to depend on the response nor on
    objects made later, and their hash not to be empty. *)
Theorem doRequest_second_request_is_cached (w : world) (a r : addr)
    (o or : object) (n elapsed d : Z) (chunks : list string)
    (ok error ok' error' : value -> M unit) (net' : answer) :
  heap w !! a = Some o ->
  heap w !! r = Some or ->
  a <> r ->
  match o_props o !! "cacheTime" with
  | Some v => v
  | None => cacheTime w
  end = VNum n ->
  (0 < n)%Z ->
  (0 <= d <= n)%Z ->
  let key := sha256_hex (JSON_stringify (heap w) (VObj a)) in
  key <> "" ->
  purged (clock w) (cache w) !! key = None ->
  accepted (heap w) a (o_props o) ->
  (forall h' : list object,
     (forall i x, i <> r -> heap w !! i = Some x -> h' !! i = Some x) ->
     JSON_stringify h' (VObj a) = JSON_stringify (heap w) (VObj a)) ->
  exists (w1 w2 : world) (snapshot : value),
    doRequest (VObj a) ok error (NetResponse elapsed (VObj r) chunks) w =
      ok (VObj r) w1 /\
    doRequest (VObj a) ok' error' net' (advance d w1) = ok' snapshot w2 /\
    trace w2 = trace w1 /\
    trace w1 = (trace w ++ sent_events a (o_props o))%list /\
    Forall (fun name =>
      get_prop snapshot name w2 =
      (Ret (prop (props_at w1 (VObj r)) name), w2)) properties.
Proof.
  intros Ha Hr Har Httl Hn Hd key Hkey Hmiss Hacc Hstable.
  assert (Htruthy : truthy (VNum n) = true).
  { cbn. apply negb_true_iff, Z.eqb_neq. lia. }
  rewrite (doRequest_miss w a o ok error _ Ha); [|by rewrite Httl|exact Hacc].
  rewrite Httl, Htruthy. fold key.
  set (W := advance elapsed _).
  assert (HrW : heap W !! r = Some or) by done.
  destruct (onEnd_run W r or (VStr key) (VNum n) chunks ok HrW)
    as (body & ext & _ & Hr2 & Hrun).
  cbv zeta in Hr2, Hrun.
  assert (Hk : truthy (VStr key) = true).
  { cbn. apply negb_true_iff. by apply String.eqb_neq. }
  rewrite Hk in Hrun. cbn [to_string milliseconds to_number default from_option id]
    in Hrun.
  set (w2 := update_props (insert "body" body) r
               (with_heap (heap W ++ ext) W)) in *.
  set (snap := Object KObject
                 (copy_props properties (<["body" := body]> (o_props or)) ∅))
    in *.
  set (w1 := World (heap w2 ++ [snap]) _ _ _ _) in Hrun.
  assert (Hlen2 : r < length (heap w2)) by (by eapply lookup_lt_Some).
  assert (Hframe : forall i x, i <> r -> heap w !! i = Some x ->
                               heap w1 !! i = Some x).
  { intros i x Hi Hx. unfold w1. cbn [heap].
    assert (Hx2 : heap w2 !! i = Some x).
    { unfold w2. rewrite update_props_other by done. cbn.
      rewrite lookup_app_l; [done|]. by eapply lookup_lt_Some. }
    rewrite lookup_app_l; [done|]. by eapply lookup_lt_Some. }
  assert (Ha1 : heap (advance d w1) !! a = Some o) by (by apply Hframe).
  assert (Hkey1 : sha256_hex (JSON_stringify (heap (advance d w1)) (VObj a)) = key).
  { unfold key. f_equal. by apply Hstable. }
  pose proof (doRequest_hit (advance d w1) a o ok' error' net'
                (Entry (VObj (length (heap w2))) (clock W + n)%Z)
                (length (heap w2)) snap Ha1) as Hhit.
  cbv zeta in Hhit. rewrite Hkey1 in Hhit.
  eexists w1, _, _. split; [exact Hrun|]. split.
  - apply Hhit.
    + assert (cacheTime (advance d w1) = cacheTime w) as -> by reflexivity.
      by rewrite Httl.
    + unfold w1. cbn. by rewrite lookup_insert_eq.
    + unfold w1, W. cbn. lia.
    + done.
    + unfold w1. cbn [heap advance]. by apply list_lookup_middle.
  - cbn [trace]. split; [done|]. split.
    + reflexivity.
    + apply Forall_forall. intros name Hname.
      erewrite get_prop_obj; [|cbn [heap]; apply list_lookup_middle; done].
      assert (Hp1 : props_at w1 (VObj r) = <["body" := body]> (o_props or)).
      { unfold props_at, w1. cbn [deref heap].
        rewrite lookup_app_l by done. unfold addr in *. by rewrite Hr2. }
      rewrite Hp1. unfold snap. cbn [o_props].
      by rewrite !copy_props_prop, !decide_True by done.
Qed.

End ExecutorExtras.

(** ** Delivery of the result *)

Lemma well_answered_alloc (w : world) (net : answer) (x : object) :
  well_answered w net ->
  well_answered (with_heap (heap w ++ [x]) w) net /\
  delivered (with_heap (heap w ++ [x]) w) net = delivered w net /\
  match net with
  | NetError _ _ => True
  | NetResponse _ response _ => deref response <> Some (length (heap w))
  end.
Proof.
  destruct net as [elapsed err|elapsed response chunks]; [done|].
  intros [[r Hd] Hlike].
  assert (response = VObj r) as ->.
  { destruct response; try done; try (by cbn in Hlike).
    by injection Hd as ->. }
  unfold well_answered, delivered, response_like, status_code in *. cbn [heap with_heap].
  destruct (heap w !! r) as [or|] eqn:Hr; [|done].
  assert (Hlt : r < length (heap w)) by (by eapply lookup_lt_Some).
  rewrite lookup_app_l by done. unfold addr in *. rewrite Hr.
  repeat split; try done. cbn. intros [= ->]. lia.
Qed.

Section DeliveryExtras.

Context `{Node} `{HttpHeaders}.

(** X5. Callback mode: a request that is not served from the cache and
    that the transport takes calls the callback exactly once, after the
    request was sent: with the error and [request-error] on a transport
    error, with the response and [request-ok] or [request-fail], according
    to its status code, otherwise. *)
Theorem typeCallback_calls_back_once (w : world) (a : addr) (o : object)
    (cb : value) (net : answer) :
  heap w !! a = Some o ->
  (truthy (match o_props o !! "cacheTime" with
           | Some v => v
           | None => cacheTime w
           end) = true ->
   purged (clock w) (cache w)
     !! sha256_hex (JSON_stringify (heap w) (VObj a)) = None) ->
  accepted (heap w) a (o_props o) ->
  well_answered w net ->
  exists w' : world,
    typeCallback (VObj a) cb net w = (Ret tt, w') /\
    trace w' =
      (trace w ++ sent_events a (o_props o) ++
       [Callback cb (delivered w net).1 (delivered w net).2])%list.
Proof.
  intros Ha Hmiss Hacc Hnet. unfold typeCallback.
  destruct (doRequest_answers w a o
              (fun response =>
                 let* ok := isOk response in
                 log (Callback cb response (outcome ok)))
              (fun error => log (Callback cb error "request-error"))
              net Ha Hmiss Hacc Hnet) as (w1 & Hrun & Ht & Hres).
  rewrite Hrun. destruct net as [elapsed err|elapsed response chunks].
  - eexists. split; [reflexivity|]. cbn. by rewrite Ht, <- app_assoc.
  - destruct Hres as (Hlike & Hcode & _).
    rewrite (bind_ret _ _ _ _ _ (isOk_run w1 response Hlike)).
    eexists. split; [reflexivity|]. cbn. by rewrite Ht, Hcode, <- app_assoc.
Qed.

(** X6. Event mode: the call returns a new event emitter, and a request
    that is not cached and that the transport takes emits exactly one event
    on it, after the request was sent: [request-error] with the error, or
    [request-ok] or [request-fail] with the response, according to its
    status code. *)
Theorem typeEvents_emits_once (w : world) (a : addr) (o : object)
    (net : answer) :
  heap w !! a = Some o ->
  truthy (match o_props o !! "cacheTime" with
          | Some v => v
          | None => cacheTime w
          end) = false ->
  accepted (heap w ++ [Object KEvents ∅]) a (o_props o) ->
  well_answered w net ->
  let emitter := VObj (length (heap w)) in
  exists w' : world,
    typeEvents (VObj a) net w = (Ret emitter, w') /\
    heap w !! length (heap w) = None /\
    heap w' !! length (heap w) = Some (Object KEvents ∅) /\
    trace w' =
      (trace w ++ sent_events a (o_props o) ++
       [Emit emitter (delivered w net).2 (delivered w net).1])%list.
Proof.
  intros Ha Httl Hacc Hnet emitter. unfold typeEvents.
  unfold bind at 1. cbn [alloc]. rewrite decide_False by done.
  set (w0 := with_heap (heap w ++ [Object KEvents ∅]) w).
  destruct (well_answered_alloc w net (Object KEvents ∅) Hnet)
    as (Hnet0 & Hdel & Hfresh). fold w0 in Hnet0, Hdel.
  assert (Ha0 : heap w0 !! a = Some o).
  { cbn. rewrite lookup_app_l; [done|]. by eapply lookup_lt_Some. }
  destruct (doRequest_answers w0 a o
              (fun response =>
                 let* ok := isOk response in
                 log (Emit emitter (outcome ok) response))
              (fun error => log (Emit emitter "request-error" error))
              net Ha0) as (w1 & Hrun & Ht & Hres); [|exact Hacc|exact Hnet0|].
  { intros Hc. cbn [cacheTime w0 with_heap] in Hc. by rewrite Httl in Hc. }
  fold emitter. unfold bind at 1.
  rewrite Hrun. rewrite <- Hdel.
  assert (He0 : heap w0 !! length (heap w) = Some (Object KEvents ∅)).
  { cbn. by apply list_lookup_middle. }
  destruct net as [elapsed err|elapsed response chunks].
  - eexists. split; [reflexivity|]. cbn [heap trace log with_trace snd fst].
    split; [by apply lookup_ge_None_2|]. split.
    + by rewrite Hres.
    + by rewrite Ht, <- app_assoc.
  - destruct Hres as (Hlike & Hcode & Hframe).
    rewrite (bind_ret _ _ _ _ _ (isOk_run w1 response Hlike)).
    eexists. split; [reflexivity|]. cbn [heap trace log with_trace snd fst].
    split; [by apply lookup_ge_None_2|]. split.
    + by apply Hframe.
    + cbn. by rewrite Ht, Hcode, <- app_assoc.
Qed.

(** X7. Promise mode, with a promise class: the call returns a new
    promise, and a request that is not cached and that the transport takes
    settles it exactly once, after the request was sent: it is rejected
    with the error of the transport, and resolved with the response
    whatever its status code is. *)
Theorem typePromise_settles_once (w : world) (a : addr) (o : object)
    (Promise : value) (net : answer) :
  heap w !! a = Some o ->
  construct Promise = PromiseClass ->
  truthy (match o_props o !! "cacheTime" with
          | Some v => v
          | None => cacheTime w
          end) = false ->
  accepted (heap w ++ [Object KPromise {[ "constructor" := Promise ]}]) a
    (o_props o) ->
  well_answered w net ->
  let promise := VObj (length (heap w)) in
  exists w' : world,
    typePromise Promise (VObj a) net w = (Ret promise, w') /\
    heap w !! length (heap w) = None /\
    o_kind <$> heap w' !! length (heap w) = Some KPromise /\
    trace w' =
      (trace w ++ sent_events a (o_props o) ++
       [match net with
        | NetError _ err => Reject promise err
        | NetResponse _ response _ => Resolve promise response
        end])%list.
Proof.
  intros Ha Hclass Httl Hacc Hnet promise. unfold typePromise.
  rewrite Hclass.
  unfold bind at 1. cbn [alloc]. rewrite decide_False by done.
  set (x := Object KPromise {[ "constructor" := Promise ]}) in *.
  set (w0 := with_heap (heap w ++ [x]) w).
  destruct (well_answered_alloc w net x Hnet) as (Hnet0 & _ & Hfresh).
  fold w0 in Hnet0.
  assert (Ha0 : heap w0 !! a = Some o).
  { cbn. rewrite lookup_app_l; [done|]. by eapply lookup_lt_Some. }
  destruct (doRequest_answers w0 a o
              (fun result => log (Resolve promise result))
              (fun reason => log (Reject promise reason))
              net Ha0) as (w1 & Hrun & Ht & Hres); [|exact Hacc|exact Hnet0|].
  { intros Hc. cbn [cacheTime w0 with_heap] in Hc. by rewrite Httl in Hc. }
  fold promise. unfold bind at 1. unfold try_catch.
  rewrite Hrun.
  assert (He0 : heap w0 !! length (heap w) = Some x).
  { cbn. by apply list_lookup_middle. }
  destruct net as [elapsed err|elapsed response chunks].
  - eexists. split; [reflexivity|]. cbn [heap trace log with_trace snd fst].
    split; [by apply lookup_ge_None_2|]. split.
    + by rewrite Hres, He0.
    + by rewrite Ht, <- app_assoc.
  - destruct Hres as (_ & _ & Hframe).
    eexists. split; [reflexivity|]. cbn [heap trace log with_trace snd fst].
    split; [by apply lookup_ge_None_2|]. split.
    + pose proof (Hframe _ _ Hfresh He0) as Hp. unfold addr in *.
      by rewrite Hp.
    + by rewrite Ht, <- app_assoc.
Qed.

End DeliveryExtras.

(** ** The option normaliser *)

Section NormaliserRuns.

Context `{HttpHeaders}.

(** [checkHeaders] does nothing to options without [headers]. *)
Lemma checkHeaders_absent (w : world) (a : addr) (o : object) :
  heap w !! a = Some o ->
  o_props o !! "headers" = None ->
  checkHeaders (VObj a) w = (Ret tt, w).
Proof.
  intros Ha Hh. unfold checkHeaders.
  rewrite (bind_has_prop _ _ _ _ _ Ha), Hh.
  by rewrite bool_decide_eq_false_2 by (by intros [? ?]).
Qed.

(** [checkHeaders] on options with [headers]: the headers are read through
    the collaborator, completed, and a new object made of them becomes the
    [headers] of the options. *)
Lemma checkHeaders_run (w : world) (a : addr) (o : object) (given : value) :
  heap w !! a = Some o ->
  o_props o !! "headers" = Some given ->
  checkHeaders (VObj a) w =
    match with_accept
            (with_content_type (hdr_new (props_at w given))
                               (o_props o !! "body")) with
    | Some h =>
        (Ret tt,
         update_props (insert "headers" (VObj (length (heap w)))) a
           (with_heap (heap w ++ [Object KObject (hdr_headers h)]) w))
    | None => (Throw (TypeError "_contentType.split is not a function"), w)
    end.
Proof.
  intros Ha Hh. unfold checkHeaders.
  rewrite (bind_has_prop _ _ _ _ _ Ha), Hh.
  rewrite bool_decide_eq_true_2 by done.
  rewrite (bind_get_prop _ _ _ _ _ Ha). unfold prop at 1. rewrite Hh.
  cbn [from_option id].
  rewrite (bind_ret _ _ _ _ _ (own_props_run given w)).
  set (h0 := hdr_new (props_at w given)).
  assert (Hfirst : forall (k : headers_t -> M unit),
    bind (if negb (truthy (hdr_get h0 "Content-Type")) then
            let* has_body := has_prop "body" (VObj a) in
            if has_body then
              let* _body := get_prop (VObj a) "body" in
              match _body with
              | VStr s =>
                  ret (hdr_set h0 "Content-Type"
                         (VStr (if starts_with_lt s
                                then "text/html; charset=utf-8"
                                else "text/plain; charset=utf-8")))
              | _ =>
                  if String.eqb (typeof _body) "object" then
                    ret (hdr_set h0 "Content-Type"
                           (VStr "application/json; charset=utf-8"))
                  else ret h0
              end
            else ret h0
          else ret h0) k w
    = k (with_content_type h0 (o_props o !! "body")) w).
  { intros k. unfold with_content_type.
    destruct (negb (truthy (hdr_get h0 "Content-Type"))); [|done].
    rewrite bind_assoc, (bind_has_prop _ _ _ _ _ Ha).
    destruct (o_props o !! "body") as [body|] eqn:Hb.
    - rewrite bool_decide_eq_true_2 by done.
      assert (Hpb : prop (o_props o) "body" = body)
        by (unfold prop; by rewrite Hb).
      rewrite bind_assoc, (bind_get_prop _ _ _ _ _ Ha), !Hpb.
      unfold inferred_content_type.
      destruct body; try done;
        by destruct (String.eqb _ _).
    - by rewrite bool_decide_eq_false_2 by (by intros [? ?]). }
  rewrite Hfirst. clear Hfirst.
  set (h1 := with_content_type h0 (o_props o !! "body")).
  unfold with_accept.
  destruct (negb (truthy (hdr_get h1 "Accept"))).
  - destruct (truthy (hdr_get h1 "Content-Type")).
    + destruct (hdr_get h1 "Content-Type"); try done.
    + done.
  - done.
Qed.

End NormaliserRuns.

Lemma before_semicolon_spec (s : string) :
  exists rest : string,
    s = before_semicolon s ++ rest /\
    (rest = "" \/ exists rest', rest = String ";" rest') /\
    forall pre post, before_semicolon s <> pre ++ String ";" post.
Proof.
  induction s as [|c s (rest & Hs & Hrest & Hno)]; cbn [before_semicolon].
  - exists "". repeat split; [by left|]. intros [|? ?] ?; done.
  - destruct (Ascii.eqb_spec c ";") as [->|Hc].
    + exists (String ";" s). repeat split; [right; by eexists|].
      intros [|? ?] ?; done.
    + exists rest. split.
      { change (String c s = String c (before_semicolon s ++ rest)).
        by f_equal. }
      split; [done|].
      intros [|b pre] post; cbn; intros [= ? Heq]; subst; [done|].
      by eapply Hno.
Qed.

Section HeaderExtras.

Context `{HttpHeaders}.

Lemma headers_installed (w : world) (a : addr) (o : object) (h : headers_t) :
  heap w !! a = Some o ->
  let w' := update_props (insert "headers" (VObj (length (heap w)))) a
              (with_heap (heap w ++ [Object KObject (hdr_headers h)]) w) in
  get_prop (VObj a) "headers" w' = (Ret (VObj (length (heap w))), w') /\
  props_at w' (VObj (length (heap w))) = hdr_headers h.
Proof.
  intros Ha w'.
  assert (Hlt : a < length (heap w)) by (by eapply lookup_lt_Some).
  set (w1 := with_heap (heap w ++ [Object KObject (hdr_headers h)]) w).
  assert (Ha1 : heap w1 !! a = Some o) by (cbn; by rewrite lookup_app_l).
  pose proof (update_props_same (insert "headers" (VObj (length (heap w))))
                a w1 o Ha1) as Ha2.
  split.
  - unfold w'. fold w1. rewrite (get_prop_obj _ _ _ _ Ha2). cbn [o_props].
    unfold prop. by rewrite lookup_insert_eq.
  - unfold props_at, w'. fold w1. cbn [deref].
    rewrite update_props_other by lia. cbn.
    by rewrite list_lookup_middle.
Qed.

(** X8. Options with [headers] that set neither [Content-Type] nor
    [Accept], and a body that is a text: a body starting with [<] is sent
    as [text/html; charset=utf-8] and accepted as [text/html]; any other
    text, the empty one included, as [text/plain; charset=utf-8] and
    [text/plain]. *)
Theorem checkHeaders_text_body (w : world) (a : addr) (o : object)
    (given : value) (s : string) :
  heap w !! a = Some o ->
  o_props o !! "headers" = Some given ->
  o_props o !! "body" = Some (VStr s) ->
  truthy (hdr_get (hdr_new (props_at w given)) "Content-Type") = false ->
  truthy (hdr_get (hdr_new (props_at w given)) "Accept") = false ->
  exists (w' : world) (result : value),
    checkHeaders (VObj a) w = (Ret tt, w') /\
    get_prop (VObj a) "headers" w' = (Ret result, w') /\
    hdr_get (hdr_new (props_at w' result)) "Content-Type" =
      VStr (if starts_with_lt s then "text/html; charset=utf-8"
            else "text/plain; charset=utf-8") /\
    hdr_get (hdr_new (props_at w' result)) "Accept" =
      VStr (if starts_with_lt s then "text/html" else "text/plain").
Proof.
  intros Ha Hh Hb Hct Hacc.
  rewrite (checkHeaders_run w a o given Ha Hh), Hb.
  set (h0 := hdr_new (props_at w given)) in *.
  unfold with_content_type. rewrite Hct. cbn [negb inferred_content_type].
  set (ct := if starts_with_lt s then _ else _).
  set (h1 := hdr_set h0 "Content-Type" (VStr ct)).
  assert (Hct1 : hdr_get h1 "Content-Type" = VStr ct) by apply hdr_get_set_eq.
  assert (Hacc1 : hdr_get h1 "Accept" = hdr_get h0 "Accept").
  { apply hdr_get_set_ne, lower_content_type_accept. }
  unfold with_accept. rewrite Hacc1, Hacc, Hct1. cbn [negb].
  assert (Hne : truthy (VStr ct) = true) by (unfold ct; by destruct starts_with_lt).
  rewrite Hne.
  destruct (headers_installed w a o
              (hdr_set h1 "Accept" (VStr (before_semicolon ct))) Ha)
    as [Hget Hprops].
  eexists _, _. split; [reflexivity|]. split; [exact Hget|].
  rewrite Hprops, !hdr_get_new_headers. split.
  - rewrite hdr_get_set_ne; [exact Hct1|].
    intros Heq. by apply lower_content_type_accept.
  - rewrite hdr_get_set_eq. unfold ct. by destruct starts_with_lt.
Qed.

(** X9. Options whose headers give a [Content-Type] (a non-empty text)
    but no [Accept]: the content type is kept as it is, whatever the body,
    and [Accept] becomes its media type, the text before the first [;]. *)
Theorem checkHeaders_accept_from_content_type (w : world) (a : addr)
    (o : object) (given : value) (s : string) :
  heap w !! a = Some o ->
  o_props o !! "headers" = Some given ->
  hdr_get (hdr_new (props_at w given)) "Content-Type" = VStr s ->
  s <> "" ->
  truthy (hdr_get (hdr_new (props_at w given)) "Accept") = false ->
  exists (w' : world) (result : value) (media rest : string),
    checkHeaders (VObj a) w = (Ret tt, w') /\
    get_prop (VObj a) "headers" w' = (Ret result, w') /\
    hdr_get (hdr_new (props_at w' result)) "Content-Type" = VStr s /\
    hdr_get (hdr_new (props_at w' result)) "Accept" = VStr media /\
    s = media ++ rest /\
    (rest = "" \/ exists rest', rest = String ";" rest') /\
    forall pre post, media <> pre ++ String ";" post.
Proof.
  intros Ha Hh Hct Hs Hacc.
  rewrite (checkHeaders_run w a o given Ha Hh).
  set (h0 := hdr_new (props_at w given)) in *.
  assert (Htr : truthy (VStr s) = true).
  { cbn. apply negb_true_iff. by apply String.eqb_neq. }
  unfold with_content_type. rewrite Hct, Htr. cbn [negb].
  unfold with_accept. rewrite Hacc, Hct, Htr. cbn [negb].
  destruct (headers_installed w a o
              (hdr_set h0 "Accept" (VStr (before_semicolon s))) Ha)
    as [Hget Hprops].
  destruct (before_semicolon_spec s) as (rest & Hsplit & Hrest & Hno).
  eexists _, _, (before_semicolon s), rest. split; [reflexivity|].
  split; [exact Hget|].
  rewrite Hprops, !hdr_get_new_headers. split; [|split; [|done]].
  - rewrite hdr_get_set_ne; [exact Hct|].
    intros Heq. by apply lower_content_type_accept.
  - apply hdr_get_set_eq.
Qed.

(** X10. Options whose headers give an [Accept]: [checkHeaders] returns,
    and every header reads afterwards as it read before, except possibly
    [Content-Type], which is only filled in when it was not set. *)
Theorem checkHeaders_keeps_given_headers (w : world) (a : addr) (o : object)
    (given : value) (k : string) :
  heap w !! a = Some o ->
  o_props o !! "headers" = Some given ->
  truthy (hdr_get (hdr_new (props_at w given)) "Accept") = true ->
  lower k <> lower "Content-Type" \/
    truthy (hdr_get (hdr_new (props_at w given)) "Content-Type") = true ->
  exists (w' : world) (result : value),
    checkHeaders (VObj a) w = (Ret tt, w') /\
    get_prop (VObj a) "headers" w' = (Ret result, w') /\
    hdr_get (hdr_new (props_at w' result)) k =
      hdr_get (hdr_new (props_at w given)) k.
Proof.
  intros Ha Hh Hacc Hk.
  rewrite (checkHeaders_run w a o given Ha Hh).
  set (h0 := hdr_new (props_at w given)) in *.
  set (h1 := with_content_type h0 (o_props o !! "body")).
  assert (Hsame : forall k', lower k' <> lower "Content-Type" \/
                             truthy (hdr_get h0 "Content-Type") = true ->
                             hdr_get h1 k' = hdr_get h0 k').
  { intros k' Hk'. unfold h1, with_content_type.
    destruct (truthy (hdr_get h0 "Content-Type")); [done|].
    destruct Hk' as [Hk'|?]; [|done]. cbn [negb].
    destruct (o_props o !! "body") as [b|]; [|done].
    destruct (inferred_content_type b); [|done].
    apply hdr_get_set_ne. by intros Heq. }
  assert (Hacc1 : truthy (hdr_get h1 "Accept") = true).
  { rewrite Hsame; [done|]. left. intros Heq.
    by apply lower_content_type_accept. }
  unfold with_accept. rewrite Hacc1. cbn [negb].
  destruct (headers_installed w a o h1 Ha) as [Hget Hprops].
  eexists _, _. split; [reflexivity|]. split; [exact Hget|].
  rewrite Hprops, hdr_get_new_headers. by apply Hsame.
Qed.

End HeaderExtras.

Section UrlExtras.

Context `{Node} `{HttpHeaders}.

Lemma merged_url_other (o : gmap string value) :
  (forall u, o !! "url" <> Some (VStr u)) -> merged_url o = o.
Proof.
  intros Hu. unfold merged_url.
  destruct (o !! "url") as [[| | | |u| | | |]|] eqn:Hurl; try done.
  by destruct (Hu u).
Qed.

(** X11. Options without a URL text but with a truthy [host]: [checkUrl]
    returns; [host] is removed; [hostname] is kept when it is truthy and
    takes the value of [host] otherwise; nothing else changes. *)
Theorem checkUrl_host_alias (w : world) (a : addr) (o : object) :
  heap w !! a = Some o ->
  (forall u, o_props o !! "url" <> Some (VStr u)) ->
  truthy (prop (o_props o) "host") = true ->
  exists (w' : world) (o' : object),
    checkUrl (VObj a) w = (Ret tt, w') /\
    heap w' !! a = Some o' /\
    o_props o' !! "host" = None /\
    prop (o_props o') "hostname" =
      (if truthy (prop (o_props o) "hostname") then prop (o_props o) "hostname"
       else prop (o_props o) "host") /\
    forall name, name <> "host" -> name <> "hostname" ->
                 o_props o' !! name = o_props o !! name.
Proof.
  intros Ha Hu Hhost. rewrite (checkUrl_run w a o Ha).
  rewrite (merged_url_other _ Hu).
  assert (Hal : aliased_host (o_props o) =
    delete "host"
      (if negb (truthy (prop (o_props o) "hostname"))
       then <["hostname" := prop (o_props o) "host"]> (o_props o)
       else o_props o)).
  { unfold aliased_host. by rewrite Hhost. }
  assert (Hname : prop (aliased_host (o_props o)) "hostname" =
    if truthy (prop (o_props o) "hostname") then prop (o_props o) "hostname"
    else prop (o_props o) "host").
  { rewrite Hal. rewrite prop_delete_ne by done.
    destruct (truthy (prop (o_props o) "hostname")); cbn [negb]; [done|].
    unfold prop at 1. by rewrite lookup_insert_eq. }
  assert (Htr : truthy (prop (aliased_host (o_props o)) "hostname") = true).
  { rewrite Hname.
    by destruct (truthy (prop (o_props o) "hostname")) eqn:Hn. }
  rewrite Htr.
  eexists _, _. split; [reflexivity|]. split.
  { apply update_props_same. exact Ha. }
  cbn [o_props]. rewrite (merged_url_other _ Hu).
  split; [|split; [exact Hname|]].
  - rewrite Hal. apply lookup_delete_eq.
  - intros name Hn1 Hn2. by apply aliased_host_lookup.
Qed.

Lemma normalised_fixpoint (o : gmap string value) :
  let o1 := aliased_host (merged_url o) in
  aliased_host (merged_url o1) = o1.
Proof.
  intros o1.
  assert (Hurl : forall u, o1 !! "url" <> Some (VStr u)).
  { intros u. unfold o1. rewrite aliased_host_lookup by done.
    destruct (o !! "url") as [v|] eqn:Hu.
    - destruct v as [| | | |u'| | | |];
        try (rewrite merged_url_other;
             [by rewrite Hu | intros u''; by rewrite Hu]).
      by rewrite (merged_url_no_url _ _ Hu).
    - rewrite merged_url_other; [by rewrite Hu|]. intros u'. by rewrite Hu. }
  rewrite (merged_url_other _ Hurl).
  assert (Hhost : truthy (prop o1 "host") = false).
  { unfold o1, aliased_host.
    destruct (truthy (prop (merged_url o) "host")) eqn:Hh; [|done].
    unfold prop. by rewrite lookup_delete_eq. }
  unfold aliased_host at 1. by rewrite Hhost.
Qed.

(** X12. [checkUrl] is idempotent: called again on the options it has
    normalised, it changes nothing more and ends the same way (it returns
    again, or throws [Wrong hostname] again). *)
Theorem checkUrl_idempotent (w : world) (a : addr) (o : object) :
  heap w !! a = Some o ->
  checkUrl (VObj a) (checkUrl (VObj a) w).2 = checkUrl (VObj a) w.
Proof.
  intros Ha. rewrite (checkUrl_run w a o Ha). cbn [snd].
  pose proof (update_props_same (fun p => aliased_host (merged_url p)) a w o Ha)
    as Ha1.
  rewrite (checkUrl_run _ a _ Ha1). cbn [o_props].
  rewrite (normalised_fixpoint (o_props o)). f_equal.
  eapply update_props_id; [exact Ha1|]. cbn [o_props].
  apply (normalised_fixpoint (o_props o)).
Qed.

(** X13. The fields of the parsed URL are copied over the options
    ([Object.assign]): apart from [url], [path], [pathname], [host] and
    [hostname], which are treated on their own, every field the parsed URL
    carries replaces the one the caller gave (a [port] or an [auth], say,
    even by [null]), and the other fields of the options stay. *)
Theorem checkUrl_parsed_fields_win (w : world) (a : addr) (o : object)
    (u name : string) :
  heap w !! a = Some o ->
  o_props o !! "url" = Some (VStr u) ->
  name ∉ ["url"; "path"; "pathname"; "host"; "hostname"] ->
  exists o' : object,
    heap (checkUrl (VObj a) w).2 !! a = Some o' /\
    o_props o' !! name =
      match urlParse u !! name with
      | Some v => Some v
      | None => o_props o !! name
      end.
Proof.
  intros Ha Hu Hname. rewrite (checkUrl_run w a o Ha). cbn [snd].
  eexists. split; [by apply update_props_same|]. cbn [o_props].
  rewrite !not_elem_of_cons in Hname.
  destruct Hname as (Hn1 & Hn2 & Hn3 & Hn4 & Hn5 & _).
  rewrite aliased_host_lookup by done.
  unfold merged_url. rewrite Hu.
  assert (Hunion : forall (p q : gmap string value),
    (p ∪ q) !! name = match p !! name with Some v => Some v | None => q !! name end).
  { intros p q. rewrite lookup_union. by destruct (p !! name), (q !! name). }
  destruct (truthy (prop (o_props o) "pathname")).
  - rewrite lookup_delete_ne, Hunion by done.
    by rewrite lookup_insert_ne, lookup_delete_ne by done.
  - destruct (truthy (prop (urlParse u) "query")).
    + rewrite lookup_delete_ne, Hunion by done.
      by rewrite lookup_insert_ne by done.
    + by rewrite lookup_delete_ne, Hunion by done.
Qed.

End UrlExtras.

(** ** The store *)

Lemma copy_loop_frame (names : list string) (src dst : value) (w : world) :
  cache (forEach names (fun name =>
           let* v := get_prop src name in
           set_prop dst name v) w).2 = cache w.
Proof.
  revert w. induction names as [|n l IH]; intros w; [done|].
  cbn [forEach]. unfold bind at 1. unfold bind at 1.
  assert (Hget : (exists v, get_prop src n w = (Ret v, w)) \/
                 (exists e, get_prop src n w = (Throw e, w))).
  { unfold get_prop. destruct src; try (right; by eexists);
      try (left; by eexists); cbn [deref];
      destruct (heap w !! a); left; by eexists. }
  destruct Hget as [[v ->]|[e ->]]; [|done].
  assert (Hset : (exists w', set_prop dst n v w = (Ret tt, w') /\
                             cache w' = cache w) \/
                 (exists e, set_prop dst n v w = (Throw e, w))).
  { unfold set_prop. destruct dst; try (right; by eexists);
      try (left; by eexists); cbn [deref]; left; eexists;
      (split; [reflexivity|]); by destruct (update_props_frame (insert n v) a w). }
  destruct Hset as [(w' & -> & Hc)|[e ->]]; [|done].
  by rewrite IH.
Qed.

Section StoreExtras.

Context `{Node}.

(** X14. What the store holds after an insertion under [h]: the new
    entry under [h], stamped with the current time plus the duration, and
    the entries it held under other hashes that are not expired; the
    expired ones are gone.  The objects of the heap are as they were. *)
Theorem addToCache_store (w : world) (h k : string) (t : Z) (r : addr)
    (o : object) (e : entry) :
  heap w !! r = Some o ->
  let w1 := (addToCache h t (VObj r) w).2 in
  (cache w1 !! k = Some e <->
   (k = h /\ e = Entry (VObj (length (heap w))) (clock w + t)) \/
   (k <> h /\ cache w !! k = Some e /\ (clock w <= time e)%Z)) /\
  (forall i x, heap w !! i = Some x -> heap w1 !! i = Some x).
Proof.
  intros Hr w1. subst w1. rewrite (addToCache_run _ _ _ _ _ Hr). cbn [snd cache heap].
  split.
  - destruct (decide (k = h)) as [->|Hk].
    + rewrite lookup_insert_eq. split.
      * intros [= <-]. by left.
      * intros [[_ ->]|[? _]]; done.
    + rewrite lookup_insert_ne by done. rewrite purged_lookup.
      destruct (cache w !! k) as [e'|];
        [|split; [done | intros [[? _]|(_ & ? & _)]; done]].
      destruct (decide (time e' < clock w)%Z) as [Hexp|Hexp].
      * split; [done|]. intros [[? _]|(_ & [= ->] & Hle)]; [done|lia].
      * split.
        -- intros [= ->]. right. repeat split; [done|lia].
        -- intros [[? _]|(_ & [= ->] & _)]; done.
  - intros i x Hx. rewrite lookup_app_l; [done|]. by eapply lookup_lt_Some.
Qed.

(** X15. What the store holds after a lookup, found or not, and even when
    the response cannot be rebuilt: exactly the entries it held that are
    not expired.  A lookup adds nothing and drops every expired entry. *)
Theorem fromCache_store (w : world) (h k : string) (e : entry) :
  cache (fromCache h w).2 !! k = Some e <->
  cache w !! k = Some e /\ (clock w <= time e)%Z.
Proof.
  assert (Hc : cache (fromCache h w).2 = purged (clock w) (cache w)).
  { unfold fromCache.
    rewrite (bind_ret _ _ _ _ _ (purgeCache_run w)).
    unfold bind at 1. cbn [get_cache with_cache cache].
    destruct (purged (clock w) (cache w) !! h) as [_data|]; [|done].
    unfold bind at 1. cbn [alloc]. rewrite decide_False by done.
    unfold bind at 1.
    set (loop := forEach _ _ _).
    assert (Hl : cache loop.2 = purged (clock w) (cache w)).
    { unfold loop. by rewrite copy_loop_frame. }
    by destruct loop as [[[]|?] ?]. }
  rewrite Hc, purged_lookup.
  destruct (cache w !! k) as [e'|]; [|split; [done | by intros [? _]]].
  destruct (decide (time e' < clock w)%Z).
  - split; [done|]. intros [[= ->] ?]. lia.
  - split; [intros [= ->]; split; [done|lia] | by intros [[= ->] _]].
Qed.

End StoreExtras.

(** X16. [isOk] never throws and changes nothing, whatever it is given: a
    missing response, a value that is not an object or an object without a
    status code are simply not ok. *)
Theorem isOk_total (w : world) (response : value) :
  exists ok : bool,
    isOk response w = (Ret ok, w) /\
    (deref response = None -> ok = false).
Proof.
  unfold isOk, bind, get_prop, ret.
  destruct response as [| |b|n|s|bytes|msg|a|a]; cbn [truthy deref].
  - by exists false.
  - by exists false.
  - destruct b; by exists false.
  - destruct (n =? 0)%Z eqn:Hn; cbn [negb truthy]; [rewrite Hn|];
      by exists false.
  - destruct (String.eqb s "") eqn:Hs; cbn [negb truthy]; [rewrite Hs|];
      by exists false.
  - by exists false.
  - by exists false.
  - destruct (heap w !! a); by eexists.
  - destruct (heap w !! a); by eexists.
Qed.

(** ** The entry point, from end to end *)

Lemma well_answered_extends (w w' : world) (net : answer) :
  (forall i x, heap w !! i = Some x -> heap w' !! i = Some x) ->
  well_answered w net ->
  well_answered w' net /\ delivered w' net = delivered w net.
Proof.
  intros Hext. destruct net as [elapsed err|elapsed response chunks]; [done|].
  intros [[r Hd] Hlike].
  assert (response = VObj r) as ->.
  { destruct response; try done; try (by cbn in Hlike).
    by injection Hd as ->. }
  unfold well_answered, delivered, response_like, status_code in *.
  destruct (heap w !! r) as [or|] eqn:Hr; [|done].
  pose proof (Hext r or Hr) as Hr'. unfold addr in *. by rewrite Hr'.
Qed.

Section EntryPointExtras.

Context `{Node} `{HttpHeaders}.

Lemma merged_url_lookup (o : gmap string value) (u name : string) :
  o !! "url" = Some (VStr u) ->
  name ∉ ["url"; "path"; "pathname"] ->
  merged_url o !! name =
    match urlParse u !! name with
    | Some v => Some v
    | None => o !! name
    end.
Proof.
  intros Hu Hname. rewrite !not_elem_of_cons in Hname.
  destruct Hname as (Hn1 & Hn2 & Hn3 & _).
  unfold merged_url. rewrite Hu.
  assert (Hunion : forall (p q : gmap string value),
    (p ∪ q) !! name = match p !! name with Some v => Some v | None => q !! name end).
  { intros p q. rewrite lookup_union. by destruct (p !! name), (q !! name). }
  destruct (truthy (prop o "pathname")).
  - rewrite lookup_delete_ne, Hunion by done.
    by rewrite lookup_insert_ne, lookup_delete_ne by done.
  - destruct (truthy (prop (urlParse u) "query")).
    + rewrite lookup_delete_ne, Hunion by done.
      by rewrite lookup_insert_ne by done.
    + by rewrite lookup_delete_ne, Hunion by done.
Qed.

(** X17. The call of the README, [jfHttpRequest(url)], when the parsed URL
    has a host name (and, as for every URL, no [headers], [requestType] or
    [cacheTime] field), the default cache time is 0 and the transport takes
    the options built from the URL: the call returns a new event emitter;
    the options it built hold the normalised fields of the URL; the request
    is sent once, and one event is emitted on the emitter, of the type its
    answer deserves. *)
Theorem jfHttpRequest_url_event_mode (w : world) (u : string) (net : answer) :
  u <> "" ->
  truthy (prop (urlParse u) "hostname") = true ->
  urlParse u !! "headers" = None ->
  urlParse u !! "requestType" = None ->
  urlParse u !! "cacheTime" = None ->
  truthy (cacheTime w) = false ->
  well_answered w net ->
  let a := length (heap w) in
  let emitter := VObj (S (length (heap w))) in
  let options := aliased_host (merged_url {[ "url" := VStr u ]}) in
  (forall h, h !! a = Some (Object KObject options) ->
             accepted h a options) ->
  exists w' : world,
    jfHttpRequest (VStr u) net w = (Ret emitter, w') /\
    heap w' !! a = Some (Object KObject options) /\
    options !! "url" = None /\
    prop options "hostname" = prop (urlParse u) "hostname" /\
    trace w' =
      (trace w ++ sent_events a options ++
       [Emit emitter (delivered w net).2 (delivered w net).1])%list.
Proof.
  intros Hu Hhost Hheaders Htype Hct Hdefault Hnet a emitter options Hacc.
  assert (Hurl0 : ({[ "url" := VStr u ]} : gmap string value) !! "url"
                  = Some (VStr u)) by apply lookup_singleton_eq.
  assert (Hlook : forall name, name ∉ ["url"; "path"; "pathname"; "host"; "hostname"] ->
                               options !! name = urlParse u !! name).
  { intros name Hname. rewrite !not_elem_of_cons in Hname.
    destruct Hname as (Hn1 & Hn2 & Hn3 & Hn4 & Hn5 & _).
    unfold options. rewrite aliased_host_lookup by done.
    rewrite (merged_url_lookup _ u name Hurl0)
      by (rewrite !not_elem_of_cons; repeat split; [done..|apply not_elem_of_nil]).
    rewrite lookup_singleton_ne by done. by destruct (urlParse u !! name). }
  assert (Hmhost : prop (merged_url {[ "url" := VStr u ]}) "hostname"
                   = prop (urlParse u) "hostname").
  { unfold prop. rewrite (merged_url_lookup _ u "hostname" Hurl0).
    - rewrite lookup_singleton_ne by done.
      by destruct (urlParse u !! "hostname").
    - rewrite !not_elem_of_cons. repeat split; [done..|apply not_elem_of_nil]. }
  assert (Hohost : prop options "hostname" = prop (urlParse u) "hostname").
  { rewrite <- Hmhost. unfold options, aliased_host.
    destruct (truthy (prop (merged_url {[ "url" := VStr u ]}) "host")); [|done].
    rewrite prop_delete_ne by done. by rewrite Hmhost, Hhost. }
  assert (Hnourl : options !! "url" = None).
  { unfold options. rewrite aliased_host_lookup by done.
    by apply (merged_url_no_url _ u). }
  unfold jfHttpRequest.
  assert (Htu : truthy (VStr u) = true).
  { cbn. apply negb_true_iff. by apply String.eqb_neq. }
  rewrite Htu. unfold bind at 1. cbn [alloc]. rewrite decide_False by done.
  fold a.
  set (w0 := with_heap (heap w ++ [Object KObject {[ "url" := VStr u ]}]) w).
  assert (Ha0 : heap w0 !! a = Some (Object KObject {[ "url" := VStr u ]})).
  { cbn. by apply list_lookup_middle. }
  rewrite (bind_ret _ _ _
             (update_props (fun p => aliased_host (merged_url p)) a w0) tt).
  2:{ rewrite (checkUrl_run w0 a _ Ha0). cbn [o_props]. fold options.
      by rewrite Hohost, Hhost. }
  pose proof (update_props_same (fun p => aliased_host (merged_url p)) a w0 _ Ha0)
    as Ha1. cbn [o_kind o_props] in Ha1. fold options in Ha1.
  set (w1 := update_props _ a w0) in *.
  assert (Hno : forall name, name ∈ ["headers"; "requestType"; "cacheTime"] ->
                             options !! name = None).
  { intros name Hin. rewrite Hlook.
    - rewrite !elem_of_cons in Hin.
      destruct Hin as [->|[->|[->|Hin]]]; try done. by apply elem_of_nil in Hin.
    - rewrite !elem_of_cons in Hin. rewrite !not_elem_of_cons.
      destruct Hin as [->|[->|[->|Hin]]];
        try (repeat split; [done..|apply not_elem_of_nil]).
      by apply elem_of_nil in Hin. }
  rewrite (bind_ret _ _ _ w1 tt).
  2:{ apply (checkHeaders_absent w1 a _ Ha1). cbn [o_props].
      apply Hno. set_solver. }
  rewrite (bind_get_prop _ _ _ _ _ Ha1). cbn [o_props].
  assert (Hrt : prop options "requestType" = VUndef).
  { unfold prop. rewrite Hno; [done|set_solver]. }
  rewrite Hrt, bind_delete_prop. cbn [typeof String.eqb Ascii.eqb Bool.eqb].
  rewrite (update_props_id _ a w1 _ Ha1).
  2:{ cbn [o_props]. apply delete_id. apply Hno. set_solver. }
  (* event mode *)
  unfold typeEvents. unfold bind at 1. cbn [alloc]. rewrite decide_False by done.
  assert (Hlen1 : length (heap w1) = S (length (heap w))).
  { unfold w1. rewrite update_props_length. cbn. rewrite length_app. cbn. lia. }
  rewrite Hlen1. fold emitter.
  set (w2 := with_heap (heap w1 ++ [Object KEvents ∅]) w1).
  assert (Hext : forall i x, heap w !! i = Some x -> heap w2 !! i = Some x).
  { intros i x Hx.
    assert (Hi : i < length (heap w)) by (by eapply lookup_lt_Some).
    unfold w2. cbn [heap with_heap].
    rewrite lookup_app_l by lia. unfold w1.
    rewrite update_props_other by (unfold a; lia). cbn.
    by rewrite lookup_app_l. }
  destruct (well_answered_extends w w2 net Hext Hnet) as [Hnet2 Hdel].
  assert (Ha2 : heap w2 !! a = Some (Object KObject options)).
  { unfold w2. cbn [heap with_heap]. rewrite lookup_app_l; [exact Ha1|].
    by eapply lookup_lt_Some. }
  destruct (doRequest_answers w2 a _
              (fun response =>
                 let* ok := isOk response in
                 log (Emit emitter (outcome ok) response))
              (fun error => log (Emit emitter "request-error" error))
              net Ha2) as (w3 & Hrun & Ht & Hres);
    [|by apply Hacc|exact Hnet2|].
  { cbn [o_props]. rewrite Hno by set_solver.
    intros Hc. exfalso.
    assert (Hc2 : cacheTime w2 = cacheTime w).
    { unfold w2. cbn [cacheTime with_heap]. unfold w1.
      by destruct (update_props_frame
                     (fun p => aliased_host (merged_url p)) a w0)
        as (_ & -> & _). }
    rewrite Hc2, Hdefault in Hc. done. }
  unfold bind at 1. rewrite Hrun. rewrite <- Hdel.
  assert (Ht2 : trace w2 = trace w).
  { unfold w2. cbn [trace with_heap]. unfold w1.
    by destruct (update_props_frame
                   (fun p => aliased_host (merged_url p)) a w0)
      as (_ & _ & _ & ->). }
  cbn [o_props] in Ht. rewrite Ht2 in Ht.
  destruct net as [elapsed err|elapsed response chunks].
  - eexists. split; [reflexivity|]. cbn [heap trace log with_trace snd fst].
    split; [by rewrite Hres|]. split; [done|]. split; [done|].
    by rewrite Ht, <- app_assoc.
  - destruct Hres as (Hlike & Hcode & Hframe).
    rewrite (bind_ret _ _ _ _ _ (isOk_run w3 response Hlike)).
    eexists. split; [reflexivity|]. cbn [heap trace log with_trace snd fst].
    split.
    + apply Hframe; [|exact Ha2].
      destruct Hnet as [[r Hd] Hl]. rewrite Hd. intros [= ->].
      unfold response_like in Hl.
      assert (response = VObj a) as ->.
      { destruct response; try done. by injection Hd as ->. }
      rewrite lookup_ge_None_2 in Hl; [done | unfold a; lia].
    + split; [done|]. split; [done|].
      cbn. by rewrite Ht, Hcode, <- app_assoc.
Qed.

End EntryPointExtras.

(** ** The earlier version of the module *)

Lemma well_answered_agree (w w' : world) (net : answer) :
  (forall i x, heap w !! i = Some x ->
     exists x', heap w' !! i = Some x' /\
                o_props x' !! "statusCode" = o_props x !! "statusCode") ->
  well_answered w net ->
  well_answered w' net /\ delivered w' net = delivered w net.
Proof.
  intros Hext. destruct net as [elapsed err|elapsed response chunks]; [done|].
  intros [[r Hd] Hlike].
  assert (response = VObj r) as ->.
  { destruct response; try done; try (by cbn in Hlike).
    by injection Hd as ->. }
  unfold well_answered, delivered, response_like, status_code in *.
  destruct (heap w !! r) as [or|] eqn:Hr; [|done].
  destruct (Hext r or Hr) as (x' & Hr' & Hs). unfold addr in *.
  rewrite Hr'. unfold prop. by rewrite Hs.
Qed.

Section Part000Runs.

Context `{Node} `{HttpHeaders}.

Lemma part000_checkUrl_run (w : world) (a : addr) (o : object) :
  heap w !! a = Some o ->
  Part000.checkUrl (VObj a) w =
    (if truthy (prop (aliased_host (Part000.merged_url (o_props o))) "hostname")
     then Ret tt else Throw (TypeError "Wrong hostname"),
     update_props (fun p => aliased_host (Part000.merged_url p)) a w).
Proof.
  intros Ha. unfold Part000.checkUrl.
  rewrite (bind_get_prop _ _ _ _ _ Ha).
  assert (Hfirst : forall (k : unit -> M unit),
    bind (match prop (o_props o) "url" with
          | VStr u =>
              object_assign (VObj a) (urlParse u) ;;
              delete_prop (VObj a) "url"
          | _ => ret tt
          end) k w = k tt (update_props Part000.merged_url a w)).
  { intros k. unfold Part000.merged_url, prop at 1.
    destruct (o_props o !! "url") as [[| | | |u| | | |]|] eqn:Hu;
      cbn [from_option id];
      try (rewrite bind_ret_l;
           by rewrite (update_props_id _ _ _ _ Ha) by (by rewrite Hu)).
    rewrite bind_assoc, bind_object_assign, bind_delete_prop.
    rewrite !update_props_compose. f_equal.
    unfold update_props. rewrite Ha. by rewrite Hu. }
  rewrite Hfirst. clear Hfirst.
  pose proof (update_props_same Part000.merged_url a w o Ha) as H1.
  rewrite (bind_get_prop _ _ _ _ _ H1). cbn [o_props].
  set (o1 := Part000.merged_url (o_props o)) in *.
  assert (Hsecond : forall (k : unit -> M unit),
    bind (if truthy (prop o1 "host") then
            let* hostname := get_prop (VObj a) "hostname" in
            (if negb (truthy hostname) then
               set_prop (VObj a) "hostname" (prop o1 "host")
             else ret tt) ;;
            delete_prop (VObj a) "host"
          else ret tt) k (update_props Part000.merged_url a w)
    = k tt (update_props (fun p => aliased_host (Part000.merged_url p)) a w)).
  { intros k. destruct (truthy (prop o1 "host")) eqn:Hh.
    - rewrite bind_assoc, (bind_get_prop _ _ _ _ _ H1). cbn [o_props].
      fold o1. rewrite bind_assoc.
      destruct (truthy (prop o1 "hostname")) eqn:Hn; cbn [negb].
      + rewrite bind_ret_l, bind_delete_prop, update_props_compose.
        f_equal. unfold update_props. rewrite Ha. unfold aliased_host.
        fold o1. by rewrite Hh, Hn.
      + rewrite bind_set_prop, bind_delete_prop, !update_props_compose.
        f_equal. unfold update_props. rewrite Ha. unfold aliased_host.
        fold o1. by rewrite Hh, Hn.
    - rewrite bind_ret_l. f_equal.
      unfold update_props. rewrite Ha. unfold aliased_host. fold o1.
      by rewrite Hh. }
  rewrite Hsecond. clear Hsecond.
  pose proof (update_props_same
                (fun p => aliased_host (Part000.merged_url p)) a w o Ha) as H2.
  rewrite (bind_get_prop _ _ _ _ _ H2). cbn [o_props]. subst o1.
  by destruct (truthy (prop (aliased_host (Part000.merged_url (o_props o)))
                            "hostname")).
Qed.

Lemma part000_doRequest_run (w : world) (a : addr) (o : object)
    (ok error : value -> M unit) (net : answer) :
  heap w !! a = Some o ->
  let sent := with_trace (trace w ++ Part000.sent_events a (o_props o)) w in
  let go :=
    match net with
    | NetError elapsed err => error err (advance elapsed sent)
    | NetResponse elapsed response chunks =>
        Part000.onEnd response chunks ok (advance elapsed sent)
    end in
  Part000.doRequest (VObj a) ok error net w =
    match request_throws false (heap w) (VObj a) with
    | Some e => (Throw e, w)
    | None =>
        match o_props o !! "body" with
        | Some body =>
            if writable body then go
            else (Throw (TypeError "The chunk must be a string or a Buffer"),
                  with_trace (trace w ++ [Request false (VObj a)]) w)
        | None => go
        end
    end.
Proof.
  intros Ha sent go. unfold Part000.doRequest.
  unfold bind at 1.
  destruct (request_throws false (heap w) (VObj a)) as [e|]; [done|].
  rewrite bind_log.
  set (w1 := with_trace _ w).
  assert (Ha1 : heap w1 !! a = Some o) by done.
  rewrite (bind_has_prop _ _ _ _ _ Ha1).
  assert (Hgo : forall w',
    w' = sent ->
    match net with
    | NetError elapsed err =>
        (fun w => (Ret tt, advance elapsed w)) ;; error err
    | NetResponse elapsed response _chunks =>
        (fun w => (Ret tt, advance elapsed w)) ;;
        Part000.onEnd response _chunks ok
    end w' = go).
  { intros w' ->. unfold go. by destruct net. }
  destruct (o_props o !! "body") as [body|] eqn:Hb.
  - rewrite bool_decide_eq_true_2 by done.
    rewrite bind_assoc, (bind_get_prop _ _ _ _ _ Ha1).
    assert (Hpb : prop (o_props o) "body" = body)
      by (unfold prop; by rewrite Hb).
    rewrite Hpb. destruct (writable body).
    + rewrite !bind_log. apply Hgo.
      unfold sent, Part000.sent_events, w1, with_trace. cbn.
      by rewrite Hb, <- !app_assoc.
    + done.
  - rewrite bool_decide_eq_false_2 by (by intros [? ?]).
    rewrite bind_ret_l, bind_log. apply Hgo.
    unfold sent, Part000.sent_events, w1, with_trace. cbn.
    by rewrite Hb, <- !app_assoc.
Qed.

Lemma part000_doRequest_sent (w : world) (a : addr) (o : object)
    (ok error : value -> M unit) (net : answer) :
  heap w !! a = Some o ->
  Part000.accepted (heap w) a (o_props o) ->
  let sent := with_trace (trace w ++ Part000.sent_events a (o_props o)) w in
  Part000.doRequest (VObj a) ok error net w =
    match net with
    | NetError elapsed err => error err (advance elapsed sent)
    | NetResponse elapsed response chunks =>
        Part000.onEnd response chunks ok (advance elapsed sent)
    end.
Proof.
  intros Ha [Hreq Hbody] sent.
  rewrite (part000_doRequest_run w a o ok error net Ha). cbv zeta.
  rewrite Hreq.
  destruct (o_props o !! "body") as [body|]; [by rewrite Hbody|done].
Qed.

Lemma part000_onEnd_run (w : world) (r : addr) (o : object)
    (chunks : list string) (ok : value -> M unit) :
  heap w !! r = Some o ->
  exists (body : value) (ext : list object),
    Part000.onEnd (VObj r) chunks ok w =
      ok (VObj r)
         (update_props (insert "body" body) r (with_heap (heap w ++ ext) w)).
Proof.
  intros Hr. unfold Part000.onEnd.
  rewrite (bind_get_prop _ _ _ _ _ Hr).
  rewrite (bind_ret _ _ _ _ _ (own_props_run _ w)).
  cbv zeta. cbn [to_string].
  set (ct := json_content_type _).
  assert (Hdec : allocates
    (if ct then
       match JSON_parse (String.concat "" (map Buffer_toString chunks)) with
       | Some j => alloc_json j
       | None => alloc KObject ∅
       end
     else ret (VStr (String.concat "" (map Buffer_toString chunks))))).
  { destruct ct; [|apply allocates_ret].
    destruct (JSON_parse _); [apply alloc_json_allocates|apply allocates_alloc]. }
  destruct (Hdec w) as (body & ext & Hrun).
  exists body, ext. by rewrite (bind_ret _ _ _ _ _ Hrun), bind_set_prop.
Qed.

Lemma part000_doRequest_answers (w : world) (a : addr) (o : object)
    (ok error : value -> M unit) (net : answer) :
  heap w !! a = Some o ->
  Part000.accepted (heap w) a (o_props o) ->
  well_answered w net ->
  exists w' : world,
    Part000.doRequest (VObj a) ok error net w =
      match net with
      | NetError _ err => error err w'
      | NetResponse _ response _ => ok response w'
      end /\
    trace w' = (trace w ++ Part000.sent_events a (o_props o))%list /\
    match net with
    | NetError _ _ => heap w' = heap w
    | NetResponse _ response _ =>
        response_like w' response /\
        status_code w' response = status_code w response /\
        forall i x, deref response <> Some i -> heap w !! i = Some x ->
                    heap w' !! i = Some x
    end.
Proof.
  intros Ha Hacc Hnet.
  rewrite (part000_doRequest_sent w a o ok error net Ha Hacc). cbv zeta.
  destruct net as [elapsed err|elapsed response chunks].
  - eexists. split; [reflexivity|]. by split.
  - destruct Hnet as [[r Hd] Hlike].
    assert (response = VObj r) as ->.
    { destruct response; try done; try (by cbn in Hlike).
      by injection Hd as ->. }
    assert (exists or, heap w !! r = Some or) as [or Hr].
    { unfold response_like in Hlike. destruct (heap w !! r); [by eexists|done]. }
    set (W := advance elapsed _).
    assert (HrW : heap W !! r = Some or) by done.
    destruct (part000_onEnd_run W r or chunks ok HrW) as (body & ext & Hrun).
    set (w2 := update_props (insert "body" body) r
                 (with_heap (heap W ++ ext) W)) in *.
    assert (Hr2 : heap w2 !! r =
                  Some (Object (o_kind or) (<["body" := body]> (o_props or)))).
    { unfold w2. apply update_props_same. cbn [heap with_heap].
      rewrite lookup_app_l; [done|]. by eapply lookup_lt_Some. }
    assert (Ht2 : trace w2 = (trace w ++ Part000.sent_events a (o_props o))%list).
    { unfold w2.
      by destruct (update_props_frame (insert "body" body) r
                     (with_heap (heap W ++ ext) W)) as (_ & _ & _ & ->). }
    assert (Hframe2 : forall i x, i <> r -> heap w !! i = Some x ->
                                  heap w2 !! i = Some x).
    { intros i x Hi Hx. unfold w2. rewrite update_props_other by done.
      cbn. rewrite lookup_app_l; [done|].
      by eapply lookup_lt_Some. }
    exists w2. split; [exact Hrun|]. split; [exact Ht2|].
    destruct (status_code_body w w2 r or body Hr Hr2) as [Hl Hs].
    split; [by apply Hl|]. split; [exact Hs|].
    intros i x Hi Hx. apply Hframe2; [|done]. intros ->. by apply Hi.
Qed.

End Part000Runs.

Lemma string_app_assoc (s1 s2 s3 : string) :
  (s1 ++ s2) ++ s3 = s1 ++ (s2 ++ s3).
Proof.
  induction s1 as [|c s1 IH]; [done|].
  change (String c ((s1 ++ s2) ++ s3) = String c (s1 ++ (s2 ++ s3))).
  by f_equal.
Qed.

Section QueryTwice.

Context `{Node}.

(** C4. The path of a URL with a query: [url.parse] gives the path of the
    URL with its query ([/a?b=1] for [http://example.com/a?b=1]), and
    [checkUrl] puts [?] and the query after it once more, so that the
    request goes to [/a?b=1?b=1] and not, as the claim and the README say
    and as the earlier version does, to the path followed by [?] and the
    query. *)
Theorem checkUrl_appends_query_twice (w : world) (a : addr) (o : object)
    (u pathname query : string) :
  heap w !! a = Some o ->
  o_props o !! "url" = Some (VStr u) ->
  truthy (prop (o_props o) "pathname") = false ->
  urlParse u !! "path" = Some (VStr (pathname ++ "?" ++ query)) ->
  urlParse u !! "query" = Some (VStr query) ->
  query <> "" ->
  exists o' o0 : object,
    heap (checkUrl (VObj a) w).2 !! a = Some o' /\
    prop (o_props o') "path" =
      VStr (pathname ++ "?" ++ query ++ "?" ++ query) /\
    heap (Part000.checkUrl (VObj a) w).2 !! a = Some o0 /\
    prop (o_props o0) "path" = VStr (pathname ++ "?" ++ query).
Proof.
  intros Ha Hu Hpn Hpath Hquery Hq.
  destruct (checkUrl_path w a o u Ha Hu) as (o' & Ho' & _ & Hp).
  rewrite Hpn in Hp.
  assert (Hpq : prop (urlParse u) "query" = VStr query)
    by (unfold prop; by rewrite Hquery).
  assert (Hpp : prop (urlParse u) "path" = VStr (pathname ++ "?" ++ query))
    by (unfold prop; by rewrite Hpath).
  assert (Htq : truthy (VStr query) = true).
  { cbn. apply negb_true_iff. by apply String.eqb_neq. }
  rewrite Hpq, Htq, Hpp in Hp. cbn [to_string] in Hp.
  exists o'. eexists. split; [exact Ho'|]. split.
  { rewrite Hp. f_equal. by rewrite string_app_assoc. }
  rewrite (part000_checkUrl_run w a o Ha). cbn [snd].
  split; [by apply update_props_same|]. cbn [o_props].
  rewrite prop_aliased_host by done.
  unfold Part000.merged_url. rewrite Hu.
  rewrite prop_delete_ne by done. unfold prop.
  by rewrite lookup_union, Hpath; destruct (o_props o !! "path").
Qed.

End QueryTwice.

Lemma checkUrl_appends_query_twice_witness :
  let o : gmap string value :=
    list_to_map [ ("url", VStr "http://example.com/a?b=1") ] in
  let w := World [Object KObject o] ∅ (VNum 0) 0 [] in
  exists o' o0 : object,
    heap (@checkUrl Sample.node (VObj 0) w).2 !! 0%nat = Some o' /\
    prop (o_props o') "path" = VStr "/a?b=1?b=1" /\
    heap (@Part000.checkUrl Sample.node (VObj 0) w).2 !! 0%nat = Some o0 /\
    prop (o_props o0) "path" = VStr "/a?b=1".
Proof.
  intros o w.
  apply (@checkUrl_appends_query_twice Sample.node w 0 (Object KObject o)
           "http://example.com/a?b=1" "/a" "b=1");
    [reflexivity | reflexivity | reflexivity | reflexivity | reflexivity
    | discriminate].
Defined.

Section Part000Extras.

Context `{Node} `{HttpHeaders}.

(** X18. In the earlier version the call of the README and of the test,
    with [requestType : 'promise'], does make a promise: for options that
    need no normalisation and that the transport takes (once their
    [requestType] is removed), the call returns a new promise, sends the
    request once, and settles the promise once, resolved with the response
    whatever its status code is, rejected on a transport error. *)
Theorem part000_promise_text_settles (w : world) (a : addr) (o : object)
    (net : answer) :
  heap w !! a = Some o ->
  (forall u, o_props o !! "url" <> Some (VStr u)) ->
  truthy (prop (o_props o) "host") = false ->
  truthy (prop (o_props o) "hostname") = true ->
  o_props o !! "headers" = None ->
  o_props o !! "requestType" = Some (VStr "promise") ->
  (forall h,
     h !! a = Some (Object (o_kind o) (delete "requestType" (o_props o))) ->
     Part000.accepted h a (delete "requestType" (o_props o))) ->
  well_answered w net ->
  let promise := VObj (length (heap w)) in
  exists w' : world,
    Part000.jfHttpRequest (VObj a) net w = (Ret promise, w') /\
    heap w !! length (heap w) = None /\
    o_kind <$> heap w' !! length (heap w) = Some KPromise /\
    trace w' =
      (trace w ++ Part000.sent_events a (o_props o) ++
       [match net with
        | NetError _ err => Reject promise err
        | NetResponse _ response _ => Resolve promise response
        end])%list.
Proof.
  intros Ha Hu Hhost Hname Hheaders Htype Hacc Hnet promise.
  assert (Hlt : a < length (heap w)) by (by eapply lookup_lt_Some).
  unfold Part000.jfHttpRequest. cbn [truthy]. rewrite bind_ret_l.
  assert (Hm : Part000.merged_url (o_props o) = o_props o).
  { unfold Part000.merged_url.
    destruct (o_props o !! "url") as [[| | | |u| | | |]|] eqn:Hurl; try done.
    by destruct (Hu u). }
  assert (Hal : aliased_host (o_props o) = o_props o).
  { unfold aliased_host. by rewrite Hhost. }
  rewrite (bind_ret _ _ _ w tt).
  2:{ rewrite (part000_checkUrl_run w a o Ha), Hm, Hal, Hname. f_equal.
      apply (update_props_id _ a w o Ha). by rewrite Hm, Hal. }
  rewrite (bind_ret _ _ _ w tt) by (by apply (checkHeaders_absent w a o)).
  rewrite (bind_get_prop _ _ _ _ _ Ha).
  assert (Hp : prop (o_props o) "requestType" = VStr "promise")
    by (unfold prop; by rewrite Htype).
  rewrite Hp. rewrite bind_delete_prop.
  cbn [typeof String.eqb Ascii.eqb Bool.eqb].
  unfold strict_eq. rewrite bool_decide_eq_true_2 by done.
  set (w1 := update_props (delete "requestType") a w).
  pose proof (update_props_same (delete "requestType") a w o Ha) as Ha1.
  fold w1 in Ha1.
  assert (Hlen1 : length (heap w1) = length (heap w))
    by apply update_props_length.
  destruct (update_props_frame (delete "requestType") a w) as (_ & _ & _ & Ht1).
  fold w1 in Ht1.
  assert (Hnet1 : well_answered w1 net).
  { apply (well_answered_agree w w1 net); [|done].
    intros i x Hx. unfold w1.
    destruct (decide (i = a)) as [->|Hi].
    - assert (x = o) as -> by (unfold addr in *; congruence). eexists. split; [exact Ha1|].
      cbn [o_props]. by rewrite lookup_delete_ne.
    - exists x. by rewrite update_props_other. }
  unfold Part000.typePromise. unfold bind at 1. cbn [alloc].
  rewrite decide_False by done. rewrite Hlen1. fold promise.
  set (x := Object KPromise ∅).
  set (w2 := with_heap (heap w1 ++ [x]) w1).
  destruct (well_answered_alloc w1 net x Hnet1) as (Hnet2 & _ & Hfresh).
  fold w2 in Hnet2. rewrite Hlen1 in Hfresh.
  assert (Ha2 : heap w2 !! a =
                Some (Object (o_kind o) (delete "requestType" (o_props o)))).
  { unfold w2. cbn [heap with_heap]. rewrite lookup_app_l by lia. exact Ha1. }
  assert (Hp2 : heap w2 !! length (heap w) = Some x).
  { unfold w2. cbn [heap with_heap]. apply list_lookup_middle.
    by rewrite Hlen1. }
  destruct (part000_doRequest_answers w2 a _
              (fun result => log (Resolve promise result))
              (fun reason => log (Reject promise reason))
              net Ha2 (Hacc _ Ha2) Hnet2) as (w3 & Hrun & Ht & Hres).
  cbn [o_props] in Ht.
  assert (Hsent : Part000.sent_events a (delete "requestType" (o_props o))
                  = Part000.sent_events a (o_props o)).
  { unfold Part000.sent_events. by rewrite lookup_delete_ne. }
  rewrite Hsent in Ht.
  assert (Ht2 : trace w2 = trace w) by (by rewrite <- Ht1).
  rewrite Ht2 in Ht.
  unfold bind at 1. unfold try_catch. rewrite Hrun.
  destruct net as [elapsed err|elapsed response chunks].
  - eexists. split; [reflexivity|]. cbn [heap trace log with_trace snd fst].
    split; [by apply lookup_ge_None_2|]. split.
    + by rewrite Hres, Hp2.
    + by rewrite Ht, <- app_assoc.
  - destruct Hres as (_ & _ & Hframe).
    eexists. split; [reflexivity|]. cbn [heap trace log with_trace snd fst].
    split; [by apply lookup_ge_None_2|]. split.
    + pose proof (Hframe _ _ Hfresh Hp2) as Hq. unfold addr in *.
      by rewrite Hq.
    + by rewrite Ht, <- app_assoc.
Qed.

(** X19. On options without a truthy [pathname], and whose URL (if it is
    a text) is parsed without a truthy query, the URL normaliser of the
    earlier version and the one of [index.js] do the same: same result or
    error, same final state. *)
Theorem part000_checkUrl_agrees (w : world) (a : addr) (o : object) :
  heap w !! a = Some o ->
  (forall u, o_props o !! "url" = Some (VStr u) ->
     truthy (prop (o_props o) "pathname") = false /\
     truthy (prop (urlParse u) "query") = false) ->
  Part000.checkUrl (VObj a) w = checkUrl (VObj a) w.
Proof.
  intros Ha Hq.
  rewrite (part000_checkUrl_run w a o Ha), (checkUrl_run w a o Ha).
  assert (Hm : Part000.merged_url (o_props o) = merged_url (o_props o)).
  { unfold Part000.merged_url, merged_url.
    destruct (o_props o !! "url") as [[| | | |u| | | |]|] eqn:Hu; try done.
    destruct (Hq u eq_refl) as [-> ->]. done. }
  rewrite Hm. f_equal.
  unfold update_props. unfold addr in *. rewrite Ha. by rewrite Hm.
Qed.

(** X20. The earlier version has no [pathname] rule: when the URL is a
    text whose parsed form has a path, that path is the path of the
    options after normalisation, whatever [pathname] the caller supplied,
    and the supplied [pathname] is only replaced by a parsed one. *)
Theorem part000_checkUrl_parsed_path (w : world) (a : addr) (o : object)
    (u : string) (p : value) :
  heap w !! a = Some o ->
  o_props o !! "url" = Some (VStr u) ->
  urlParse u !! "path" = Some p ->
  exists o' : object,
    heap (Part000.checkUrl (VObj a) w).2 !! a = Some o' /\
    o_props o' !! "url" = None /\
    o_props o' !! "path" = Some p /\
    o_props o' !! "pathname" =
      match urlParse u !! "pathname" with
      | Some parsed => Some parsed
      | None => o_props o !! "pathname"
      end.
Proof.
  intros Ha Hu Hp. rewrite (part000_checkUrl_run w a o Ha). cbn [snd].
  eexists. split; [by apply update_props_same|]. cbn [o_props].
  rewrite !aliased_host_lookup by done.
  unfold Part000.merged_url. rewrite Hu.
  rewrite lookup_delete_eq, !lookup_delete_ne by done.
  rewrite !lookup_union, Hp.
  split; [done|]. split.
  - by destruct (o_props o !! "path").
  - destruct (urlParse u !! "pathname"), (o_props o !! "pathname"); done.
Qed.

(** X21. With the cache off, a protocol other than [https:] and an
    answer that is an error or a JSON response none of whose characters is
    split between two chunks, the executor of [index.js] does exactly what
    the executor of the earlier version does, also when the transport
    refuses the request or its body: the cache and the choice of the secure
    transport are all that was added for such requests.  (The earlier
    version takes the text of each chunk on its own, [index.js] the text of
    the whole body.) *)
Theorem part000_doRequest_agrees (w : world) (a : addr) (o : object)
    (ok error : value -> M unit) (net : answer) :
  heap w !! a = Some o ->
  truthy (match o_props o !! "cacheTime" with
          | Some v => v
          | None => cacheTime w
          end) = false ->
  prop (o_props o) "protocol" <> VStr "https:" ->
  json_answered w net ->
  whole_chunks net ->
  doRequest (VObj a) ok error net w =
  Part000.doRequest (VObj a) ok error net w.
Proof.
  intros Ha Httl Hproto Hnet Hwhole.
  rewrite (doRequest_miss_run w a o ok error net Ha) by (by rewrite Httl).
  rewrite (part000_doRequest_run w a o ok error net Ha).
  cbv zeta. rewrite Httl.
  assert (Hsec : strict_eq (prop (o_props o) "protocol") (VStr "https:") = false).
  { unfold strict_eq. by rewrite bool_decide_eq_false_2. }
  assert (Hsent : sent_events a (o_props o) = Part000.sent_events a (o_props o)).
  { unfold sent_events, Part000.sent_events. by rewrite Hsec. }
  rewrite Hsec, Hsent.
  destruct (request_throws false (heap w) (VObj a)) as [e|]; [done|].
  assert (Hgo :
    match net with
    | NetError elapsed err =>
        error err
          (advance elapsed
             (with_trace (trace w ++ Part000.sent_events a (o_props o)) w))
    | NetResponse elapsed response chunks =>
        onEnd VUndef
          (match o_props o !! "cacheTime" with
           | Some v => v
           | None => cacheTime w
           end) response chunks ok
          (advance elapsed
             (with_trace (trace w ++ Part000.sent_events a (o_props o)) w))
    end =
    match net with
    | NetError elapsed err =>
        error err
          (advance elapsed
             (with_trace (trace w ++ Part000.sent_events a (o_props o)) w))
    | NetResponse elapsed response chunks =>
        Part000.onEnd response chunks ok
          (advance elapsed
             (with_trace (trace w ++ Part000.sent_events a (o_props o)) w))
    end).
  { destruct net as [elapsed err|elapsed response chunks]; [done|].
    destruct Hnet as [(r & -> & [or Hr]) Hjson]. cbn in Hwhole.
    set (W := advance elapsed _).
    assert (HrW : heap W !! r = Some or) by done.
    assert (Hct : json_content_type
                    (to_string
                       (hdr_get (hdr_new (props_at W (prop (o_props or) "headers")))
                                "Content-Type")) = true).
    { assert (Hpa : props_at w (VObj r) = o_props or).
      { unfold props_at. cbn [deref]. unfold addr in *. by rewrite Hr. }
      rewrite Hpa in Hjson. exact Hjson. }
    unfold onEnd, Part000.onEnd.
    rewrite !(bind_get_prop _ _ _ _ _ HrW).
    rewrite !(bind_ret _ _ _ _ _ (own_props_run _ W)).
    cbv zeta. rewrite Hct. cbn [to_string]. rewrite Hwhole. reflexivity. }
  destruct (o_props o !! "body") as [body|]; [|exact Hgo].
  destruct (writable body); [exact Hgo|done].
Qed.

End Part000Extras.

(** ** Dispatch on a function, failures of the normalisers, expiry *)

Lemma get_prop_delete_ne (v : value) (name k : string) (a : addr) (w : world) :
  name <> k ->
  get_prop v name (update_props (delete k) a w) =
    ((get_prop v name w).1, update_props (delete k) a w).
Proof.
  intros Hne. unfold get_prop.
  destruct v as [| | | | | | |b|b]; try done; cbn [deref].
  - destruct (decide (a = b)) as [->|Hab].
    + destruct (heap w !! b) as [o|] eqn:Hb.
      * rewrite (update_props_same _ _ _ _ Hb). cbn [o_props fst].
        by rewrite prop_delete_ne.
      * unfold update_props. unfold addr in *. by rewrite !Hb.
    + rewrite update_props_other by done. by destruct (heap w !! b).
  - destruct (decide (a = b)) as [->|Hab].
    + destruct (heap w !! b) as [o|] eqn:Hb.
      * rewrite (update_props_same _ _ _ _ Hb). cbn [o_props fst].
        by rewrite prop_delete_ne.
      * unfold update_props. unfold addr in *. by rewrite !Hb.
    + rewrite update_props_other by done. by destruct (heap w !! b).
Qed.

Lemma get_prop_state (v : value) (name : string) (w : world) :
  (get_prop v name w).2 = w.
Proof.
  unfold get_prop. destruct v as [| | | | | | |b|b]; try done; cbn [deref];
    by destruct (heap w !! b).
Qed.

(** The class check reads [prototype], [catch] and [then] only: removing
    the [requestType] of an object, whichever it is, does not change it. *)
Lemma isPromise_delete_requestType (Class : value) (a : addr) (w : world)
    (b : bool) :
  isPromise Class w = (Ret b, w) ->
  isPromise Class (update_props (delete "requestType") a w) =
    (Ret b, update_props (delete "requestType") a w).
Proof.
  assert (Hgen : isPromise Class (update_props (delete "requestType") a w) =
                 ((isPromise Class w).1, update_props (delete "requestType") a w)).
  { unfold isPromise.
    destruct (negb (String.eqb (typeof Class) "function")); [done|].
    unfold bind. rewrite get_prop_delete_ne by done.
    pose proof (get_prop_state Class "prototype" w) as Hs1.
    destruct (get_prop Class "prototype" w) as [[proto|e] w1];
      cbn [fst snd] in *; [subst w1|done].
    destruct (negb (String.eqb (typeof proto) "object")); [done|].
    rewrite get_prop_delete_ne by done.
    pose proof (get_prop_state proto "catch" w) as Hs2.
    destruct (get_prop proto "catch" w) as [[_catch|e] w2];
      cbn [fst snd] in *; [subst w2|done].
    destruct (negb (String.eqb (typeof _catch) "function")); [done|].
    rewrite get_prop_delete_ne by done.
    pose proof (get_prop_state proto "then" w) as Hs3.
    destruct (get_prop proto "then" w) as [[_then|e] w3];
      cbn [fst snd] in *; [subst w3|done].
    done. }
  intros Hclass. by rewrite Hgen, Hclass.
Qed.

Section DispatchExtras.

Context `{Node} `{HttpHeaders}.

(** X22. Headers whose [Content-Type] is truthy but not a text (a number,
    say) and that give no [Accept]: [checkHeaders] throws, for want of a
    [split], and leaves the process as it was: the options keep the
    headers they had. *)
Theorem checkHeaders_non_text_content_type (w : world) (a : addr)
    (o : object) (given : value) :
  heap w !! a = Some o ->
  o_props o !! "headers" = Some given ->
  truthy (hdr_get (hdr_new (props_at w given)) "Content-Type") = true ->
  (forall s, hdr_get (hdr_new (props_at w given)) "Content-Type" <> VStr s) ->
  truthy (hdr_get (hdr_new (props_at w given)) "Accept") = false ->
  exists e : exn, checkHeaders (VObj a) w = (Throw e, w).
Proof.
  intros Ha Hh Hct Hnot Hacc.
  rewrite (checkHeaders_run w a o given Ha Hh).
  unfold with_content_type. rewrite Hct. cbn [negb].
  unfold with_accept. rewrite Hacc, Hct. cbn [negb].
  destruct (hdr_get (hdr_new (props_at w given)) "Content-Type") as [| | | |s| | | |];
    try (by eexists).
  by destruct (Hnot s).
Qed.

(** X23. A function as [requestType], on options that need no
    normalisation and that the transport takes (once their [requestType]
    is removed), with the cache off: when the class check accepts the
    function, and [new] treats it as a promise class, the call returns a
    new promise and settles it once, resolved with the response whatever
    its status code, rejected on a transport error; when the class check
    refuses it, the call returns [undefined] and calls the function once,
    with the answer and its type.  Either way the request was sent
    once. *)
Theorem jfHttpRequest_function_type (w : world) (a : addr) (o : object)
    (_type : value) (b : bool) (net : answer) :
  heap w !! a = Some o ->
  (forall u, o_props o !! "url" <> Some (VStr u)) ->
  truthy (prop (o_props o) "host") = false ->
  truthy (prop (o_props o) "hostname") = true ->
  o_props o !! "headers" = None ->
  o_props o !! "requestType" = Some _type ->
  typeof _type = "function" ->
  isPromise _type w = (Ret b, w) ->
  (b = true -> construct _type = PromiseClass) ->
  truthy (match o_props o !! "cacheTime" with
          | Some v => v
          | None => cacheTime w
          end) = false ->
  (forall h,
     h !! a = Some (Object (o_kind o) (delete "requestType" (o_props o))) ->
     accepted h a (delete "requestType" (o_props o))) ->
  well_answered w net ->
  let promise := VObj (length (heap w)) in
  exists w' : world,
    jfHttpRequest (VObj a) net w =
      (Ret (if b then promise else VUndef), w') /\
    trace w' =
      (trace w ++ sent_events a (o_props o) ++
       [if b then
          match net with
          | NetError _ err => Reject promise err
          | NetResponse _ response _ => Resolve promise response
          end
        else Callback _type (delivered w net).1 (delivered w net).2])%list.
Proof.
  intros Ha Hu Hhost Hname Hheaders Htype Hfun Hclass Hnew Httl Hacc Hnet
    promise.
  assert (Hlt : a < length (heap w)) by (by eapply lookup_lt_Some).
  unfold jfHttpRequest. cbn [truthy]. rewrite bind_ret_l.
  assert (Hm : merged_url (o_props o) = o_props o).
  { unfold merged_url.
    destruct (o_props o !! "url") as [[| | | |u| | | |]|] eqn:Hurl; try done.
    by destruct (Hu u). }
  assert (Hal : aliased_host (o_props o) = o_props o).
  { unfold aliased_host. by rewrite Hhost. }
  rewrite (bind_ret _ _ _ w tt).
  2:{ rewrite (checkUrl_run w a o Ha), Hm, Hal, Hname. f_equal.
      apply (update_props_id _ a w o Ha). by rewrite Hm, Hal. }
  rewrite (bind_ret _ _ _ w tt) by (by apply (checkHeaders_absent w a o)).
  rewrite (bind_get_prop _ _ _ _ _ Ha).
  assert (Hp : prop (o_props o) "requestType" = _type)
    by (unfold prop; by rewrite Htype).
  rewrite Hp, bind_delete_prop, Hfun.
  cbn [String.eqb Ascii.eqb Bool.eqb].
  set (w1 := update_props (delete "requestType") a w).
  rewrite (bind_ret _ _ _ _ _ (isPromise_delete_requestType _type a w b Hclass)).
  fold w1.
  pose proof (update_props_same (delete "requestType") a w o Ha) as Ha1.
  fold w1 in Ha1.
  assert (Hlen1 : length (heap w1) = length (heap w))
    by apply update_props_length.
  destruct (update_props_frame (delete "requestType") a w)
    as (Hc1 & Hm1 & _ & Ht1).
  fold w1 in Hc1, Hm1, Ht1.
  destruct (well_answered_agree w w1 net) as [Hnet1 Hdel1]; [|done|].
  { intros i x Hx. unfold w1.
    destruct (decide (i = a)) as [->|Hi].
    - assert (x = o) as -> by (unfold addr in *; congruence).
      eexists. split; [exact Ha1|].
      cbn [o_props]. by rewrite lookup_delete_ne.
    - exists x. by rewrite update_props_other. }
  assert (Hsent : sent_events a (delete "requestType" (o_props o))
                  = sent_events a (o_props o)).
  { unfold sent_events. by rewrite prop_delete_ne, lookup_delete_ne. }
  assert (Hct1 : match delete "requestType" (o_props o) !! "cacheTime" with
                 | Some v => v
                 | None => cacheTime w1
                 end = match o_props o !! "cacheTime" with
                       | Some v => v
                       | None => cacheTime w
                       end).
  { by rewrite lookup_delete_ne, Hm1. }
  destruct b.
  - (* a promise class *)
    unfold typePromise. rewrite (Hnew eq_refl). unfold bind at 1. cbn [alloc].
    rewrite decide_False by done. rewrite Hlen1. fold promise.
    set (x := Object KPromise {[ "constructor" := _type ]}).
    set (w2 := with_heap (heap w1 ++ [x]) w1).
    destruct (well_answered_alloc w1 net x Hnet1) as (Hnet2 & _ & _).
    fold w2 in Hnet2.
    assert (Ha2 : heap w2 !! a =
                  Some (Object (o_kind o) (delete "requestType" (o_props o)))).
    { unfold w2. cbn [heap with_heap]. rewrite lookup_app_l by lia. exact Ha1. }
    destruct (doRequest_answers w2 a _
                (fun result => log (Resolve promise result))
                (fun reason => log (Reject promise reason))
                net Ha2) as (w3 & Hrun & Ht & _);
      [|exact (Hacc _ Ha2)|exact Hnet2|].
    { cbn [o_props]. intros Hc. exfalso.
      assert (Hc2 : cacheTime w2 = cacheTime w1) by done.
      rewrite Hc2, Hct1, Httl in Hc. done. }
    cbn [o_props] in Ht. rewrite Hsent in Ht.
    assert (Ht2 : trace w2 = trace w) by (by rewrite <- Ht1).
    rewrite Ht2 in Ht.
    unfold bind at 1. unfold try_catch. rewrite Hrun.
    destruct net as [elapsed err|elapsed response chunks];
      (eexists; split; [reflexivity|];
       cbn [heap trace log with_trace snd fst];
       by rewrite Ht, <- app_assoc).
  - (* any other function *)
    unfold typeCallback.
    destruct (doRequest_answers w1 a _
                (fun response =>
                   let* ok := isOk response in
                   log (Callback _type response (outcome ok)))
                (fun error => log (Callback _type error "request-error"))
                net Ha1) as (w3 & Hrun & Ht & Hres);
      [|exact (Hacc _ Ha1)|exact Hnet1|].
    { cbn [o_props]. intros Hc. exfalso. rewrite Hct1, Httl in Hc. done. }
    cbn [o_props] in Ht. rewrite Hsent, Ht1 in Ht.
    unfold bind at 1. rewrite Hrun. rewrite <- Hdel1.
    destruct net as [elapsed err|elapsed response chunks].
    + eexists. split; [reflexivity|]. cbn. by rewrite Ht, <- app_assoc.
    + destruct Hres as (Hlike & Hcode & _).
      rewrite (bind_ret _ _ _ _ _ (isOk_run w3 response Hlike)).
      eexists. split; [reflexivity|]. cbn. by rewrite Ht, Hcode, <- app_assoc.
Qed.

(** X24. An entry that has expired does not serve: a request that the
    transport takes and whose entry in the store is older than the clock is
    sent again, and its answer goes to [error] or to [ok] as if the store
    were empty. *)
Theorem doRequest_expired_entry_is_not_served (w : world) (a : addr)
    (o : object) (ok error : value -> M unit) (net : answer) (e : entry) :
  heap w !! a = Some o ->
  cache w !! sha256_hex (JSON_stringify (heap w) (VObj a)) = Some e ->
  (time e < clock w)%Z ->
  accepted (heap w) a (o_props o) ->
  well_answered w net ->
  exists w' : world,
    doRequest (VObj a) ok error net w =
      match net with
      | NetError _ err => error err w'
      | NetResponse _ response _ => ok response w'
      end /\
    trace w' = (trace w ++ sent_events a (o_props o))%list.
Proof.
  intros Ha He Hold Hacc Hnet.
  destruct (doRequest_answers w a o ok error net Ha) as (w' & Hrun & Ht & _);
    [|exact Hacc|exact Hnet|by exists w'].
  intros _. rewrite purged_lookup, He. by rewrite decide_True.
Qed.

End DispatchExtras.

(** X27. [purgeCache] never throws; afterwards the store holds exactly
    the entries it held whose time is not before the clock (an entry that
    expires at this very millisecond stays); objects, default cache time
    and trace are untouched. *)
Theorem purgeCache_store (w : world) (k : string) (e : entry) :
  (purgeCache w).1 = Ret tt /\
  (cache (purgeCache w).2 !! k = Some e <->
   cache w !! k = Some e /\ (clock w <= time e)%Z) /\
  heap (purgeCache w).2 = heap w /\
  cacheTime (purgeCache w).2 = cacheTime w /\
  trace (purgeCache w).2 = trace w.
Proof.
  rewrite purgeCache_run. cbn [fst snd]. split; [done|].
  split; [|done]. cbn [cache with_cache]. rewrite purged_lookup.
  destruct (cache w !! k) as [e'|]; [|split; [done | by intros [? _]]].
  destruct (decide (time e' < clock w)%Z).
  - split; [done|]. intros [[= ->] ?]. lia.
  - split; [intros [= ->]; split; [done|lia] | by intros [[= ->] _]].
Qed.

(** ** What the transport and [new] refuse *)

Section RefusalExtras.

Context `{Node} `{HttpHeaders}.




End RefusalExtras.

(** ** The further properties at work *)

Lemma onEnd_keeps_raw_body_witness :
  let response : gmap string value :=
    list_to_map [ ("statusCode", VNum 200); ("headers", VObj 1) ] in
  let w := World [Object KMessage response;
                  Object KObject {[ "Content-Type" := VStr "text/plain" ]}]
                 ∅ (VNum 0) 1000 [] in
  let ok := fun v => log (Resolve (VObj 9) v) in
  exists w' : world,
    @onEnd Sample.node Sample.http_headers VUndef (VNum 0) (VObj 0)
      ["he"; "llo"] ok w = ok (VObj 0) w' /\
    get_prop (VObj 0) "body" w' = (Ret (VBuf "hello"), w') /\
    trace w' = trace w.
Proof.
  intros response w ok.
  apply (@onEnd_keeps_raw_body Sample.node Sample.http_headers
           w 0 (Object KMessage response) VUndef (VNum 0) ["he"; "llo"] ok);
    reflexivity.
Defined.

Lemma doRequest_cache_disabled_witness :
  let options : gmap string value :=
    list_to_map [ ("hostname", VStr "example.com"); ("body", VStr "hi") ] in
  let response : gmap string value :=
    list_to_map [ ("statusCode", VNum 404) ] in
  let w := World [Object KObject options; Object KMessage response]
                 {[ "old" := Entry (VObj 1) 5 ]} (VNum 0) 1000 [] in
  let ok := fun v => log (Resolve (VObj 9) v) in
  let error := fun v => log (Reject (VObj 9) v) in
  exists w' : world,
    @doRequest Sample.node Sample.http_headers (VObj 0) ok error
      (NetResponse 10 (VObj 1) ["hello"]) w = ok (VObj 1) w' /\
    cache w' = {[ "old" := Entry (VObj 1) 5 ]} /\
    trace w' = [Request false (VObj 0); RequestWrite (VStr "hi"); RequestEnd].
Proof.
  intros options response w ok error.
  apply (@doRequest_cache_disabled Sample.node Sample.http_headers
           w 0 (Object KObject options) ok error
           (NetResponse 10 (VObj 1) ["hello"]));
    [reflexivity | reflexivity | apply conj; reflexivity | ].
  apply conj; [by eexists | vm_compute; exact I].
Defined.

Lemma doRequest_transport_error_witness :
  let options : gmap string value :=
    list_to_map [ ("hostname", VStr "example.com"); ("cacheTime", VNum 60000) ] in
  let w := World [Object KObject options]
                 {[ "old" := Entry (VObj 0) 5 ]} (VNum 0) 1000 [] in
  let ok := fun v => log (Resolve (VObj 9) v) in
  let error := fun v => log (Reject (VObj 9) v) in
  exists w' : world,
    @doRequest Sample.node Sample.http_headers (VObj 0) ok error
      (NetError 10 (VErr "ECONNREFUSED")) w = error (VErr "ECONNREFUSED") w' /\
    heap w' = heap w /\
    cache w' = purged 1000 {[ "old" := Entry (VObj 0) 5 ]} /\
    clock w' = 1010%Z /\
    trace w' = [Request false (VObj 0); RequestEnd].
Proof.
  intros options w ok error.
  apply (@doRequest_transport_error Sample.node Sample.http_headers
           w 0 (Object KObject options) ok error 10 (VErr "ECONNREFUSED"));
    [reflexivity | intros _; vm_compute; reflexivity
    | apply conj; [reflexivity | exact I]].
Defined.

Lemma doRequest_second_request_is_cached_witness :
  let options : gmap string value :=
    list_to_map [ ("hostname", VStr "example.com"); ("cacheTime", VNum 60000) ] in
  let response : gmap string value :=
    list_to_map [ ("statusCode", VNum 200) ] in
  let w := World [Object KObject options; Object KMessage response]
                 ∅ (VNum 0) 1000 [] in
  let ok := fun v => log (Resolve (VObj 8) v) in
  let error := fun v => log (Reject (VObj 8) v) in
  let ok' := fun v => log (Resolve (VObj 9) v) in
  let error' := fun v => log (Reject (VObj 9) v) in
  exists (w1 w2 : world) (snapshot : value),
    @doRequest Sample.node Sample.http_headers (VObj 0) ok error
      (NetResponse 10 (VObj 1) ["hello"]) w = ok (VObj 1) w1 /\
    @doRequest Sample.node Sample.http_headers (VObj 0) ok' error'
      (NetError 10 (VErr "ECONNREFUSED")) (advance 60000 w1) =
      ok' snapshot w2 /\
    trace w2 = trace w1 /\
    trace w1 = [Request false (VObj 0); RequestEnd] /\
    Forall (fun name =>
      get_prop snapshot name w2 =
      (Ret (prop (props_at w1 (VObj 1)) name), w2)) properties.
Proof.
  intros options response w ok error ok' error'.
  apply (@doRequest_second_request_is_cached Sample.node Sample.http_headers
           w 0 1 (Object KObject options) (Object KMessage response)
           60000 10 60000 ["hello"] ok error ok' error'
           (NetError 10 (VErr "ECONNREFUSED")));
    [reflexivity | reflexivity | lia | reflexivity | lia | lia
    | vm_compute; discriminate | reflexivity
    | apply conj; [reflexivity | exact I] | ].
  intros h' Hframe. cbn [JSON_stringify Sample.node Sample.stringify].
  rewrite (Hframe 0%nat (Object KObject options)); [reflexivity | lia | reflexivity].
Defined.

Lemma typeCallback_calls_back_once_witness :
  let options : gmap string value :=
    list_to_map [ ("hostname", VStr "example.com") ] in
  let response : gmap string value :=
    list_to_map [ ("statusCode", VNum 404) ] in
  let w := World [Object KObject options; Object KMessage response;
                  Object KFunction ∅]
                 ∅ (VNum 0) 1000 [] in
  exists w' : world,
    @typeCallback Sample.node Sample.http_headers (VObj 0) (VFun 2)
      (NetResponse 10 (VObj 1) ["gone"]) w = (Ret tt, w') /\
    trace w' =
      [Request false (VObj 0); RequestEnd;
       Callback (VFun 2) (VObj 1) "request-fail"].
Proof.
  intros options response w.
  apply (@typeCallback_calls_back_once Sample.node Sample.http_headers
           w 0 (Object KObject options) (VFun 2)
           (NetResponse 10 (VObj 1) ["gone"]));
    [reflexivity | intros Hc; vm_compute in Hc; discriminate
    | apply conj; [reflexivity | exact I] | ].
  apply conj; [by eexists | vm_compute; exact I].
Defined.

Lemma typeEvents_emits_once_witness :
  let options : gmap string value :=
    list_to_map [ ("hostname", VStr "example.com") ] in
  let response : gmap string value :=
    list_to_map [ ("statusCode", VNum 304) ] in
  let w := World [Object KObject options; Object KMessage response]
                 ∅ (VNum 0) 1000 [] in
  exists w' : world,
    @typeEvents Sample.node Sample.http_headers (VObj 0)
      (NetResponse 10 (VObj 1) []) w = (Ret (VObj 2), w') /\
    heap w !! 2%nat = None /\
    heap w' !! 2%nat = Some (Object KEvents ∅) /\
    trace w' =
      [Request false (VObj 0); RequestEnd;
       Emit (VObj 2) "request-ok" (VObj 1)].
Proof.
  intros options response w.
  apply (@typeEvents_emits_once Sample.node Sample.http_headers
           w 0 (Object KObject options) (NetResponse 10 (VObj 1) []));
    [reflexivity | reflexivity | apply conj; [reflexivity | exact I] | ].
  apply conj; [by eexists | vm_compute; exact I].
Defined.

Lemma typePromise_settles_once_witness :
  let options : gmap string value :=
    list_to_map [ ("hostname", VStr "example.com") ] in
  let response : gmap string value :=
    list_to_map [ ("statusCode", VNum 500) ] in
  let w := World [Object KObject options; Object KMessage response;
                  Object KObject ∅; Object KFunction ∅]
                 ∅ (VNum 0) 1000 [] in
  @construct Sample.node (VFun 3) = PromiseClass /\
  exists w' : world,
    @typePromise Sample.node Sample.http_headers (VFun 3) (VObj 0)
      (NetResponse 10 (VObj 1) []) w = (Ret (VObj 4), w') /\
    heap w !! 4%nat = None /\
    o_kind <$> heap w' !! 4%nat = Some KPromise /\
    trace w' =
      [Request false (VObj 0); RequestEnd; Resolve (VObj 4) (VObj 1)].
Proof.
  intros options response w. apply conj; [reflexivity|].
  apply (@typePromise_settles_once Sample.node Sample.http_headers
           w 0 (Object KObject options) (VFun 3) (NetResponse 10 (VObj 1) []));
    [reflexivity | reflexivity | reflexivity
    | apply conj; [reflexivity | exact I] | ].
  apply conj; [by eexists | vm_compute; exact I].
Defined.

Lemma checkHeaders_text_body_witness :
  let options : gmap string value :=
    list_to_map [ ("hostname", VStr "example.com"); ("headers", VObj 1);
                  ("body", VStr "<p>hi</p>") ] in
  let w := World [Object KObject options;
                  Object KObject {[ "X-Token" := VStr "t" ]}]
                 ∅ (VNum 0) 1000 [] in
  exists (w' : world) (result : value),
    @checkHeaders Sample.http_headers (VObj 0) w = (Ret tt, w') /\
    get_prop (VObj 0) "headers" w' = (Ret result, w') /\
    prop (props_at w' result) "Content-Type" =
      VStr "text/html; charset=utf-8" /\
    prop (props_at w' result) "Accept" = VStr "text/html".
Proof.
  intros options w.
  apply (@checkHeaders_text_body Sample.http_headers
           w 0 (Object KObject options) (VObj 1) "<p>hi</p>");
    reflexivity.
Defined.

Lemma checkHeaders_accept_from_content_type_witness :
  let options : gmap string value :=
    list_to_map [ ("hostname", VStr "example.com"); ("headers", VObj 1) ] in
  let w := World [Object KObject options;
                  Object KObject
                    {[ "Content-Type" := VStr "text/xml; charset=utf-8" ]}]
                 ∅ (VNum 0) 1000 [] in
  exists (w' : world) (result : value) (media rest : string),
    @checkHeaders Sample.http_headers (VObj 0) w = (Ret tt, w') /\
    get_prop (VObj 0) "headers" w' = (Ret result, w') /\
    prop (props_at w' result) "Content-Type" =
      VStr "text/xml; charset=utf-8" /\
    prop (props_at w' result) "Accept" = VStr media /\
    "text/xml; charset=utf-8" = media ++ rest /\
    (rest = "" \/ exists rest', rest = String ";" rest') /\
    forall pre post, media <> pre ++ String ";" post.
Proof.
  intros options w.
  apply (@checkHeaders_accept_from_content_type Sample.http_headers
           w 0 (Object KObject options) (VObj 1) "text/xml; charset=utf-8");
    [reflexivity | reflexivity | reflexivity | discriminate | reflexivity].
Defined.

Lemma checkHeaders_keeps_given_headers_witness :
  let options : gmap string value :=
    list_to_map [ ("hostname", VStr "example.com"); ("headers", VObj 1);
                  ("body", VStr "hi") ] in
  let w := World [Object KObject options;
                  Object KObject
                    (list_to_map [ ("Accept", VStr "*/*");
                                   ("X-Token", VStr "t") ])]
                 ∅ (VNum 0) 1000 [] in
  exists (w' : world) (result : value),
    @checkHeaders Sample.http_headers (VObj 0) w = (Ret tt, w') /\
    get_prop (VObj 0) "headers" w' = (Ret result, w') /\
    prop (props_at w' result) "X-Token" = VStr "t".
Proof.
  intros options w.
  apply (@checkHeaders_keeps_given_headers Sample.http_headers
           w 0 (Object KObject options) (VObj 1) "X-Token");
    [reflexivity | reflexivity | reflexivity | left; vm_compute; discriminate].
Defined.

Lemma checkUrl_host_alias_witness :
  let options : gmap string value :=
    list_to_map [ ("host", VStr "example.com"); ("port", VNum 8080) ] in
  let w := World [Object KObject options] ∅ (VNum 0) 1000 [] in
  exists (w' : world) (o' : object),
    @checkUrl Sample.node (VObj 0) w = (Ret tt, w') /\
    heap w' !! 0%nat = Some o' /\
    o_props o' !! "host" = None /\
    prop (o_props o') "hostname" = VStr "example.com" /\
    forall name, name <> "host" -> name <> "hostname" ->
                 o_props o' !! name = options !! name.
Proof.
  intros options w.
  apply (@checkUrl_host_alias Sample.node w 0 (Object KObject options));
    [reflexivity | intros u Hu; vm_compute in Hu; discriminate | reflexivity].
Defined.

Lemma checkUrl_idempotent_witness :
  let options : gmap string value :=
    list_to_map [ ("url", VStr "http://example.com/a?b=1") ] in
  let w := World [Object KObject options] ∅ (VNum 0) 1000 [] in
  @checkUrl Sample.node (VObj 0) (@checkUrl Sample.node (VObj 0) w).2 =
  @checkUrl Sample.node (VObj 0) w.
Proof.
  intros options w.
  exact (@checkUrl_idempotent Sample.node w 0 (Object KObject options) eq_refl).
Defined.

Lemma checkUrl_parsed_fields_win_witness :
  let options : gmap string value :=
    list_to_map [ ("url", VStr "http://example.com/a?b=1");
                  ("port", VNum 8080); ("method", VStr "POST") ] in
  let w := World [Object KObject options] ∅ (VNum 0) 1000 [] in
  exists o' : object,
    heap (@checkUrl Sample.node (VObj 0) w).2 !! 0%nat = Some o' /\
    o_props o' !! "port" = Some VNull.
Proof.
  intros options w.
  apply (@checkUrl_parsed_fields_win Sample.node w 0 (Object KObject options)
           "http://example.com/a?b=1" "port");
    [reflexivity | reflexivity | ].
  intros Hin. repeat (apply elem_of_cons in Hin as [Hin|Hin]; [discriminate|]).
  by apply elem_of_nil in Hin.
Defined.

Lemma addToCache_store_witness :
  let response : gmap string value :=
    list_to_map [ ("statusCode", VNum 200); ("body", VStr "hello") ] in
  let w := World [Object KMessage response]
                 (list_to_map [ ("old", Entry (VObj 0) 5);
                                ("new", Entry (VObj 0) 2000) ])
                 (VNum 0) 1000 [] in
  let w1 := (addToCache "h" 60000 (VObj 0) w).2 in
  (cache w1 !! "old" = Some (Entry (VObj 0) 5) <->
   ("old" = "h" /\ Entry (VObj 0) 5 = Entry (VObj 1) 61000) \/
   ("old" <> "h" /\ cache w !! "old" = Some (Entry (VObj 0) 5) /\
    (1000 <= 5)%Z)) /\
  (forall i x, heap w !! i = Some x -> heap w1 !! i = Some x).
Proof.
  intros response w.
  exact (addToCache_store w "h" "old" 60000 0 (Object KMessage response)
           (Entry (VObj 0) 5) eq_refl).
Defined.

Lemma jfHttpRequest_url_event_mode_witness :
  let response : gmap string value :=
    list_to_map [ ("statusCode", VNum 200) ] in
  let w := World [Object KMessage response] ∅ (VNum 0) 1000 [] in
  let net := NetResponse 10 (VObj 0) ["hello"] in
  let options :=
    aliased_host
      (@merged_url Sample.node {[ "url" := VStr "http://example.com/a?b=1" ]}) in
  exists w' : world,
    @jfHttpRequest Sample.node Sample.http_headers
      (VStr "http://example.com/a?b=1") net w = (Ret (VObj 2), w') /\
    heap w' !! 1%nat = Some (Object KObject options) /\
    options !! "url" = None /\
    prop options "hostname" = VStr "example.com" /\
    trace w' =
      (sent_events 1 options ++ [Emit (VObj 2) "request-ok" (VObj 0)])%list.
Proof.
  intros response w net options.
  apply (@jfHttpRequest_url_event_mode Sample.node Sample.http_headers
           w "http://example.com/a?b=1" net);
    [discriminate | reflexivity | reflexivity | reflexivity | reflexivity
    | reflexivity | apply conj; [by eexists | vm_compute; exact I] | ].
  intros h Hh. apply conj; [|exact I].
  cbn [request_throws Sample.node]. unfold Sample.refuses, addr in *.
    rewrite Hh.
  vm_compute. reflexivity.
Defined.

Lemma part000_promise_text_settles_witness :
  let options : gmap string value :=
    list_to_map [ ("hostname", VStr "example.com");
                  ("requestType", VStr "promise") ] in
  let response : gmap string value :=
    list_to_map [ ("statusCode", VNum 404) ] in
  let w := World [Object KObject options; Object KMessage response]
                 ∅ (VNum 0) 1000 [] in
  exists w' : world,
    @Part000.jfHttpRequest Sample.node Sample.http_headers (VObj 0)
      (NetResponse 10 (VObj 1) ["gone"]) w = (Ret (VObj 2), w') /\
    heap w !! 2%nat = None /\
    o_kind <$> heap w' !! 2%nat = Some KPromise /\
    trace w' =
      [Request false (VObj 0); RequestEnd; Resolve (VObj 2) (VObj 1)].
Proof.
  intros options response w.
  apply (@part000_promise_text_settles Sample.node Sample.http_headers
           w 0 (Object KObject options) (NetResponse 10 (VObj 1) ["gone"]));
    [reflexivity | intros u Hu; vm_compute in Hu; discriminate
    | reflexivity | reflexivity | reflexivity | reflexivity | | ].
  - intros h Hh. apply conj; [|exact I].
    cbn [request_throws Sample.node]. unfold Sample.refuses, addr in *.
    rewrite Hh.
    vm_compute. reflexivity.
  - apply conj; [by eexists | vm_compute; exact I].
Defined.

Lemma part000_checkUrl_agrees_witness :
  let options : gmap string value :=
    list_to_map [ ("url", VStr "/status"); ("hostname", VStr "example.com") ] in
  let w := World [Object KObject options] ∅ (VNum 0) 1000 [] in
  @Part000.checkUrl Sample.node (VObj 0) w = @checkUrl Sample.node (VObj 0) w.
Proof.
  intros options w.
  apply (@part000_checkUrl_agrees Sample.node w 0 (Object KObject options));
    [reflexivity | ].
  intros u Hu. vm_compute in Hu. injection Hu as <-.
  apply conj; reflexivity.
Defined.

Lemma part000_checkUrl_parsed_path_witness :
  let options : gmap string value :=
    list_to_map [ ("url", VStr "http://example.com/a?b=1");
                  ("pathname", VStr "/other") ] in
  let w := World [Object KObject options] ∅ (VNum 0) 1000 [] in
  exists o' : object,
    heap (@Part000.checkUrl Sample.node (VObj 0) w).2 !! 0%nat = Some o' /\
    o_props o' !! "url" = None /\
    o_props o' !! "path" = Some (VStr "/a?b=1") /\
    o_props o' !! "pathname" = Some (VStr "/a").
Proof.
  intros options w.
  apply (@part000_checkUrl_parsed_path Sample.node w 0 (Object KObject options)
           "http://example.com/a?b=1" (VStr "/a?b=1"));
    reflexivity.
Defined.

Lemma part000_doRequest_agrees_witness :
  let options : gmap string value :=
    list_to_map [ ("hostname", VStr "example.com"); ("protocol", VStr "http:") ] in
  let response : gmap string value :=
    list_to_map [ ("statusCode", VNum 200); ("headers", VObj 2) ] in
  let w := World [Object KObject options; Object KMessage response;
                  Object KObject {[ "Content-Type" := VStr "application/json" ]}]
                 ∅ (VNum 0) 1000 [] in
  let ok := fun v => log (Resolve (VObj 9) v) in
  let error := fun v => log (Reject (VObj 9) v) in
  let net := NetResponse 10 (VObj 1) ["[]"] in
  @doRequest Sample.node Sample.http_headers (VObj 0) ok error net w =
  @Part000.doRequest Sample.node Sample.http_headers (VObj 0) ok error net w.
Proof.
  intros options response w ok error net.
  apply (@part000_doRequest_agrees Sample.node Sample.http_headers
           w 0 (Object KObject options) ok error net);
    [reflexivity | reflexivity | vm_compute; discriminate | | reflexivity].
  apply conj; [exists 1%nat; apply conj; [reflexivity | by eexists]
              | reflexivity].
Defined.

Lemma checkHeaders_non_text_content_type_witness :
  let options : gmap string value :=
    list_to_map [ ("hostname", VStr "example.com"); ("headers", VObj 1) ] in
  let w := World [Object KObject options;
                  Object KObject {[ "Content-Type" := VNum 42 ]}]
                 ∅ (VNum 0) 1000 [] in
  exists e : exn, @checkHeaders Sample.http_headers (VObj 0) w = (Throw e, w).
Proof.
  intros options w.
  apply (@checkHeaders_non_text_content_type Sample.http_headers
           w 0 (Object KObject options) (VObj 1));
    [reflexivity | reflexivity | reflexivity
    | intros s Hs; vm_compute in Hs; discriminate | reflexivity].
Defined.

Lemma jfHttpRequest_function_type_witness :
  let options : gmap string value :=
    list_to_map [ ("hostname", VStr "example.com");
                  ("requestType", VFun 2) ] in
  let response : gmap string value :=
    list_to_map [ ("statusCode", VNum 201) ] in
  let w := World [Object KObject options; Object KMessage response;
                  Object KFunction {[ "prototype" := VObj 3 ]};
                  Object KObject ∅]
                 ∅ (VNum 0) 1000 [] in
  exists w' : world,
    @jfHttpRequest Sample.node Sample.http_headers (VObj 0)
      (NetResponse 10 (VObj 1) ["made"]) w = (Ret VUndef, w') /\
    trace w' =
      [Request false (VObj 0); RequestEnd;
       Callback (VFun 2) (VObj 1) "request-ok"].
Proof.
  intros options response w.
  apply (@jfHttpRequest_function_type Sample.node Sample.http_headers
           w 0 (Object KObject options) (VFun 2) false
           (NetResponse 10 (VObj 1) ["made"]));
    [reflexivity | intros u Hu; vm_compute in Hu; discriminate
    | reflexivity | reflexivity | reflexivity | reflexivity | reflexivity
    | reflexivity | discriminate | reflexivity | | ].
  - intros h Hh. apply conj; [|exact I].
    cbn [request_throws Sample.node]. unfold Sample.refuses, addr in *.
    rewrite Hh.
    vm_compute. reflexivity.
  - apply conj; [by eexists | vm_compute; exact I].
Defined.

Lemma doRequest_expired_entry_is_not_served_witness :
  let options : gmap string value :=
    list_to_map [ ("hostname", VStr "example.com"); ("cacheTime", VNum 60000) ] in
  let stored : gmap string value :=
    list_to_map [ ("statusCode", VNum 200); ("body", VStr "hello") ] in
  let h := [Object KObject options; Object KObject stored] in
  let key := @sha256_hex Sample.node (@JSON_stringify Sample.node h (VObj 0)) in
  let w := World h {[ key := Entry (VObj 1) 999 ]} (VNum 0) 1000 [] in
  let ok := fun v => log (Resolve (VObj 9) v) in
  let error := fun v => log (Reject (VObj 9) v) in
  exists w' : world,
    @doRequest Sample.node Sample.http_headers (VObj 0) ok error
      (NetError 10 (VErr "ECONNREFUSED")) w = error (VErr "ECONNREFUSED") w' /\
    trace w' = [Request false (VObj 0); RequestEnd].
Proof.
  intros options stored h key w ok error.
  apply (@doRequest_expired_entry_is_not_served Sample.node Sample.http_headers
           w 0 (Object KObject options) ok error
           (NetError 10 (VErr "ECONNREFUSED")) (Entry (VObj 1) 999));
    [reflexivity | vm_compute; reflexivity | cbn; lia
    | apply conj; [reflexivity | exact I] | exact I].
Defined.

Lemma purgeCache_later_witness :
  let w := World [] (list_to_map [ ("a", Entry (VObj 0) 1005);
                                   ("b", Entry (VObj 0) 2000) ])
                 (VNum 0) 1000 [] in
  purgeCache (advance 10 (purgeCache w).2) = purgeCache (advance 10 w).
Proof.
  intros w. apply (purgeCache_later w 10). lia.
Defined.



